(** * Upstage n8n nodes: a shallow embedding and its verified properties

    The development follows the TypeScript sources:
    - [createMultipartFormData] (DocumentOCRUpstage.node.ts and
      DocumentParsingUpstage.node.ts hold the same text),
    - [validateAndFixJsonStructure] and [advancedJsonFix]
      (InformationExtractionUpstage.node.ts),
    - the four [execute] methods, one module per node.

    Conventions.  A JavaScript string is a Rocq [string] holding its UTF-8
    bytes, so that [Buffer.from] is the identity on bytes; the regular
    expressions of the sources only name ASCII characters and a few
    white-space and zero-width characters, whose UTF-8 encodings are written
    out below.  A [Buffer] is a [list byte]. *)

From Stdlib Require Import Bool Arith NArith ZArith Lia List.
From Stdlib.Strings Require Import Ascii String Byte.
From Stdlib Require Import DecimalString.
Import ListNotations.
#[local] Set Warnings "-register-all".
Open Scope list_scope.
Open Scope string_scope.
Open Scope nat_scope.

(* ================================================================= *)
(** * Strings *)

Definition dquote : ascii := ascii_of_nat 34.
Definition CR : ascii := ascii_of_nat 13.
Definition LF : ascii := ascii_of_nat 10.
Definition CRLF : string := String CR (String LF "").

(** [q s] is [s] between double quotes. *)
Definition q (s : string) : string := String dquote (s ++ String dquote "").

Fixpoint count_char (c : ascii) (s : string) : nat :=
  match s with
  | "" => 0
  | String a t => (if Ascii.eqb a c then 1 else 0) + count_char c t
  end.

(** ['c'.repeat(n)] *)
Fixpoint repeat_char (c : ascii) (n : nat) : string :=
  match n with
  | O => ""
  | S k => String c (repeat_char c k)
  end.

Fixpoint strip_prefix (p s : string) : option string :=
  match p, s with
  | "", _ => Some s
  | String a p', String b s' => if Ascii.eqb a b then strip_prefix p' s' else None
  | String _ _, "" => None
  end.

Fixpoint take_while (f : ascii -> bool) (s : string) : string * string :=
  match s with
  | "" => ("", "")
  | String a t =>
      if f a then let (x, y) := take_while f t in (String a x, y)
      else ("", s)
  end.

Fixpoint all_chars (f : ascii -> bool) (s : string) : bool :=
  match s with
  | "" => true
  | String a t => f a && all_chars f t
  end.

(** A regular expression used with [String.prototype.replace] is modelled by
    what it does at one position: [m s = Some (n, r)] when the expression
    matches the first [n] characters of [s] (with [0 < n]: none of the
    expressions of the sources matches the empty string) and the match is
    replaced by [r]. *)
Definition matcher := string -> option (nat * string).

(** [s.replace(/re/g, ...)]: leftmost matches, scanning from left to right and
    resuming after each match.  [skip] counts the characters of the current
    match that are still to be dropped. *)
Fixpoint replace_from (m : matcher) (skip : nat) (s : string) : string :=
  match s with
  | "" => ""
  | String c t =>
      match skip with
      | S k => replace_from m k t
      | O =>
          match m s with
          | Some (S k, r) => r ++ replace_from m k t
          | _ => String c (replace_from m 0 t)
          end
      end
  end.

Definition replace_all (m : matcher) (s : string) : string := replace_from m 0 s.

(** [s.replace(/c+$/, r)]: the leftmost position from which the string is a
    non-empty run of [c] up to its end is the start of the trailing run. *)
Fixpoint replace_trailing_run (c : ascii) (r : string) (s : string) : string :=
  match s with
  | "" => ""
  | String a t =>
      if Ascii.eqb a c && all_chars (Ascii.eqb c) t then r
      else String a (replace_trailing_run c r t)
  end.

(** ** White space, [trim] and the expressions of the cleaning steps *)

(** The number of bytes of the white-space character at the head of [s], or 0:
    the characters of [\s] and of [trim] are U+0009 to U+000D, U+0020, U+00A0,
    U+1680, U+2000 to U+200A, U+2028, U+2029, U+202F, U+205F, U+3000 and
    U+FEFF. *)
Definition js_space_len (s : string) : nat :=
  match s with
  | "" => 0
  | String a t =>
      let x := nat_of_ascii a in
      if ((9 <=? x) && (x <=? 13)) || (x =? 32) then 1
      else
        match t with
        | "" => 0
        | String b u =>
            let y := nat_of_ascii b in
            if (x =? 194) && (y =? 160) then 2
            else
              match u with
              | "" => 0
              | String c _ =>
                  let z := nat_of_ascii c in
                  if (x =? 225) && (y =? 154) && (z =? 128) then 3
                  else if (x =? 226) && (y =? 128) &&
                          (((128 <=? z) && (z <=? 138)) ||
                           (z =? 168) || (z =? 169) || (z =? 175)) then 3
                  else if (x =? 226) && (y =? 129) && (z =? 159) then 3
                  else if (x =? 227) && (y =? 128) && (z =? 128) then 3
                  else if (x =? 239) && (y =? 187) && (z =? 191) then 3
                  else 0
              end
        end
  end.

(** The number of bytes of the longest run of white space at the head of [s];
    [skip] counts the bytes of the current character still to be passed. *)
Fixpoint space_run (skip : nat) (s : string) : nat :=
  match s with
  | "" => 0
  | String _ t =>
      match skip with
      | S k => S (space_run k t)
      | O =>
          match js_space_len s with
          | S k => S (space_run k t)
          | O => 0
          end
      end
  end.

Fixpoint drop (n : nat) (s : string) : string :=
  match n, s with
  | S k, String _ t => drop k t
  | _, _ => s
  end.

Definition trimStart (s : string) : string := drop (space_run 0 s) s.

Fixpoint trimEnd (s : string) : string :=
  match s with
  | "" => ""
  | String a t =>
      if space_run 0 s =? String.length s then "" else String a (trimEnd t)
  end.

(** [s.trim()] *)
Definition trim (s : string) : string := trimEnd (trimStart s).

(** The class of U+200B to U+200D and U+FEFF, replaced by nothing. *)
Definition zeroWidth : matcher := fun s =>
  match s with
  | String a (String b (String c _)) =>
      let x := nat_of_ascii a in
      let y := nat_of_ascii b in
      let z := nat_of_ascii c in
      if ((x =? 226) && (y =? 128) && (139 <=? z) && (z <=? 141)) ||
         ((x =? 239) && (y =? 187) && (z =? 191))
      then Some (3, "")
      else None
  | _ => None
  end.

(** CR LF replaced by LF; CR replaced by LF; LF replaced by nothing. *)
Definition windowsBreak : matcher := fun s =>
  match strip_prefix CRLF s with
  | Some _ => Some (2, String LF "")
  | None => None
  end.

Definition macBreak : matcher := fun s =>
  match s with
  | String a _ => if Ascii.eqb a CR then Some (1, String LF "") else None
  | "" => None
  end.

Definition lineBreak : matcher := fun s =>
  match s with
  | String a _ => if Ascii.eqb a LF then Some (1, "") else None
  | "" => None
  end.

(** A run of white space replaced by one space. *)
Definition spaces : matcher := fun s =>
  match space_run 0 s with
  | O => None
  | n => Some (n, " ")
  end.

(** The characters of the class of JSON separators: braces, brackets, the
    double quote, the colon and the comma. *)
Definition is_separator (c : ascii) : bool :=
  Ascii.eqb c "{" || Ascii.eqb c "}" || Ascii.eqb c "[" || Ascii.eqb c "]" ||
  Ascii.eqb c dquote || Ascii.eqb c ":" || Ascii.eqb c ",".

(** White space, then a separator: replaced by the separator.  The greedy run
    can only be followed by a separator at its full length. *)
Definition spaceBeforeSeparator : matcher := fun s =>
  let n := space_run 0 s in
  match drop n s with
  | String c _ => if is_separator c then Some (S n, String c "") else None
  | "" => None
  end.

(** A separator, then white space: replaced by the separator. *)
Definition spaceAfterSeparator : matcher := fun s =>
  match s with
  | String c t => if is_separator c then Some (S (space_run 0 t), String c "") else None
  | "" => None
  end.

(* ================================================================= *)
(** * JavaScript values and [JSON.parse] *)

(** Numbers are kept as the decimal text they were read from; the rounding of
    IEEE doubles is not modelled. *)
Inductive value : Type :=
| VUndefined
| VNull
| VBool (b : bool)
| VNum (lexeme : string)
| VStr (s : string)
| VArr (elems : list value)
| VObj (props : list (string * value)).

Definition is_digit (c : ascii) : bool :=
  let n := nat_of_ascii c in (48 <=? n) && (n <=? 57).

Definition is_json_ws (c : ascii) : bool :=
  let n := nat_of_ascii c in
  (n =? 32) || (n =? 9) || (n =? 10) || (n =? 13).

Fixpoint skip_ws (s : string) : string :=
  match s with
  | String a t => if is_json_ws a then skip_ws t else s
  | "" => ""
  end.

Definition hex_digit (c : ascii) : option nat :=
  let n := nat_of_ascii c in
  if (48 <=? n) && (n <=? 57) then Some (n - 48)
  else if (65 <=? n) && (n <=? 70) then Some (n - 55)
  else if (97 <=? n) && (n <=? 102) then Some (n - 87)
  else None.

(** UTF-8 bytes of one UTF-16 code unit below 65536 (a surrogate is encoded on
    its own, as three bytes). *)
Definition utf8_of_code_unit (n : nat) : string :=
  if n <? 128 then String (ascii_of_nat n) ""
  else if n <? 2048 then
    String (ascii_of_nat (192 + n / 64)) (String (ascii_of_nat (128 + n mod 64)) "")
  else
    String (ascii_of_nat (224 + n / 4096))
      (String (ascii_of_nat (128 + (n / 64) mod 64))
         (String (ascii_of_nat (128 + n mod 64)) "")).

Definition unescape (c : ascii) : option string :=
  let n := nat_of_ascii c in
  if n =? 34 then Some (String dquote "")
  else if n =? 92 then Some "\"
  else if n =? 47 then Some "/"
  else if n =? 98 then Some (String (ascii_of_nat 8) "")
  else if n =? 102 then Some (String (ascii_of_nat 12) "")
  else if n =? 110 then Some (String LF "")
  else if n =? 114 then Some (String CR "")
  else if n =? 116 then Some (String (ascii_of_nat 9) "")
  else None.

(** The characters of a JSON string after its opening quote, up to and
    including the closing quote: the decoded text and the rest of the input. *)
Fixpoint parse_string (s : string) : option (string * string) :=
  match s with
  | "" => None
  | String c t =>
      if Ascii.eqb c dquote then Some ("", t)
      else if Ascii.eqb c "\" then
        match t with
        | String "u" (String h1 (String h2 (String h3 (String h4 t')))) =>
            match hex_digit h1, hex_digit h2, hex_digit h3, hex_digit h4 with
            | Some a, Some b, Some c', Some d =>
                match parse_string t' with
                | Some (x, r) =>
                    Some (utf8_of_code_unit (4096 * a + 256 * b + 16 * c' + d) ++ x, r)
                | None => None
                end
            | _, _, _, _ => None
            end
        | String e t' =>
            match unescape e with
            | Some u =>
                match parse_string t' with
                | Some (x, r) => Some (u ++ x, r)
                | None => None
                end
            | None => None
            end
        | "" => None
        end
      else if nat_of_ascii c <? 32 then None
      else
        match parse_string t with
        | Some (x, r) => Some (String c x, r)
        | None => None
        end
  end.

(** A JSON number: an optional minus sign, an integer part without a leading
    zero (unless it is the digit 0 alone), an optional fraction and an optional
    exponent. *)
Definition parse_number (s : string) : option (string * string) :=
  let (sign, s1) :=
    match s with
    | String "-" t => ("-", t)
    | _ => ("", s)
    end in
  let (int, s2) := take_while is_digit s1 in
  let int_ok :=
    match int with
    | "" => false
    | String "0" (String _ _) => false
    | _ => true
    end in
  if negb int_ok then None
  else
    let frac :=
      match s2 with
      | String "." t =>
          let (ds, r) := take_while is_digit t in
          match ds with
          | "" => None
          | _ => Some ("." ++ ds, r)
          end
      | _ => Some ("", s2)
      end in
    match frac with
    | None => None
    | Some (fr, s3) =>
        let exp :=
          match s3 with
          | String e t =>
              if Ascii.eqb e "e" || Ascii.eqb e "E" then
                let (sg, t') :=
                  match t with
                  | String "+" u => ("+", u)
                  | String "-" u => ("-", u)
                  | _ => ("", t)
                  end in
                let (ds, r) := take_while is_digit t' in
                match ds with
                | "" => None
                | _ => Some (String e (sg ++ ds), r)
                end
              else Some ("", s3)
          | "" => Some ("", s3)
          end in
        match exp with
        | None => None
        | Some (ex, s4) => Some (sign ++ int ++ fr ++ ex, s4)
        end
    end.

Fixpoint parse_value (fuel : nat) (s : string) {struct fuel} : option (value * string) :=
  match fuel with
  | O => None
  | S fuel' =>
      match s with
      | "" => None
      | String c t =>
          if Ascii.eqb c "{" then
            match skip_ws t with
            | String "}" r => Some (VObj [], r)
            | t' => parse_members fuel' t' []
            end
          else if Ascii.eqb c "[" then
            match skip_ws t with
            | String "]" r => Some (VArr [], r)
            | t' => parse_elements fuel' t' []
            end
          else if Ascii.eqb c dquote then
            match parse_string t with
            | Some (x, r) => Some (VStr x, r)
            | None => None
            end
          else
            match strip_prefix "true" s, strip_prefix "false" s, strip_prefix "null" s with
            | Some r, _, _ => Some (VBool true, r)
            | _, Some r, _ => Some (VBool false, r)
            | _, _, Some r => Some (VNull, r)
            | None, None, None =>
                match parse_number s with
                | Some (x, r) => Some (VNum x, r)
                | None => None
                end
            end
      end
  end

with parse_members (fuel : nat) (s : string) (acc : list (string * value))
       {struct fuel} : option (value * string) :=
  match fuel with
  | O => None
  | S fuel' =>
      match s with
      | "" => None
      | String c t =>
          if Ascii.eqb c dquote then
            match parse_string t with
            | None => None
            | Some (k, r) =>
                match skip_ws r with
                | String ":" r1 =>
                    match parse_value fuel' (skip_ws r1) with
                    | None => None
                    | Some (v, r2) =>
                        match skip_ws r2 with
                        | String "," r3 => parse_members fuel' (skip_ws r3) (acc ++ [(k, v)])
                        | String "}" r3 => Some (VObj (acc ++ [(k, v)]), r3)
                        | _ => None
                        end
                    end
                | _ => None
                end
            end
          else None
      end
  end

with parse_elements (fuel : nat) (s : string) (acc : list value)
       {struct fuel} : option (value * string) :=
  match fuel with
  | O => None
  | S fuel' =>
      match parse_value fuel' s with
      | None => None
      | Some (v, r) =>
          match skip_ws r with
          | String "," r1 => parse_elements fuel' (skip_ws r1) (acc ++ [v])
          | String "]" r1 => Some (VArr (acc ++ [v]), r1)
          | _ => None
          end
      end
  end.

(** [JSON.parse(text)]: [None] stands for the [SyntaxError] it throws.  Two
    calls of the parser per character read are enough fuel. *)
Definition JSON_parse (text : string) : option value :=
  match parse_value (2 * String.length text + 2) (skip_ws text) with
  | Some (v, r) =>
      match skip_ws r with
      | "" => Some v
      | _ => None
      end
  | None => None
  end.

(* ================================================================= *)
(** * InformationExtractionUpstage: the JSON repair routine *)

(** The first expression of [advancedJsonFix]: the text [properties] between
    double quotes, a colon and an opening brace, then a greedy run of
    characters other than a closing brace (the group), then four closing
    braces; the replacement is the group followed by three closing braces.
    The greedy run stops at the first closing brace, where the four must
    follow. *)
Definition propertiesPattern : matcher := fun s =>
  match strip_prefix (q "properties" ++ ":{") s with
  | None => None
  | Some rest =>
      let (inner, after) := take_while (fun c => negb (Ascii.eqb c "}")) rest in
      match strip_prefix "}}}}" after with
      | None => None
      | Some _ =>
          Some (String.length (q "properties" ++ ":{") + String.length inner + 4,
                q "properties" ++ ":{" ++ inner ++ "}}}")
      end
  end.

(** The second expression: a run of three or more closing braces, with the
    callback of the source, which returns two closing braces for every match
    (a match always has more than two characters). *)
Definition closingRun : matcher := fun s =>
  let (run, _) := take_while (Ascii.eqb "}") s in
  let count := String.length run in
  if 2 <? count then Some (count, "}}") else None.

Definition advancedJsonFix (jsonString : string) : string :=
  let jsonString := replace_all propertiesPattern jsonString in
  let jsonString := replace_all closingRun jsonString in
  jsonString.

(** Steps 1 and 2 of [validateAndFixJsonStructure]: the four counts are taken
    on the argument, the closing braces are balanced first and the closing
    brackets second. *)
Definition balanceStructure (jsonString : string) : string :=
  (* Step 1: basic bracket balance check *)
  let openBraces := count_char "{" jsonString in
  let closeBraces := count_char "}" jsonString in
  let openBrackets := count_char "[" jsonString in
  let closeBrackets := count_char "]" jsonString in
  (* Step 2: structural analysis and modification *)
  let fixedJson := jsonString in
  let fixedJson :=
    if closeBraces <? openBraces then
      let missingBraces := openBraces - closeBraces in
      fixedJson ++ repeat_char "}" missingBraces
    else if openBraces <? closeBraces then
      let extraBraces := closeBraces - openBraces in
      replace_trailing_run "}" (repeat_char "}" (closeBraces - extraBraces)) fixedJson
    else fixedJson in
  let fixedJson :=
    if closeBrackets <? openBrackets then
      let missingBrackets := openBrackets - closeBrackets in
      fixedJson ++ repeat_char "]" missingBrackets
    else if openBrackets <? closeBrackets then
      let extraBrackets := closeBrackets - openBrackets in
      replace_trailing_run "]" (repeat_char "]" (closeBrackets - extraBrackets)) fixedJson
    else fixedJson in
  fixedJson.

Definition validateAndFixJsonStructure (jsonString : string) : string :=
  let fixedJson := balanceStructure jsonString in
  (* Step 3: JSON validation *)
  match JSON_parse fixedJson with
  | Some _ => fixedJson
  | None =>
      (* Step 4: advanced modification attempt *)
      let fixedJson := advancedJsonFix fixedJson in
      (* Step 5: final validation *)
      match JSON_parse fixedJson with
      | Some _ => fixedJson
      | None => jsonString (* return original *)
      end
  end.

(* ================================================================= *)
(** * The multipart/form-data builder *)

Definition Buffer := list byte.

(** [array.push(x)] *)
Definition push {A : Type} (array : list A) (x : A) : list A := (array ++ [x])%list.

(** [Buffer.from(text)] *)
Definition Buffer_from (text : string) : Buffer := list_byte_of_string text.

Record FileDescriptor := {
  buffer : Buffer;
  filename : string;
  contentType : string
}.

(** [createMultipartFormData(fields, file)].  [random] stands for
    [Math.random().toString(36).substring(2)]; [fields] lists the entries of
    the field object in the order of [Object.entries].  The result is the pair
    of [body] and [contentType]. *)
Definition createMultipartFormData (random : string)
    (fields : list (string * string)) (file : FileDescriptor) : Buffer * string :=
  let boundary := "----WebKitFormBoundary" ++ random in
  let parts : list Buffer := [] in
  (* Add text fields *)
  let parts :=
    fold_left
      (fun parts '(name, value) =>
         push parts
           (Buffer_from
              ("--" ++ boundary ++ CRLF ++
               "Content-Disposition: form-data; name=" ++ q name ++ CRLF ++ CRLF ++
               value ++ CRLF)))
      fields parts in
  (* Add file *)
  let parts :=
    push parts
      (Buffer_from
         ("--" ++ boundary ++ CRLF ++
          "Content-Disposition: form-data; name=" ++ q "document" ++
          "; filename=" ++ q (filename file) ++ CRLF ++
          "Content-Type: " ++ contentType file ++ CRLF ++ CRLF)) in
  let parts := push parts (buffer file) in
  let parts := push parts (Buffer_from CRLF) in
  (* End boundary *)
  let parts := push parts (Buffer_from ("--" ++ boundary ++ "--" ++ CRLF)) in
  (List.concat parts, "multipart/form-data; boundary=" ++ boundary).

(** ** A reference reader of multipart/form-data bodies

    The reader follows RFC 2046 (section 5.1.1) and RFC 7578 for bodies
    that start with the dash-boundary (no preamble).  What follows a
    dash-boundary runs up to the next delimiter (CRLF, two dashes, the
    boundary), wherever that stands: this is one part.  In the part, the rest
    of the boundary line and the header lines come first; the content is
    what follows the first empty line, and a part without an empty line has
    no content.  The close delimiter ends the list; what follows it is
    ignored.  Header names are compared as written by the builder; the
    parameters of Content-Disposition are quoted strings that end at the next
    double quote, as in the HTML standard. *)

Record Part := {
  part_name : string;
  part_filename : option string;
  part_contentType : option string;
  part_content : Buffer
}.

(** The text before and the text after the first occurrence of [pat]. *)
Fixpoint split_at (pat s : string) : option (string * string) :=
  match strip_prefix pat s with
  | Some r => Some ("", r)
  | None =>
      match s with
      | "" => None
      | String a t =>
          match split_at pat t with
          | Some (x, y) => Some (String a x, y)
          | None => None
          end
      end
  end.

Fixpoint contains (pat s : string) : bool :=
  match strip_prefix pat s with
  | Some _ => true
  | None =>
      match s with
      | "" => false
      | String _ t => contains pat t
      end
  end.

Definition is_blank (c : ascii) : bool :=
  Ascii.eqb c " " || Ascii.eqb c (ascii_of_nat 9).

Fixpoint trim_left (s : string) : string :=
  match s with
  | String a t => if is_blank a then trim_left t else s
  | "" => ""
  end.

Fixpoint trim_right (s : string) : string :=
  match s with
  | "" => ""
  | String a t => if all_chars is_blank s then "" else String a (trim_right t)
  end.

Definition trim_blank (s : string) : string := trim_right (trim_left s).

Definition cons_head (a : ascii) (ls : list string) : list string :=
  match ls with
  | [] => [String a ""]
  | l :: ls' => String a l :: ls'
  end.

(** The lines of a text whose lines are separated by CRLF. *)
Fixpoint split_lines (s : string) : list string :=
  match s with
  | "" => [""]
  | String a t =>
      match t with
      | String b r =>
          if Ascii.eqb a CR && Ascii.eqb b LF then "" :: split_lines r
          else cons_head a (split_lines t)
      | "" => [String a ""]
      end
  end.

Definition header_of_line (line : string) : option (string * string) :=
  match split_at ":" line with
  | Some (name, v) => Some (name, trim_blank v)
  | None => None
  end.

Fixpoint headers_of_lines (ls : list string) : option (list (string * string)) :=
  match ls with
  | [] => Some []
  | l :: ls' =>
      match header_of_line l, headers_of_lines ls' with
      | Some h, Some hs => Some (h :: hs)
      | _, _ => None
      end
  end.

Fixpoint assoc (k : string) (l : list (string * string)) : option string :=
  match l with
  | [] => None
  | (k', v) :: l' => if String.eqb k k' then Some v else assoc k l'
  end.

(** The parameters after the disposition type: a semicolon, blanks, a key, an
    equals sign and a quoted value, repeated. *)
Fixpoint parse_params (fuel : nat) (s : string) : option (list (string * string)) :=
  match fuel with
  | O => None
  | S fuel' =>
      match s with
      | "" => Some []
      | String c t =>
          if Ascii.eqb c ";" then
            match split_at "=" (trim_left t) with
            | Some (key, String d v) =>
                if Ascii.eqb d dquote then
                  match split_at (String dquote "") v with
                  | Some (val, rest) =>
                      match parse_params fuel' rest with
                      | Some ps => Some ((key, val) :: ps)
                      | None => None
                      end
                  | None => None
                  end
                else None
            | _ => None
            end
          else None
      end
  end.

(** The header block of a part: the text between the dash-boundary and the
    empty line.  It gives the name, the file name and the content type. *)
Definition parse_part_headers (block : string)
  : option (string * option string * option string) :=
  match split_lines block with
  | pad :: ls =>
      if all_chars is_blank pad then
        match headers_of_lines ls with
        | None => None
        | Some hs =>
            match assoc "Content-Disposition" hs with
            | None => None
            | Some d =>
                match strip_prefix "form-data" d with
                | None => None
                | Some ps =>
                    match parse_params (S (String.length ps)) ps with
                    | None => None
                    | Some params =>
                        match assoc "name" params with
                        | None => None
                        | Some n =>
                            Some (n, assoc "filename" params, assoc "Content-Type" hs)
                        end
                    end
                end
            end
        end
      else None
  | [] => None
  end.

(** [s] without the line break at its end. *)
Fixpoint drop_last_CRLF (s : string) : option string :=
  match s with
  | "" => None
  | String a t =>
      match t with
      | String b "" =>
          if Ascii.eqb a CR && Ascii.eqb b LF then Some ""
          else option_map (String a) (drop_last_CRLF t)
      | _ => option_map (String a) (drop_last_CRLF t)
      end
  end.

(** The header block and the content of a part. *)
Definition split_part (part : string) : string * string :=
  match split_at (CRLF ++ CRLF) part with
  | Some (block, content) => (block, content)
  | None =>
      match drop_last_CRLF part with
      | Some block => (block, "")
      | None => (part, "")
      end
  end.

(** [s] is the text that follows a dash-boundary. *)
Fixpoint parse_parts (fuel : nat) (delimiter : string) (s : string)
  : option (list Part) :=
  match fuel with
  | O => None
  | S fuel' =>
      match strip_prefix "--" s with
      | Some _ => Some []
      | None =>
          match split_at delimiter s with
          | None => None
          | Some (part, rest) =>
              let (block, content) := split_part part in
              match parse_part_headers block with
              | Some (n, fn, ct) =>
                  match parse_parts fuel' delimiter rest with
                  | Some ps =>
                      Some ({| part_name := n;
                               part_filename := fn;
                               part_contentType := ct;
                               part_content := list_byte_of_string content |} :: ps)
                  | None => None
                  end
              | None => None
              end
          end
      end
  end.

(** The parts of [body], read with the boundary that the Content-Type header
    value [header] carries. *)
Definition parse_multipart (header : string) (body : Buffer) : option (list Part) :=
  match strip_prefix "multipart/form-data; boundary=" header with
  | None => None
  | Some boundary =>
      let text := string_of_list_byte body in
      match strip_prefix ("--" ++ boundary) text with
      | None => None
      | Some rest =>
          parse_parts (S (String.length text)) (CRLF ++ "--" ++ boundary) rest
      end
  end.

(** What the reader is expected to give back. *)
Definition field_part (f : string * string) : Part :=
  {| part_name := fst f;
     part_filename := None;
     part_contentType := None;
     part_content := Buffer_from (snd f) |}.

Definition file_part (file : FileDescriptor) : Part :=
  {| part_name := "document";
     part_filename := Some (filename file);
     part_contentType := Some (contentType file);
     part_content := buffer file |}.

Definition expected_parts (fields : list (string * string)) (file : FileDescriptor)
  : list Part :=
  (map field_part fields ++ [file_part file])%list.







(** The delimiter of a body built with the random text [random], and the
    fields whose name and value the builder writes without harm. *)
Definition delimiter_of (random : string) : string :=
  CRLF ++ "--" ++ "----WebKitFormBoundary" ++ random.



(* ================================================================= *)
(** * The host, the items and the effects of [execute] *)

(** ** Values at run time *)

(** The digits of a text read as one number in base ten; the other
    characters (a sign, the point) are passed over. *)
Fixpoint digits_from (acc : N) (s : string) : N :=
  match s with
  | "" => acc
  | String c t =>
      if is_digit c
      then digits_from (10 * acc + N.of_nat (nat_of_ascii c - 48))%N t
      else digits_from acc t
  end.

Fixpoint count_digits (s : string) : nat :=
  match s with
  | "" => 0
  | String c t => if is_digit c then S (count_digits t) else count_digits t
  end.

(** A number is falsy when the double it denotes is zero.  The lexeme of a
    JSON number denotes m * 10^shift, with m the digits of its mantissa; the
    nearest double is zero when that is at most 2^-1075, half the least
    positive double (the tie goes to the even neighbour, which is zero).  A
    shift that no mantissa of that length can make up for is decided without
    the power. *)
Definition number_nonzero (lexeme : string) : bool :=
  let (mantissa, exponent) :=
    take_while (fun c => negb (Ascii.eqb c "e" || Ascii.eqb c "E")) lexeme in
  let (_, fraction) := take_while (fun c => negb (Ascii.eqb c ".")) mantissa in
  let m := digits_from 0 mantissa in
  let e := Z.of_N (digits_from 0 exponent) in
  let e := if contains "-" exponent then Z.opp e else e in
  let shift := (e - Z.of_nat (count_digits fraction))%Z in
  if (m =? 0)%N then false
  else if (0 <=? shift)%Z then true
  else
    let k := Z.to_N (Z.opp shift) in
    if (N.of_nat (String.length mantissa) + 324 <=? k)%N then false
    else (10 ^ k <? m * 2 ^ 1075)%N.

Definition truthy (v : value) : bool :=
  match v with
  | VUndefined | VNull => false
  | VBool b => b
  | VNum x => number_nonzero x
  | VStr s => negb (String.eqb s "")
  | VArr _ | VObj _ => true
  end.

Definition nullish (v : value) : bool :=
  match v with
  | VUndefined | VNull => true
  | _ => false
  end.

(** [v ?? d] and [v || d] *)
Definition nullish_or (v d : value) : value := if nullish v then d else v.
Definition or_else (v d : value) : value := if truthy v then v else d.

(** [v === 'text'] *)
Definition is_string (v : value) (text : string) : bool :=
  match v with
  | VStr s => String.eqb s text
  | _ => false
  end.

(** [typeof v === 'object'] *)
Definition typeof_object (v : value) : bool :=
  match v with
  | VNull | VArr _ | VObj _ => true
  | _ => false
  end.

(** The value of an own property; the last of several bindings wins. *)
Fixpoint lookup (k : string) (props : list (string * value)) : option value :=
  match props with
  | [] => None
  | (k', v) :: rest =>
      match lookup k rest with
      | Some x => Some x
      | None => if String.eqb k k' then Some v else None
      end
  end.

Definition string_of_nat (n : nat) : string := NilEmpty.string_of_uint (Nat.to_uint n).
Definition string_of_Z (z : Z) : string := NilEmpty.string_of_int (Z.to_int z).

(** [v?.k] for the property names of the sources, none of which is a property
    of arrays or of primitive values. *)
Definition opt_get (v : value) (k : string) : value :=
  match v with
  | VObj props =>
      match lookup k props with
      | Some x => x
      | None => VUndefined
      end
  | _ => VUndefined
  end.

(** [v?.[0]]: the first element of an array, the property [0] of an object,
    the first character of a string (its first byte here; the sources only
    read properties of the result, which a string does not have). *)
Definition opt_first (v : value) : value :=
  match v with
  | VArr (x :: _) => x
  | VObj props =>
      match lookup "0" props with
      | Some x => x
      | None => VUndefined
      end
  | VStr (String c _) => VStr (String c "")
  | _ => VUndefined
  end.

(** ** Thrown values *)

(** Any value can be thrown, by the host as well.  Of a value that is
    neither null nor undefined the sources observe four things: whether it is
    an instance of [Error], its property [message] (any value, [VUndefined]
    when there is none), its property [statusCode] when the value is an
    object ([VUndefined] otherwise), and its property [code]. *)
Inductive Thrown : Type :=
| ThrownNull
| ThrownUndefined
| ThrownValue (instanceofError : bool) (message statusCode code : value).

(** [new Error(message)], and the errors of the language itself, with their
    message. *)
Definition Error (msg : string) : Thrown :=
  ThrownValue true (VStr msg) VUndefined VUndefined.

Inductive outcome (A : Type) : Type :=
| Ok (a : A)
| Throw (e : Thrown).
Arguments Ok {A} a.
Arguments Throw {A} e.

(** [error instanceof Error] *)
Definition instanceofError (error : Thrown) : bool :=
  match error with
  | ThrownValue b _ _ _ => b
  | _ => false
  end.

(** [error.message]: reading a property of null or of undefined throws. *)
Definition message (error : Thrown) : outcome value :=
  match error with
  | ThrownNull => Throw (Error "Cannot read properties of null (reading 'message')")
  | ThrownUndefined =>
      Throw (Error "Cannot read properties of undefined (reading 'message')")
  | ThrownValue _ m _ _ => Ok m
  end.

(** [error.statusCode] behind the tests [typeof error === 'object'],
    [error !== null] and ['statusCode' in error]. *)
Definition statusCode (error : Thrown) : value :=
  match error with
  | ThrownValue _ _ c _ => c
  | _ => VUndefined
  end.

(** [error?.code] *)
Definition code (error : Thrown) : value :=
  match error with
  | ThrownValue _ _ _ c => c
  | _ => VUndefined
  end.

(** ** Items and requests *)

Inductive FileSize : Type :=
| FileSizeNumber (bytes : Z)
| FileSizeText (text : string).

Record IBinaryData := {
  fileName : option string;
  mimeType : option string;
  fileSize : option FileSize
}.

Record INodeExecutionData := {
  json : value;
  binary : option (list (string * IBinaryData));
  pairedItem : option nat          (* [{ item: i }] *)
}.

(** The entry of its own that a binary object has under [name]. *)
Fixpoint binary_own (name : string) (b : list (string * IBinaryData))
  : option IBinaryData :=
  match b with
  | [] => None
  | (k, d) :: rest => if String.eqb k name then Some d else binary_own name rest
  end.

(** The names that every plain object inherits from [Object.prototype]. *)
Definition inherited_names : list string :=
  ["constructor"; "__defineGetter__"; "__defineSetter__"; "hasOwnProperty";
   "__lookupGetter__"; "__lookupSetter__"; "isPrototypeOf";
   "propertyIsEnumerable"; "toString"; "valueOf"; "__proto__"; "toLocaleString"].

(** [item.binary[name]], for the plain object that [item.binary] is: an entry
    of its own, or else what it inherits under that name, a function or the
    prototype itself, which is truthy and has no file name, no type and no
    size; [None] stands for undefined. *)
Definition binary_get (name : string) (b : list (string * IBinaryData))
  : option IBinaryData :=
  match binary_own name b with
  | Some d => Some d
  | None =>
      if existsb (String.eqb name) inherited_names
      then Some {| fileName := None; mimeType := None; fileSize := None |}
      else None
  end.

Inductive RequestBody : Type :=
| NoBody
| BufferBody (b : Buffer)
| JsonBody (v : value).

Record IHttpRequestOptions := {
  method : string;
  url : string;
  body : RequestBody;
  headers : list (string * string);
  json_flag : bool                 (* the option [json: true] *)
}.

(** ** The host *)

Record Category := { label : string; description : string }.
Record Categories := { values : option (list Category) }.

(** The type a parameter is cast to by the caller. *)
Inductive ParamType : Type :=
| PString | PBoolean | PNumber | PStrings | PAny | PCategories.

Definition param (t : ParamType) : Type :=
  match t with
  | PString => string
  | PBoolean => bool
  | PNumber => Z
  | PStrings => list string
  | PAny => value
  | PCategories => Categories
  end.

(** What [this] gives to [execute], and the functions of the run-time library
    that the sources call and that are not modelled further. *)
Record Host := {
  getInputData : list INodeExecutionData;
  (* name, item index, fallback *)
  getNodeParameter : forall t : ParamType, string -> nat -> option (param t) -> outcome (param t);
  getBinaryDataBuffer : nat -> string -> outcome Buffer;
  (* the number of requests issued before, and the request *)
  httpRequestWithAuthentication : nat -> IHttpRequestOptions -> outcome value;
  continueOnFail : bool;
  (* [Math.random().toString(36).substring(2)], drawn while item [i] is processed *)
  random_base36 : nat -> string;
  (* [new Date().toISOString()] while item [i] is processed *)
  toISOString : nat -> string;
  (* [buffer.toString('base64')] *)
  toBase64 : Buffer -> string;
  encodeURIComponent : string -> string;
  (* [JSON.stringify] of an array of strings *)
  JSON_stringify : list string -> string;
  (* the text of a value that is not a string, where a string is expected *)
  ToString : value -> string;
  (* the message of the [SyntaxError] of [JSON.parse] on a text *)
  syntaxErrorMessage : string -> string
}.

(** The text of a value inside a template literal. *)
Definition to_text (h : Host) (v : value) : string :=
  match v with
  | VStr s => s
  | _ => ToString h v
  end.

(** ** Effects: the list [returnData], the requests issued, exceptions *)

Record State := {
  returnData : list INodeExecutionData;
  requests : list IHttpRequestOptions
}.

Definition M (A : Type) : Type := State -> outcome A * State.

Definition ret {A : Type} (a : A) : M A := fun s => (Ok a, s).

Definition bind {A B : Type} (m : M A) (k : A -> M B) : M B :=
  fun s =>
    match m s with
    | (Ok a, s') => k a s'
    | (Throw e, s') => (Throw e, s')
    end.

Definition throw {A : Type} (e : Thrown) : M A := fun s => (Throw e, s).

Definition lift {A : Type} (o : outcome A) : M A := fun s => (o, s).

(** [try { m } catch (error) { handler error }] *)
Definition try_catch {A : Type} (m : M A) (handler : Thrown -> M A) : M A :=
  fun s =>
    match m s with
    | (Ok a, s') => (Ok a, s')
    | (Throw e, s') => handler e s'
    end.

(** [returnData.push(item)] *)
Definition returnData_push (item : INodeExecutionData) : M unit :=
  fun s =>
    (Ok tt, {| returnData := push (returnData s) item; requests := requests s |}).

(** [await this.helpers.httpRequestWithAuthentication.call(this, 'upstageApi', options)] *)
Definition httpRequest (h : Host) (options : IHttpRequestOptions) : M value :=
  fun s =>
    (httpRequestWithAuthentication h (List.length (requests s)) options,
     {| returnData := returnData s; requests := push (requests s) options |}).

Declare Scope js_scope.
Delimit Scope js_scope with js.
Notation "x <- m ;; k" := (bind m (fun x => k))
  (at level 100, m at next level, right associativity) : js_scope.
Notation "m ;; k" := (bind m (fun _ => k))
  (at level 100, right associativity) : js_scope.
Notation "' pat <- m ;; k" := (bind m (fun x => match x with pat => k end))
  (at level 100, pat pattern, m at next level, right associativity) : js_scope.
Open Scope js_scope.

(** [for (let i = 0; i < items.length; i++) body]; [count] is the number of
    rounds that remain. *)
Fixpoint for_loop (body : nat -> M unit) (i : nat) (count : nat) : M unit :=
  match count with
  | O => ret tt
  | S k => body i ;; for_loop body (S i) k
  end.

(** The whole of an [execute]: the loop, then [return [returnData]]. *)
Definition run_execute (items : list INodeExecutionData) (round : nat -> M unit)
  : outcome (list (list INodeExecutionData)) * State :=
  match for_loop round 0 (List.length items) {| returnData := []; requests := [] |} with
  | (Ok _, s) => (Ok [returnData s], s)
  | (Throw e, s) => (Throw e, s)
  end.

(** [text || fallback] on optional strings *)
Definition string_or (text : option string) (fallback : string) : string :=
  match text with
  | Some (String c t) => String c t
  | _ => fallback
  end.

(** [items[i]], then the test [!item.binary || !item.binary[name]] *)
Definition binary_of (items : list INodeExecutionData) (i : nat) (name : string)
  : outcome IBinaryData :=
  match nth_error items i with
  | None => Throw (Error "Cannot read properties of undefined (reading 'binary')")
  | Some item =>
      match binary item with
      | None => Throw (Error ("No binary data found in property " ++ q name ++ "."))
      | Some b =>
          match binary_get name b with
          | None => Throw (Error ("No binary data found in property " ++ q name ++ "."))
          | Some d => Ok d
          end
      end
  end.

(** [JSON.parse(text)] as a computation that throws. *)
Definition JSON_parse_or_throw (h : Host) (text : string) : outcome value :=
  match JSON_parse text with
  | Some v => Ok v
  | None => Throw (Error (syntaxErrorMessage h text))
  end.

Definition obj_item (j : value) (i : nat) : INodeExecutionData :=
  {| json := j; binary := None; pairedItem := Some i |}.

(* ================================================================= *)
(** * DocumentOCRUpstage *)

Module DocumentOCRUpstage.

(** The callback of [flatMap] in the words mode: [page.words || []], which
    throws on a page that is null or undefined. *)
Definition page_words (page : value) : outcome (list value) :=
  if nullish page then
    Throw (Error "Cannot read properties of undefined (reading 'words')")
  else
    match or_else (opt_get page "words") (VArr []) with
    | VArr ws => Ok ws
    | w => Ok [w]
    end.

Fixpoint flatMap_words (pages : list value) : outcome (list value) :=
  match pages with
  | [] => Ok []
  | page :: rest =>
      match page_words page with
      | Throw e => Throw e
      | Ok ws =>
          match flatMap_words rest with
          | Throw e => Throw e
          | Ok ws' => Ok (ws ++ ws')%list
          end
      end
  end.

(** [ocrResponse?.pages?.flatMap(...) || []] *)
Definition allWords (ocrResponse : value) : outcome value :=
  match opt_get ocrResponse "pages" with
  | VUndefined | VNull => Ok (VArr [])
  | VArr pages =>
      match flatMap_words pages with
      | Ok ws => Ok (VArr ws)
      | Throw e => Throw e
      end
  | _ => Throw (Error "ocrResponse?.pages?.flatMap is not a function")
  end.

(** The body of the [try] block for item [i]. *)
Definition try_block (h : Host) (i : nat) : M unit :=
  binaryPropertyName <- lift (getNodeParameter h PString "binaryPropertyName" i None) ;;
  model <- lift (getNodeParameter h PString "model" i None) ;;
  schema <- lift (getNodeParameter h PString "schema" i None) ;;
  returnMode <- lift (getNodeParameter h PString "returnMode" i None) ;;
  binaryData <- lift (binary_of (getInputData h) i binaryPropertyName) ;;
  (* Validate file size (50MB limit) *)
  match fileSize binaryData with
  | Some (FileSizeNumber n) =>
      if (50 * 1024 * 1024 <? n)%Z then throw (Error "File size exceeds 50MB limit")
      else ret tt
  | _ => ret tt
  end ;;
  buffer <- lift (getBinaryDataBuffer h i binaryPropertyName) ;;
  (* Prepare form fields *)
  let fields := [("model", model)] in
  let fields :=
    if String.eqb schema "" then fields else push fields ("schema", schema) in
  let '(body, contentType) :=
    createMultipartFormData (random_base36 h i) fields
      {| buffer := buffer;
         filename := string_or (fileName binaryData) "upload";
         contentType := string_or (mimeType binaryData) "application/octet-stream" |} in
  let requestOptions :=
    {| method := "POST";
       url := "https://api.upstage.ai/v1/document-digitization";
       body := BufferBody body;
       headers := [("Content-Type", contentType)];
       json_flag := false |} in
  ocrResponse <- httpRequest h requestOptions ;;
  (* Validate response structure *)
  if negb (truthy ocrResponse) || negb (typeof_object ocrResponse) then
    throw (Error "Invalid response format from Upstage OCR API")
  else
  (* Process response based on return mode *)
  if String.eqb returnMode "text" then
    returnData_push
      (obj_item (VObj [("text", nullish_or (opt_get ocrResponse "text") (VStr ""))]) i)
  else if String.eqb returnMode "pages" then
    returnData_push
      (obj_item (VObj [("pages", nullish_or (opt_get ocrResponse "pages") (VArr []))]) i)
  else if String.eqb returnMode "words" then
    words <- lift (allWords ocrResponse) ;;
    returnData_push (obj_item (VObj [("words", words)]) i)
  else if String.eqb returnMode "confidence" then
    returnData_push
      (obj_item
         (VObj [("confidence", nullish_or (opt_get ocrResponse "confidence") (VNum "0"));
                ("modelVersion", nullish_or (opt_get ocrResponse "modelVersion") (VStr ""));
                ("numBilledPages",
                 nullish_or (opt_get ocrResponse "numBilledPages") (VNum "0"))]) i)
  else
    (* Full response *)
    returnData_push (obj_item ocrResponse i).

(** The [catch] block for item [i]. *)
Definition catch_block (h : Host) (i : nat) (error : Thrown) : M unit :=
  errorMessage <-
    (if instanceofError error then lift (message error)
     else ret (VStr "Unknown error")) ;;
  let statusCode :=
    match statusCode error with
    | VNum n => VNum n
    | _ => VUndefined
    end in
  if continueOnFail h then
    returnData_push
      (obj_item
         (VObj [("error", errorMessage);
                ("statusCode", statusCode);
                ("error_code", or_else (code error) (VStr "unknown_error"));
                ("timestamp", VStr (toISOString h i))]) i)
  else
    throw (Error ("Upstage Document OCR failed for item " ++ string_of_nat i ++ ": " ++
                  to_text h errorMessage)).

(** One round of the loop: [try { ... } catch (error) { ... }] for item [i]. *)
Definition round (h : Host) (i : nat) : M unit :=
  try_catch (try_block h i) (catch_block h i).

Definition execute (h : Host) : outcome (list (list INodeExecutionData)) * State :=
  let items := getInputData h in
  run_execute items (round h).

End DocumentOCRUpstage.

(* ================================================================= *)
(** * DocumentParsingUpstage *)

Module DocumentParsingUpstage.

(** [value.toString()] of a boolean *)
Definition boolean_toString (b : bool) : string := if b then "true" else "false".

(** The branch of the operations [sync] and [asyncSubmit]. *)
Definition upload (h : Host) (i : nat) (operation : string) : M unit :=
  binaryPropertyName <- lift (getNodeParameter h PString "binaryPropertyName" i None) ;;
  model <- lift (getNodeParameter h PString "model" i None) ;;
  ocr <- lift (getNodeParameter h PString "ocr" i None) ;;
  base64Categories <- lift (getNodeParameter h PStrings "base64Categories" i (Some [])) ;;
  mergeMultipage <- lift (getNodeParameter h PBoolean "merge_multipage_tables" i (Some false)) ;;
  outputFormats <- lift (getNodeParameter h PStrings "outputFormats" i (Some ["html"])) ;;
  coordinates <- lift (getNodeParameter h PBoolean "coordinates" i (Some true)) ;;
  chartRecognition <- lift (getNodeParameter h PBoolean "chartRecognition" i (Some true)) ;;
  binaryData <- lift (binary_of (getInputData h) i binaryPropertyName) ;;
  buffer <- lift (getBinaryDataBuffer h i binaryPropertyName) ;;
  (* Prepare form fields *)
  let fields :=
    [("model", model);
     ("ocr", ocr);
     ("output_formats", JSON_stringify h outputFormats);
     ("coordinates", boolean_toString coordinates);
     ("chart_recognition", boolean_toString chartRecognition)] in
  let fields :=
    if 0 <? List.length base64Categories
    then push fields ("base64_encoding", JSON_stringify h base64Categories)
    else fields in
  let fields :=
    if mergeMultipage then push fields ("merge_multipage_tables", "true") else fields in
  let '(body, contentType) :=
    createMultipartFormData (random_base36 h i) fields
      {| buffer := buffer;
         filename := string_or (fileName binaryData) "upload";
         contentType := string_or (mimeType binaryData) "application/octet-stream" |} in
  let url :=
    if String.eqb operation "sync"
    then "https://api.upstage.ai/v1/document-digitization"
    else "https://api.upstage.ai/v1/document-digitization/async" in
  let requestOptions :=
    {| method := "POST";
       url := url;
       body := BufferBody body;
       headers := [("Content-Type", contentType)];
       json_flag := false |} in
  response <- httpRequest h requestOptions ;;
  if String.eqb operation "sync" then
    let syncResponse := response in
    returnMode <- lift (getNodeParameter h PString "returnMode" i None) ;;
    if String.eqb returnMode "content_html" then
      returnData_push
        (obj_item
           (VObj [("html",
                   nullish_or (opt_get (opt_get syncResponse "content") "html") (VStr ""))]) i)
    else if String.eqb returnMode "content_markdown" then
      returnData_push
        (obj_item
           (VObj [("markdown",
                   nullish_or (opt_get (opt_get syncResponse "content") "markdown")
                     (VStr ""))]) i)
    else if String.eqb returnMode "content_text" then
      returnData_push
        (obj_item
           (VObj [("text",
                   nullish_or (opt_get (opt_get syncResponse "content") "text") (VStr ""))]) i)
    else if String.eqb returnMode "elements" then
      returnData_push
        (obj_item
           (VObj [("elements", nullish_or (opt_get syncResponse "elements") (VArr []))]) i)
    else
      returnData_push (obj_item syncResponse i)
  else
    let asyncResponse := response in
    returnData_push
      (obj_item
         (VObj [("request_id", opt_get asyncResponse "request_id");
                ("submitted", VBool true)]) i).

(** The body of the [try] block for item [i]. *)
Definition try_block (h : Host) (i : nat) : M unit :=
  operation <- lift (getNodeParameter h PString "operation" i None) ;;
  if String.eqb operation "sync" || String.eqb operation "asyncSubmit" then
    upload h i operation
  else if String.eqb operation "asyncGet" then
    requestId <- lift (getNodeParameter h PString "requestId" i None) ;;
    if String.eqb requestId "" then throw (Error "Request ID is required.")
    else
      let requestOptions :=
        {| method := "GET";
           url := "https://api.upstage.ai/v1/document-digitization/requests/" ++
                  encodeURIComponent h requestId;
           body := NoBody;
           headers := [];
           json_flag := false |} in
      response <- httpRequest h requestOptions ;;
      returnData_push (obj_item response i)
  else if String.eqb operation "asyncList" then
    let requestOptions :=
      {| method := "GET";
         url := "https://api.upstage.ai/v1/document-digitization/requests";
         body := NoBody;
         headers := [];
         json_flag := false |} in
    response <- httpRequest h requestOptions ;;
    returnData_push (obj_item response i)
  else
    (* no branch for any other operation *)
    ret tt.

(** The [catch] block for item [i]. *)
Definition catch_block (h : Host) (i : nat) (error : Thrown) : M unit :=
  if continueOnFail h then
    errorMessage <-
      (if instanceofError error then lift (message error)
       else ret (VStr "Unknown error")) ;;
    let statusCode :=
      match statusCode error with
      | VNum n => VNum n
      | _ => VUndefined
      end in
    returnData_push
      (obj_item
         (VObj [("error", errorMessage);
                ("statusCode", statusCode);
                ("timestamp", VStr (toISOString h i))]) i)
  else
    throw error.

(** One round of the loop: [try { ... } catch (error) { ... }] for item [i]. *)
Definition round (h : Host) (i : nat) : M unit :=
  try_catch (try_block h i) (catch_block h i).

Definition execute (h : Host) : outcome (list (list INodeExecutionData)) * State :=
  let items := getInputData h in
  run_execute items (round h).

End DocumentParsingUpstage.

(* ================================================================= *)
(** * DocumentClassificationUpstage *)

Module DocumentClassificationUpstage.

Definition image_content (url : string) : value :=
  VArr [VObj [("type", VStr "image_url");
              ("image_url", VObj [("url", VStr url)])]].

(** The inner [try] of the raw JSON input: the parse, then the test
    [Array.isArray]. *)
Definition parse_oneOf (h : Host) (rawJsonSchema : string) : outcome value :=
  match JSON_parse_or_throw h rawJsonSchema with
  | Ok (VArr l) => Ok (VArr l)
  | Ok _ => Throw (Error "Raw JSON schema must be an array.")
  | Throw e => Throw e
  end.

(** The body of the [try] block for item [i]. *)
Definition try_block (h : Host) (i : nat) : M unit :=
  inputType <- lift (getNodeParameter h PString "inputType" i None) ;;
  model <- lift (getNodeParameter h PString "model" i None) ;;
  schemaName <- lift (getNodeParameter h PString "schemaName" i None) ;;
  schemaInputType <- lift (getNodeParameter h PString "schemaInputType" i None) ;;
  returnMode <- lift (getNodeParameter h PString "returnMode" i None) ;;
  (* Get parameters based on schema input type *)
  '(categories, rawJsonSchema) <-
    (if String.eqb schemaInputType "form" then
       categories <- lift (getNodeParameter h PCategories "categories" i None) ;;
       ret (categories, "")
     else
       rawJsonSchema <- lift (getNodeParameter h PString "rawJsonSchema" i None) ;;
       ret ({| values := Some [] |}, rawJsonSchema)) ;;
  (* Prepare content array based on input type *)
  content <-
    (if String.eqb inputType "binary" then
       binaryPropertyName <- lift (getNodeParameter h PString "binaryPropertyName" i None) ;;
       binaryData <- lift (binary_of (getInputData h) i binaryPropertyName) ;;
       buffer <- lift (getBinaryDataBuffer h i binaryPropertyName) ;;
       let base64Data := toBase64 h buffer in
       ret (image_content
              ("data:" ++ string_or (mimeType binaryData) "application/octet-stream" ++
               ";base64," ++ base64Data))
     else
       imageUrl <- lift (getNodeParameter h PString "imageUrl" i None) ;;
       if String.eqb imageUrl "" then
         throw (Error "Image URL is required when input type is URL.")
       else ret (image_content imageUrl)) ;;
  (* Build the JSON schema from categories or raw JSON *)
  oneOf <-
    (if String.eqb schemaInputType "form" then
       match values categories with
       | None => throw (Error "Cannot read properties of undefined (reading 'map')")
       | Some cats =>
           ret (VArr (map (fun cat => VObj [("const", VStr (label cat));
                                            ("description", VStr (description cat))]) cats))
       end
     else
       if String.eqb rawJsonSchema "" then
         throw (Error "Raw JSON schema is required when input type is JSON.")
       else
         match parse_oneOf h rawJsonSchema with
         | Ok v => ret v
         | Throw parseError =>
             text <- lift (message parseError) ;;
             throw (Error ("Invalid JSON format: " ++ to_text h text))
         end) ;;
  (* Prepare request body *)
  let requestBody :=
    VObj [("model", VStr model);
          ("messages", VArr [VObj [("role", VStr "user"); ("content", content)]]);
          ("response_format",
           VObj [("type", VStr "json_schema");
                 ("json_schema",
                  VObj [("name", VStr schemaName);
                        ("schema", VObj [("type", VStr "string"); ("oneOf", oneOf)])])])] in
  let requestOptions :=
    {| method := "POST";
       url := "https://api.upstage.ai/v1/document-classification";
       body := JsonBody requestBody;
       headers := [("Content-Type", "application/json")];
       json_flag := false |} in
  response <- httpRequest h requestOptions ;;
  (* Process response based on return mode *)
  if String.eqb returnMode "classification" then
    let classification :=
      or_else (opt_get (opt_get (opt_first (opt_get response "choices")) "message") "content")
        (VStr "") in
    returnData_push
      (obj_item
         (VObj [("classification", classification);
                ("confidence",
                 if is_string (opt_get (opt_first (opt_get response "choices")) "finish_reason")
                      "stop"
                 then VStr "high" else VStr "low")]) i)
  else
    returnData_push (obj_item response i).

(** The [catch] block for item [i]. *)
Definition catch_block (h : Host) (i : nat) (error : Thrown) : M unit :=
  if continueOnFail h then
    (* [(error as Error).message || 'Unknown error'] *)
    errorMessage <- lift (message error) ;;
    returnData_push
      (obj_item (VObj [("error", or_else errorMessage (VStr "Unknown error"))]) i)
  else
    throw error.

(** One round of the loop: [try { ... } catch (error) { ... }] for item [i]. *)
Definition round (h : Host) (i : nat) : M unit :=
  try_catch (try_block h i) (catch_block h i).

Definition execute (h : Host) : outcome (list (list INodeExecutionData)) * State :=
  let items := getInputData h in
  run_execute items (round h).

End DocumentClassificationUpstage.

(* ================================================================= *)
(** * InformationExtractionUpstage *)

Module InformationExtractionUpstage.

(** The schema of the mode Schema Only: the inner [try] of the source. *)
Definition schema_only (h : Host) (schemaRaw : value) : outcome value :=
  match schemaRaw with
  | VStr text =>
      (* JSON cleaning: remove leading/trailing spaces and invisible characters *)
      let cleanedJson := replace_all zeroWidth (trim text) in
      JSON_parse_or_throw h cleanedJson
  | VArr _ | VObj _ => Ok schemaRaw
  | _ => Throw (Error "Invalid schema data type")
  end.

(** The response format of the mode Full Response Format: the inner [try] of
    the source. *)
Definition full_response_format (h : Host) (fullResponseRaw : value) : outcome value :=
  match fullResponseRaw with
  | VStr text =>
      (* Step 1: basic cleaning *)
      let cleanedJson :=
        replace_all macBreak
          (replace_all windowsBreak (replace_all zeroWidth (trim text))) in
      (* Step 2: JSON validation and format detection *)
      let parsed :=
        match JSON_parse cleanedJson with
        | Some v => Ok v
        | None =>
            let cleanedJson :=
              trim
                (replace_all spaceAfterSeparator
                   (replace_all spaceBeforeSeparator
                      (replace_all spaces (replace_all lineBreak cleanedJson)))) in
            let cleanedJson := validateAndFixJsonStructure cleanedJson in
            JSON_parse_or_throw h cleanedJson
        end in
      match parsed with
      | Throw e => Throw e
      | Ok parsedJson =>
          (* Step 3: JSON object validation *)
          if negb (typeof_object parsedJson) || nullish parsedJson then
            Throw (Error "Parsed result is not a valid JSON object")
          (* Step 4: required structure validation *)
          else if negb (truthy (opt_get parsedJson "type")) ||
                  negb (truthy (opt_get parsedJson "json_schema")) then
            Throw (Error "Missing required fields: type or json_schema")
          else Ok parsedJson
      end
  | VArr _ | VObj _ => Ok fullResponseRaw
  | _ => Throw (Error "Invalid response format data type")
  end.

(** The block that composes the data URL or takes the image URL; both
    operations hold the same text. *)
Definition dataUrlOrHttp (h : Host) (i : nat) (inputType : string) : M string :=
  if String.eqb inputType "binary" then
    binaryPropertyName <- lift (getNodeParameter h PString "binaryPropertyName" i None) ;;
    binaryData <- lift (binary_of (getInputData h) i binaryPropertyName) ;;
    buffer <- lift (getBinaryDataBuffer h i binaryPropertyName) ;;
    let mime := string_or (mimeType binaryData) "application/octet-stream" in
    let base64 := toBase64 h buffer in
    ret ("data:" ++ mime ++ ";base64," ++ base64)
  else
    dataUrlOrHttp <- lift (getNodeParameter h PString "imageUrl" i None) ;;
    if String.eqb dataUrlOrHttp "" then throw (Error "Image URL is required.")
    else ret dataUrlOrHttp.

Definition image_message (url : string) : value :=
  VObj [("role", VStr "user");
        ("content",
         VArr [VObj [("type", VStr "image_url");
                     ("image_url", VObj [("url", VStr url)])]])].

(** [content ? JSON.parse(content) : {}], with [{ _raw: content }] when the
    parse throws. *)
Definition parse_content (h : Host) (content : value) : value :=
  if truthy content then
    let text :=
      match content with
      | VStr s => s
      | _ => ToString h content
      end in
    match JSON_parse text with
    | Some v => v
    | None => VObj [("_raw", content)]
    end
  else VObj [].

Definition message_content (response : value) : value :=
  nullish_or
    (opt_get (opt_get (opt_first (opt_get response "choices")) "message") "content")
    (VStr "").

(** The operation Extract Information. *)
Definition extract (h : Host) (i : nat) (inputType model returnMode : string) : M unit :=
  schemaInputType <- lift (getNodeParameter h PString "schemaInputType" i None) ;;
  pagesPerChunk <- lift (getNodeParameter h PNumber "pagesPerChunk" i (Some 0%Z)) ;;
  (* Schema parsing *)
  responseFormat <-
    (if String.eqb schemaInputType "schema" then
       (* Schema Only mode *)
       schemaName <- lift (getNodeParameter h PString "schemaName" i None) ;;
       schemaRaw <- lift (getNodeParameter h PAny "json_schema" i None) ;;
       match schema_only h schemaRaw with
       | Throw error =>
           text <- lift (message error) ;;
           throw (Error ("Invalid JSON schema provided: " ++ to_text h text))
       | Ok schemaObj =>
           ret (VObj [("type", VStr "json_schema");
                      ("json_schema",
                       VObj [("name", VStr schemaName); ("schema", schemaObj)])])
       end
     else
       (* Full Response Format mode *)
       fullResponseRaw <- lift (getNodeParameter h PAny "fullResponseFormat" i None) ;;
       match full_response_format h fullResponseRaw with
       | Throw error =>
           text <- lift (message error) ;;
           throw (Error ("Invalid full response format JSON provided: " ++
                         to_text h text))
       | Ok responseFormat => ret responseFormat
       end) ;;
  (* Compose messages *)
  dataUrlOrHttp <- dataUrlOrHttp h i inputType ;;
  let requestBody :=
    [("model", VStr model);
     ("messages", VArr [image_message dataUrlOrHttp]);
     ("response_format", responseFormat)] in
  (* chunking options (optional) *)
  let requestBody :=
    if (0 <? pagesPerChunk)%Z
    then push requestBody
           ("chunking", VObj [("pages_per_chunk", VNum (string_of_Z pagesPerChunk))])
    else requestBody in
  let requestOptions :=
    {| method := "POST";
       url := "https://api.upstage.ai/v1/information-extraction";
       body := JsonBody (VObj requestBody);
       headers := [];
       json_flag := true |} in
  response <- httpRequest h requestOptions ;;
  if String.eqb returnMode "full" then
    returnData_push (obj_item response i)
  else
    (* Parse extracted JSON *)
    let content := message_content response in
    let extracted := parse_content h content in
    returnData_push
      (obj_item
         (VObj [("extracted", extracted);
                ("model", opt_get response "model");
                ("usage", opt_get response "usage");
                ("full_response", response)]) i).

(** [if (items[i].binary) out.binary = items[i].binary] *)
Definition passthrough (items : list INodeExecutionData) (i : nat)
    (out : INodeExecutionData) : outcome INodeExecutionData :=
  match nth_error items i with
  | None => Throw (Error "Cannot read properties of undefined (reading 'binary')")
  | Some item =>
      match binary item with
      | Some b => Ok {| json := json out; binary := Some b; pairedItem := pairedItem out |}
      | None => Ok out
      end
  end.

(** The operation Generate Schema. *)
Definition schema (h : Host) (i : nat) (inputType model returnMode : string) : M unit :=
  prompt <- lift (getNodeParameter h PString "prompt" i (Some "")) ;;
  let prompt := trim prompt in
  (* Compose messages *)
  dataUrlOrHttp <- dataUrlOrHttp h i inputType ;;
  let messages : list value := [] in
  let messages :=
    if String.eqb prompt "" then messages
    else push messages (VObj [("role", VStr "user"); ("content", VStr prompt)]) in
  let messages := push messages (image_message dataUrlOrHttp) in
  (* Request body *)
  let requestBody := VObj [("model", VStr model); ("messages", VArr messages)] in
  let requestOptions :=
    {| method := "POST";
       url := "https://api.upstage.ai/v1/information-extraction/schema-generation";
       body := JsonBody requestBody;
       headers := [];
       json_flag := true |} in
  (* Call *)
  response <- httpRequest h requestOptions ;;
  (* Response parsing + binary passthrough *)
  if String.eqb returnMode "full" then
    out <- lift (passthrough (getInputData h) i (obj_item response i)) ;;
    returnData_push out
  else
    let contentStr := message_content response in
    let schemaObj := parse_content h contentStr in
    out <- lift (passthrough (getInputData h) i
                   (obj_item
                      (VObj [("schema_type", nullish_or (opt_get schemaObj "type") VNull);
                             ("json_schema",
                              nullish_or (opt_get schemaObj "json_schema") VNull);
                             ("raw", schemaObj);
                             ("model", opt_get response "model");
                             ("usage", opt_get response "usage")]) i)) ;;
    returnData_push out.

(** The body of the [try] block for item [i]. *)
Definition try_block (h : Host) (i : nat) : M unit :=
  operation <- lift (getNodeParameter h PString "operation" i None) ;;
  inputType <- lift (getNodeParameter h PString "inputType" i None) ;;
  model <- lift (getNodeParameter h PString "model" i None) ;;
  returnMode <- lift (getNodeParameter h PString "returnMode" i None) ;;
  (* Handle different operations *)
  if String.eqb operation "extract" then extract h i inputType model returnMode
  else schema h i inputType model returnMode.

(** The [catch] block for item [i]. *)
Definition catch_block (h : Host) (i : nat) (error : Thrown) : M unit :=
  if continueOnFail h then
    (* [(error as Error).message || 'Unknown error'] *)
    errorMessage <- lift (message error) ;;
    returnData_push
      (obj_item (VObj [("error", or_else errorMessage (VStr "Unknown error"))]) i)
  else
    throw error.

(** One round of the loop: [try { ... } catch (error) { ... }] for item [i]. *)
Definition round (h : Host) (i : nat) : M unit :=
  try_catch (try_block h i) (catch_block h i).

Definition execute (h : Host) : outcome (list (list INodeExecutionData)) * State :=
  let items := getInputData h in
  run_execute items (round h).

End InformationExtractionUpstage.

(* ================================================================= *)
(** * Statements about a whole run, and sample hosts *)

(** The operations the parsing node declares. *)
Definition known_operation (operation : string) : bool :=
  String.eqb operation "sync" || String.eqb operation "asyncSubmit" ||
  String.eqb operation "asyncGet" || String.eqb operation "asyncList".

(** A run that returns gives one list of items, as long as the input, whose
    item at index [k] is paired with the input item [k]. *)
Definition one_output_per_item (items : list INodeExecutionData)
    (result : outcome (list (list INodeExecutionData)) * State) : Prop :=
  forall r st,
    result = (Ok r, st) ->
    exists outs,
      r = [outs] /\
      List.length outs = List.length items /\
      forall k o, nth_error outs k = Some o -> pairedItem o = Some k.

(** A host for the examples: the parameters that are strings are taken from
    [strings] (also when any value is asked for), the other ones have their
    fallback; every request is answered by [response]. *)
Definition sample_parameter (strings : list (string * string)) (t : ParamType)
    (name : string) (i : nat) : option (param t) -> outcome (param t) :=
  let fallback (A : Type) (fb : option A) : outcome A :=
    match fb with
    | Some d => Ok d
    | None => Throw (Error ("Could not get parameter " ++ name))
    end in
  match t return option (param t) -> outcome (param t) with
  | PString => fun fb =>
      match assoc name strings with
      | Some v => Ok v
      | None => fallback string fb
      end
  | PAny => fun fb =>
      match assoc name strings with
      | Some v => Ok (VStr v)
      | None => fallback value fb
      end
  | PBoolean => fallback bool
  | PNumber => fallback Z
  | PStrings => fallback (list string)
  | PCategories => fallback Categories
  end.

Definition sample_host (items : list INodeExecutionData)
    (strings : list (string * string)) (flag : bool) (response : outcome value) : Host :=
  {| getInputData := items;
     getNodeParameter := sample_parameter strings;
     getBinaryDataBuffer := fun _ _ => Ok (Buffer_from "%PDF-1.7");
     httpRequestWithAuthentication := fun _ _ => response;
     continueOnFail := flag;
     random_base36 := fun _ => "k3x9";
     toISOString := fun _ => "2024-05-01T00:00:00.000Z";
     toBase64 := fun _ => "JVBERi0xLjc=";
     encodeURIComponent := fun s => s;
     JSON_stringify := fun _ => "[]";
     ToString := fun _ => "[object Object]";
     syntaxErrorMessage := fun _ => "Unexpected end of JSON input" |}.

Definition pdf_item : INodeExecutionData :=
  {| json := VObj [];
     binary := Some [("data", {| fileName := Some "scan.pdf";
                                 mimeType := Some "application/pdf";
                                 fileSize := Some (FileSizeText "12 kB") |})];
     pairedItem := None |}.

Definition plain_item : INodeExecutionData :=
  {| json := VObj []; binary := None; pairedItem := None |}.

Definition start : State := {| returnData := []; requests := [] |}.

Definition sample_strings : list (string * string) :=
  [("binaryPropertyName", "data"); ("model", "ocr"); ("schema", "");
   ("returnMode", "text"); ("operation", "sync"); ("ocr", "auto")].

(** Two items with a file, answered by a text. *)
Definition host_hello : Host :=
  sample_host [pdf_item; pdf_item] sample_strings false
    (Ok (VObj [("text", VStr "Hello")])).

(** One item, with an operation that the parsing node does not declare. *)
Definition host_other : Host :=
  sample_host [plain_item] [("operation", "other")] false (Ok VNull).


Definition message_or_unknown (e : Thrown) : outcome value :=
  match e with
  | ThrownNull => Throw (Error "Cannot read properties of null (reading 'message')")
  | ThrownUndefined =>
      Throw (Error "Cannot read properties of undefined (reading 'message')")
  | ThrownValue _ m _ _ =>
      match m with
      | VUndefined | VNull | VBool false | VStr "" => Ok (VStr "Unknown error")
      | VNum x => if number_nonzero x then Ok m else Ok (VStr "Unknown error")
      | _ => Ok m
      end
  end.



(** One item without a file. *)
Definition host_no_file (flag : bool) : Host :=
  sample_host [plain_item] sample_strings flag (Ok VNull).

(** The error comes from the host, which could not give a parameter of
    item [i]. *)
Definition parameter_error (h : Host) (i : nat) (e : Thrown) : Prop :=
  exists t name fallback, getNodeParameter h t name i fallback = Throw e.

(** One item in URL mode without a URL, for the classification and the
    extraction nodes. *)
Definition url_strings (imageUrl : string) : list (string * string) :=
  [("inputType", "url"); ("imageUrl", imageUrl); ("model", "document-classify");
   ("schemaName", "document-classify"); ("schemaInputType", "json");
   ("rawJsonSchema", "[]"); ("returnMode", "classification");
   ("operation", "schema")].

Definition host_no_url : Host :=
  sample_host [plain_item] (url_strings "") true (Ok VNull).

(** One item in URL mode, with the flag, whose request fails with the value
    null. *)
Definition host_null_failure : Host :=
  sample_host [plain_item] (url_strings "https://example.com/document.jpg") true
    (Throw ThrownNull).

(** One item in URL mode, answered by a classification. *)
Definition host_classified (finish_reason : string) : Host :=
  sample_host [plain_item] (url_strings "https://example.com/document.jpg") false
    (Ok (VObj [("choices",
                VArr [VObj [("finish_reason", VStr finish_reason);
                            ("message", VObj [("content", VStr "invoice")])]])])).

(** A small document, and the same without its two last characters. *)
Definition doc_a1 : string := "{" ++ q "a" ++ ":[1]}".
Definition doc_a1_cut : string := "{" ++ q "a" ++ ":[1".

(** ** The effect of a computation on [returnData] *)

(** [quiet m]: [m] leaves [returnData] alone (it may issue requests). *)
Definition quiet {A : Type} (m : M A) : Prop :=
  forall s, returnData (snd (m s)) = returnData s.

(** [silent m]: [m] changes nothing. *)
Definition silent {A : Type} (m : M A) : Prop :=
  forall s, snd (m s) = s.

(** [emits i m]: when [m] returns it has pushed one item, paired with the
    input item [i]; when it throws it has pushed nothing. *)
Definition emits (i : nat) (m : M unit) : Prop :=
  forall s,
    match m s with
    | (Ok _, s') =>
        exists o, returnData s' = (returnData s ++ [o])%list /\ pairedItem o = Some i
    | (Throw _, s') => returnData s' = returnData s
    end.

(** ** Measures used in the statements about the repair routine *)

(** The number of closing braces at the head of a text. *)
Definition leading_braces (s : string) : nat :=
  String.length (fst (take_while (Ascii.eqb "}") s)).

(** ** The requests of a computation *)

(** [no_request m]: [m] issues no request. *)
Definition no_request {A : Type} (m : M A) : Prop :=
  forall s, requests (snd (m s)) = requests s.


(** [requests_all P m]: when the requests issued before satisfy [P], so do
    the ones issued after [m]. *)
Definition requests_all (P : IHttpRequestOptions -> bool) {A : Type} (m : M A) : Prop :=
  forall s, forallb P (requests s) = true -> forallb P (requests (snd (m s))) = true.

(** [emits_at_most i m]: as [emits], but [m] may also return without a push. *)
Definition emits_at_most (i : nat) (m : M unit) : Prop :=
  forall s,
    match m s with
    | (Ok _, s') =>
        returnData s' = returnData s \/
        exists o, returnData s' = (returnData s ++ [o])%list /\ pairedItem o = Some i
    | (Throw _, s') => returnData s' = returnData s
    end.

Definition starts_with (p s : string) : bool :=
  match strip_prefix p s with
  | Some _ => true
  | None => false
  end.

(** The requests that each node is seen to issue. *)
Definition OCR_request (r : IHttpRequestOptions) : bool :=
  String.eqb (method r) "POST" &&
  String.eqb (url r) "https://api.upstage.ai/v1/document-digitization" &&
  match body r with BufferBody _ => true | _ => false end.

Definition Parsing_request (r : IHttpRequestOptions) : bool :=
  (String.eqb (method r) "POST" &&
   (String.eqb (url r) "https://api.upstage.ai/v1/document-digitization" ||
    String.eqb (url r) "https://api.upstage.ai/v1/document-digitization/async") &&
   match body r with BufferBody _ => true | _ => false end) ||
  (String.eqb (method r) "GET" &&
   starts_with "https://api.upstage.ai/v1/document-digitization/requests" (url r) &&
   match body r with NoBody => true | _ => false end).

Definition Extraction_request (r : IHttpRequestOptions) : bool :=
  String.eqb (method r) "POST" &&
  (String.eqb (url r) "https://api.upstage.ai/v1/information-extraction" ||
   String.eqb (url r)
     "https://api.upstage.ai/v1/information-extraction/schema-generation") &&
  match body r with JsonBody _ => true | _ => false end &&
  json_flag r.

Definition Classification_request (r : IHttpRequestOptions) : bool :=
  String.eqb (method r) "POST" &&
  String.eqb (url r) "https://api.upstage.ai/v1/document-classification" &&
  match body r with JsonBody _ => true | _ => false end.

(** ** Failures before a request *)

(** [m] fails from [s] with an error that satisfies [P], and leaves [s] as it
    was: no request was issued and nothing was pushed. *)
Definition fails_at_once (P : Thrown -> Prop) (m : M unit) (s : State) : Prop :=
  exists e, m s = (Throw e, s) /\ P e.

(** The test [!item.binary || !item.binary[name]] on the item [i]. *)
Definition lacks_binary (items : list INodeExecutionData) (i : nat) (name : string)
  : bool :=
  match nth_error items i with
  | Some item =>
      match binary item with
      | None => true
      | Some b =>
          match binary_get name b with
          | None => true
          | Some _ => false
          end
      end
  | None => false
  end.

Definition no_binary_data (name : string) : Thrown :=
  Error ("No binary data found in property " ++ q name ++ ".").

(** One item whose file is said to hold [bytes] bytes. *)
Definition sized_item (bytes : Z) : INodeExecutionData :=
  {| json := VObj [];
     binary := Some [("data", {| fileName := Some "scan.pdf";
                                 mimeType := Some "application/pdf";
                                 fileSize := Some (FileSizeNumber bytes) |})];
     pairedItem := None |}.

Definition host_sized (bytes : Z) : Host :=
  sample_host [sized_item bytes] sample_strings true (Ok (VObj [("text", VStr "Hello")])).

(** One item with a file, for the parsing node. *)
Definition host_parsing (operation returnMode : string) (response : value) : Host :=
  sample_host [pdf_item]
    [("binaryPropertyName", "data"); ("model", "document-parse"); ("ocr", "auto");
     ("operation", operation); ("returnMode", returnMode)] true (Ok response).

(** ** The image of a request *)



(** One item for the classification node, with the categories of the form or
    with a raw schema. *)
Definition host_classify (schemaInputType rawJsonSchema : string) : Host :=
  {| getInputData := [plain_item];
     getNodeParameter := fun t name i =>
       match t return option (param t) -> outcome (param t) with
       | PCategories => fun _ =>
           Ok {| values := Some [{| label := "invoice"; description := "An invoice" |};
                                 {| label := "receipt"; description := "A receipt" |}] |}
       | t => sample_parameter
                [("inputType", "url"); ("imageUrl", "https://example.com/a.png");
                 ("model", "document-classify"); ("schemaName", "kind");
                 ("schemaInputType", schemaInputType);
                 ("rawJsonSchema", rawJsonSchema); ("returnMode", "classification")]
                t name i
       end;
     getBinaryDataBuffer := fun _ _ => Ok (Buffer_from "%PDF-1.7");
     httpRequestWithAuthentication := fun _ _ => Ok (VObj []);
     continueOnFail := true;
     random_base36 := fun _ => "k3x9";
     toISOString := fun _ => "2024-05-01T00:00:00.000Z";
     toBase64 := fun _ => "JVBERi0xLjc=";
     encodeURIComponent := fun s => s;
     JSON_stringify := fun _ => "[]";
     ToString := fun _ => "[object Object]";
     syntaxErrorMessage := fun _ => "Unexpected end of JSON input" |}.


(** From [s] to [s']: one request was issued and answered, and the answer
    was pushed as it is, paired with item [i]. *)
Definition passed_on (h : Host) (i : nat) (s s' : State) : Prop :=
  exists options response o,
    requests s' = push (requests s) options /\
    httpRequestWithAuthentication h (List.length (requests s)) options = Ok response /\
    returnData s' = push (returnData s) o /\
    json o = response /\
    pairedItem o = Some i.

(** The failure [e] that led from [s] to [s'] came before any request, or it
    is the failure of the request itself. *)
Definition failed_by_request (h : Host) (s : State) (e : Thrown) (s' : State) : Prop :=
  s' = s \/
  exists options,
    s' = {| returnData := returnData s; requests := push (requests s) options |} /\
    httpRequestWithAuthentication h (List.length (requests s)) options = Throw e.

(** One item with a file for the extraction node, which asks for
    [pagesPerChunk] pages in a chunk. *)
Definition host_extract (operation returnMode : string) (pagesPerChunk : Z)
    (response : value) : Host :=
  {| getInputData := [pdf_item];
     getNodeParameter := fun t name i =>
       match t return option (param t) -> outcome (param t) with
       | PNumber => fun _ => Ok pagesPerChunk
       | t => sample_parameter
                [("operation", operation); ("inputType", "binary");
                 ("binaryPropertyName", "data");
                 ("model", "information-extract"); ("returnMode", returnMode);
                 ("schemaInputType", "schema"); ("schemaName", "document_schema");
                 ("json_schema", "{}"); ("prompt", "  the totals ")]
                t name i
       end;
     getBinaryDataBuffer := fun _ _ => Ok (Buffer_from "%PDF-1.7");
     httpRequestWithAuthentication := fun _ _ => Ok response;
     continueOnFail := true;
     random_base36 := fun _ => "k3x9";
     toISOString := fun _ => "2024-05-01T00:00:00.000Z";
     toBase64 := fun _ => "JVBERi0xLjc=";
     encodeURIComponent := fun s => s;
     JSON_stringify := fun _ => "[]";
     ToString := fun _ => "[object Object]";
     syntaxErrorMessage := fun _ => "Unexpected end of JSON input" |}.

(** [typeof error.statusCode === 'number' ? error.statusCode : undefined] *)
Definition status_number (e : Thrown) : value :=
  match statusCode e with
  | VNum n => VNum n
  | _ => VUndefined
  end.

(** The failure of a request that the service refuses with a status. *)
Definition too_many_requests : Thrown :=
  ThrownValue true (VStr "Request failed with status code 429") (VNum "429")
    (VStr "ERR_BAD_REQUEST").

(** ** Hosts that throw values *)

Definition is_nullish_thrown (e : Thrown) : bool :=
  match e with
  | ThrownValue _ _ _ _ => false
  | _ => true
  end.

(** The host throws neither null nor undefined. *)
Definition throws_values (h : Host) : Prop :=
  (forall t name i fallback e,
     getNodeParameter h t name i fallback = Throw e -> is_nullish_thrown e = false) /\
  (forall i name e,
     getBinaryDataBuffer h i name = Throw e -> is_nullish_thrown e = false) /\
  (forall k options e,
     httpRequestWithAuthentication h k options = Throw e -> is_nullish_thrown e = false).

(* ================================================================= *)

(** * Properties of the JSON repair routine *)

Lemma count_char_app (c : ascii) (s t : string) :
  count_char c (s ++ t) = count_char c s + count_char c t.
Proof.
  induction s as [|a s IH]; simpl; [reflexivity|].
  rewrite IH. lia.
Qed.

Lemma count_char_repeat_same (c : ascii) (n : nat) :
  count_char c (repeat_char c n) = n.
Proof.
  induction n as [|n IH]; simpl; [reflexivity|].
  rewrite Ascii.eqb_refl, IH. reflexivity.
Qed.

Lemma count_char_repeat_other (c d : ascii) (n : nat) :
  c <> d -> count_char c (repeat_char d n) = 0.
Proof.
  intros Hcd. induction n as [|n IH]; simpl; [reflexivity|].
  destruct (Ascii.eqb_spec d c) as [E|_]; [congruence|]. exact IH.
Qed.

Lemma append_empty_r (s : string) : s ++ "" = s.
Proof. induction s as [|a s IH]; simpl; congruence. Qed.

Lemma append_assoc (s t u : string) : (s ++ t) ++ u = s ++ t ++ u.
Proof. induction s as [|a s IH]; simpl; congruence. Qed.

(** When both counts agree, step 2 leaves the text alone. *)
Lemma balanceStructure_balanced (s : string) :
  count_char "{" s = count_char "}" s ->
  count_char "[" s = count_char "]" s ->
  balanceStructure s = s.
Proof.
  intros Hb Hk. unfold balanceStructure.
  rewrite Hb, Hk, !Nat.ltb_irrefl. reflexivity.
Qed.

(** Step 2 appends the missing closing braces, then the missing closing
    brackets. *)
Lemma balanceStructure_missing (p : string) (a b : nat) :
  count_char "{" p = count_char "}" p + a ->
  count_char "[" p = count_char "]" p + b ->
  balanceStructure p = p ++ repeat_char "}" a ++ repeat_char "]" b.
Proof.
  intros Hb Hk. unfold balanceStructure.
  rewrite Hb, Hk.
  replace (count_char "}" p + a - count_char "}" p) with a by lia.
  replace (count_char "]" p + b - count_char "]" p) with b by lia.
  destruct a as [|a], b as [|b]; simpl repeat_char;
    rewrite ?Nat.add_0_r, ?Nat.ltb_irrefl, ?append_empty_r;
    repeat match goal with
      | |- context [?x <? ?x + S ?y] =>
          replace (x <? x + S y) with true by (symmetry; apply Nat.ltb_lt; lia)
      end;
    rewrite ?append_assoc; reflexivity.
Qed.

(** C4.  A text that [JSON.parse] accepts and whose opening and closing braces,
    and opening and closing brackets, are as many, is returned as it is. *)
Theorem validateAndFixJsonStructure_balanced_valid (s : string) :
  JSON_parse s <> None ->
  count_char "{" s = count_char "}" s ->
  count_char "[" s = count_char "]" s ->
  validateAndFixJsonStructure s = s.
Proof.
  intros Hvalid Hb Hk. unfold validateAndFixJsonStructure.
  rewrite (balanceStructure_balanced s Hb Hk).
  destruct (JSON_parse s); [reflexivity | congruence].
Qed.

Lemma validateAndFixJsonStructure_balanced_valid_witness :
  JSON_parse doc_a1 <> None /\ validateAndFixJsonStructure doc_a1 = doc_a1.
Proof.
  split.
  - vm_compute. discriminate.
  - apply validateAndFixJsonStructure_balanced_valid.
    + vm_compute. discriminate.
    + reflexivity.
    + reflexivity.
Defined.

(** Without the two equalities of counts the text can come back changed, even
    when it parses: here the braces inside a string literal make the routine
    lengthen the final run, and [advancedJsonFix] then shortens every run of
    three, the one inside the string too. *)
Example validateAndFixJsonStructure_unbalanced_counts :
  let s := "{" ++ q "x" ++ ":{}," ++ q "s" ++ ":" ++ q "}}}" ++ "," ++
           q "a" ++ ":{" ++ q "b" ++ ":1}}" in
  JSON_parse s <> None /\
  validateAndFixJsonStructure s =
  "{" ++ q "x" ++ ":{}," ++ q "s" ++ ":" ++ q "}}" ++ "," ++ q "a" ++ ":{" ++ q "b" ++ ":1}}".
Proof.
  split; [vm_compute; discriminate | vm_compute; reflexivity].
Qed.

(** C5, as stated, fails: the document [{"a":[1]}] without its two last
    characters is completed with the brace before the bracket, which
    [JSON.parse] refuses; so does the second attempt, and the cut text comes
    back. *)
Lemma validateAndFixJsonStructure_missing_closers_counterexample :
  JSON_parse doc_a1 <> None /\
  doc_a1 = doc_a1_cut ++ "]}" /\
  validateAndFixJsonStructure doc_a1_cut = doc_a1_cut /\
  JSON_parse (validateAndFixJsonStructure doc_a1_cut) = None.
Proof.
  split; [vm_compute; discriminate|].
  split; [reflexivity|].
  split; vm_compute; reflexivity.
Qed.

(** A brace inside a string literal defeats the count as well. *)
Example validateAndFixJsonStructure_brace_in_string :
  JSON_parse ("{" ++ q "a" ++ ":" ++ q "{" ++ "}") <> None /\
  JSON_parse (validateAndFixJsonStructure ("{" ++ q "a" ++ ":" ++ q "{")) = None.
Proof.
  split; [vm_compute; discriminate | vm_compute; reflexivity].
Qed.

(** C5, amended.  When the document has as many opening as closing braces and
    as many opening as closing brackets, and the deleted tail is made of
    closing braces followed by closing brackets, the routine returns the
    document itself, which parses. *)
Theorem validateAndFixJsonStructure_restores_tail (p : string) (a b : nat) :
  let d := p ++ repeat_char "}" a ++ repeat_char "]" b in
  JSON_parse d <> None ->
  count_char "{" d = count_char "}" d ->
  count_char "[" d = count_char "]" d ->
  validateAndFixJsonStructure p = d /\
  JSON_parse (validateAndFixJsonStructure p) <> None.
Proof.
  intros d Hvalid Hb Hk.
  assert (E : validateAndFixJsonStructure p = d).
  { unfold validateAndFixJsonStructure.
    rewrite (balanceStructure_missing p a b).
    - fold d. destruct (JSON_parse d); [reflexivity | congruence].
    - subst d. rewrite !count_char_app in Hb.
      rewrite count_char_repeat_same in Hb.
      rewrite !count_char_repeat_other in Hb by discriminate. lia.
    - subst d. rewrite !count_char_app in Hk.
      rewrite count_char_repeat_same in Hk.
      rewrite !count_char_repeat_other in Hk by discriminate. lia. }
  split; [exact E | rewrite E; exact Hvalid].
Qed.

Lemma validateAndFixJsonStructure_restores_tail_witness :
  validateAndFixJsonStructure ("[{" ++ q "a" ++ ":1") = "[{" ++ q "a" ++ ":1}]" /\
  JSON_parse (validateAndFixJsonStructure ("[{" ++ q "a" ++ ":1")) <> None.
Proof.
  apply (validateAndFixJsonStructure_restores_tail ("[{" ++ q "a" ++ ":1") 1 1).
  - vm_compute. discriminate.
  - reflexivity.
  - reflexivity.
Defined.

(** C6.  When neither the balanced text nor the text patched by
    [advancedJsonFix] parses, the routine returns its argument. *)
Theorem validateAndFixJsonStructure_returns_original (s : string) :
  JSON_parse (balanceStructure s) = None ->
  JSON_parse (advancedJsonFix (balanceStructure s)) = None ->
  validateAndFixJsonStructure s = s.
Proof.
  intros H1 H2. unfold validateAndFixJsonStructure.
  rewrite H1, H2. reflexivity.
Qed.

Lemma validateAndFixJsonStructure_returns_original_witness :
  balanceStructure doc_a1_cut <> doc_a1_cut /\
  validateAndFixJsonStructure doc_a1_cut = doc_a1_cut.
Proof.
  split.
  - vm_compute. discriminate.
  - apply validateAndFixJsonStructure_returns_original; vm_compute; reflexivity.
Defined.

(** The result is the argument or a text that parses: no mutated text that
    fails to parse is ever returned. *)
Lemma validateAndFixJsonStructure_original_or_valid (s : string) :
  validateAndFixJsonStructure s = s \/
  JSON_parse (validateAndFixJsonStructure s) <> None.
Proof.
  unfold validateAndFixJsonStructure.
  destruct (JSON_parse (balanceStructure s)) eqn:E1.
  - right. congruence.
  - destruct (JSON_parse (advancedJsonFix (balanceStructure s))) eqn:E2.
    + right. congruence.
    + left. reflexivity.
Qed.

(** * The multipart builder read back *)

Section StringSearch.












End StringSearch.

Section SplitAt.




End SplitAt.

Section PartHeaders.











End PartHeaders.

Section Roundtrip.

Variable boundary : string.
Hypothesis boundary_no_CR :
  all_chars (fun a => negb (Ascii.eqb CR a)) boundary = true.

Let delimiter : string := CRLF ++ "--" ++ boundary.







End Roundtrip.

Section BodyText.




Lemma length_app (s t : string) :
  String.length (s ++ t) = String.length s + String.length t.
Proof. induction s as [|a s IH]; cbn [append String.length Nat.add]; congruence. Qed.



End BodyText.

Section ReadBack.


End ReadBack.


(** The content of the file is not protected either: bytes that hold the
    delimiter end the part too early. *)
Example createMultipartFormData_delimiter_in_file :
  let file := {| buffer := Buffer_from ("A" ++ delimiter_of "k3x9" ++ "B");
                 filename := "a.bin";
                 contentType := "application/octet-stream" |} in
  let r := createMultipartFormData "k3x9" [] file in
  parse_multipart (snd r) (fst r) <> Some (expected_parts [] file).
Proof.
  vm_compute. discriminate.
Qed.

(** A field value is not protected either, a field name with a line break
    spoils the header block, and a content type that starts with a blank
    comes back without it. *)
Example createMultipartFormData_delimiter_in_value :
  let file := {| buffer := Buffer_from "x"; filename := "a.bin";
                 contentType := "text/plain" |} in
  let fields := [("a", "v" ++ delimiter_of "k3x9" ++ "--")] in
  let r := createMultipartFormData "k3x9" fields file in
  parse_multipart (snd r) (fst r) <> Some (expected_parts fields file).
Proof.
  vm_compute. discriminate.
Qed.

(** A value that begins with the dash-boundary is not protected: with the
    line break of the empty line before it, it makes a delimiter, and the
    part ends before its content. *)
Example createMultipartFormData_boundary_at_start :
  let file := {| buffer := Buffer_from "x"; filename := "a.bin";
                 contentType := "text/plain" |} in
  let fields := [("a", "------WebKitFormBoundaryk3x9--")] in
  let r := createMultipartFormData "k3x9" fields file in
  contains (delimiter_of "k3x9") (snd (hd ("", "") fields)) = false /\
  parse_multipart (snd r) (fst r) <> Some (expected_parts fields file).
Proof.
  split; [reflexivity | vm_compute; discriminate].
Qed.

Example createMultipartFormData_line_break_in_name :
  let file := {| buffer := Buffer_from "x"; filename := "a.bin";
                 contentType := "text/plain" |} in
  let fields := [("a" ++ CRLF ++ "b", "v")] in
  let r := createMultipartFormData "k3x9" fields file in
  parse_multipart (snd r) (fst r) <> Some (expected_parts fields file).
Proof.
  vm_compute. discriminate.
Qed.

Example createMultipartFormData_blank_in_content_type :
  let file := {| buffer := Buffer_from "x"; filename := "a.bin";
                 contentType := " text/plain" |} in
  let r := createMultipartFormData "k3x9" [] file in
  parse_multipart (snd r) (fst r) <> Some (expected_parts [] file).
Proof.
  vm_compute. discriminate.
Qed.



(** * The effects of a round of the loop *)

Section Effects.

Lemma silent_quiet {A : Type} (m : M A) : silent m -> quiet m.
Proof. intros H s. rewrite H. reflexivity. Qed.

Lemma silent_ret {A : Type} (a : A) : silent (ret a).
Proof. intros s. reflexivity. Qed.

Lemma silent_throw {A : Type} (e : Thrown) : silent (@throw A e).
Proof. intros s. reflexivity. Qed.

Lemma silent_lift {A : Type} (o : outcome A) : silent (lift o).
Proof. intros s. reflexivity. Qed.

Lemma silent_bind {A B : Type} (m : M A) (k : A -> M B) :
  silent m -> (forall a, silent (k a)) -> silent (bind m k).
Proof.
  intros Hm Hk s. unfold bind. specialize (Hm s).
  destruct (m s) as [[a|e] s1]; cbn [snd] in *; subst s1; [apply Hk | reflexivity].
Qed.

Lemma quiet_httpRequest (h : Host) (options : IHttpRequestOptions) :
  quiet (httpRequest h options).
Proof. intros s. reflexivity. Qed.

Lemma quiet_bind {A B : Type} (m : M A) (k : A -> M B) :
  quiet m -> (forall a, quiet (k a)) -> quiet (bind m k).
Proof.
  intros Hm Hk s. unfold bind. specialize (Hm s).
  destruct (m s) as [[a|e] s1]; cbn [snd] in *; [rewrite Hk | ]; exact Hm.
Qed.

Lemma emits_push (i : nat) (o : INodeExecutionData) :
  pairedItem o = Some i -> emits i (returnData_push o).
Proof. intros H s. cbn. exists o. split; [reflexivity | exact H]. Qed.

Lemma emits_throw (i : nat) (e : Thrown) : emits i (throw e).
Proof. intros s. reflexivity. Qed.

Lemma emits_bind {A : Type} (i : nat) (m : M A) (k : A -> M unit) :
  quiet m -> (forall a, emits i (k a)) -> emits i (bind m k).
Proof.
  intros Hm Hk s. unfold bind. specialize (Hm s).
  destruct (m s) as [[a|e] s1]; cbn [snd] in Hm; [|exact Hm].
  specialize (Hk a s1). destruct (k a s1) as [[u|e] s2]; rewrite <- Hm; exact Hk.
Qed.

Lemma emits_try_catch (i : nat) (m : M unit) (handler : Thrown -> M unit) :
  emits i m -> (forall e, emits i (handler e)) -> emits i (try_catch m handler).
Proof.
  intros Hm Hh s. unfold try_catch. specialize (Hm s).
  destruct (m s) as [[u|e] s1]; [exact Hm|].
  specialize (Hh e s1). destruct (handler e s1) as [[u|e'] s2]; rewrite <- Hm; exact Hh.
Qed.

End Effects.

(** The effect of a computation, found by following its text. *)
Ltac effects_with tac :=
  repeat first
    [ progress intros
    | tac
    | apply emits_push; reflexivity
    | apply emits_throw
    | apply silent_ret
    | apply silent_throw
    | apply silent_lift
    | apply quiet_httpRequest
    | apply silent_quiet; solve [effects_with tac]
    | apply silent_bind
    | apply quiet_bind
    | apply emits_bind
    | match goal with
      | |- ?P (if ?b then _ else _) => destruct b
      | |- ?P _ (if ?b then _ else _) => destruct b
      | |- ?P (match ?x with _ => _ end) => destruct x
      | |- ?P _ (match ?x with _ => _ end) => destruct x
      end ].

Ltac effects := effects_with fail.


Section Rounds.

Variable h : Host.

Lemma OCR_try_block_emits (i : nat) : emits i (DocumentOCRUpstage.try_block h i).
Proof. unfold DocumentOCRUpstage.try_block. effects. Qed.

Lemma OCR_catch_block_emits (i : nat) (e : Thrown) :
  emits i (DocumentOCRUpstage.catch_block h i e).
Proof. unfold DocumentOCRUpstage.catch_block. effects. Qed.

Lemma Extraction_dataUrlOrHttp_silent (i : nat) (inputType : string) :
  silent (InformationExtractionUpstage.dataUrlOrHttp h i inputType).
Proof. unfold InformationExtractionUpstage.dataUrlOrHttp. effects. Qed.

Lemma Extraction_try_block_emits (i : nat) :
  emits i (InformationExtractionUpstage.try_block h i).
Proof.
  unfold InformationExtractionUpstage.try_block,
    InformationExtractionUpstage.extract, InformationExtractionUpstage.schema.
  pose proof (Extraction_dataUrlOrHttp_silent i) as Hurl.
  assert (Hpass : forall o : INodeExecutionData, pairedItem o = Some i ->
            emits i (out <- lift (InformationExtractionUpstage.passthrough
                                    (getInputData h) i o) ;; returnData_push out)).
  { intros o Ho s. unfold lift, bind, InformationExtractionUpstage.passthrough.
    destruct (nth_error (getInputData h) i) as [item|]; [|reflexivity].
    destruct (binary item); cbn; eexists; (split; [reflexivity | exact Ho]). }
  effects_with ltac:(first [apply Hpass; reflexivity | apply silent_quiet, Hurl]).
Qed.

Lemma Extraction_catch_block_emits (i : nat) (e : Thrown) :
  emits i (InformationExtractionUpstage.catch_block h i e).
Proof. unfold InformationExtractionUpstage.catch_block. effects. Qed.

Lemma Classification_try_block_emits (i : nat) :
  emits i (DocumentClassificationUpstage.try_block h i).
Proof. unfold DocumentClassificationUpstage.try_block. effects. Qed.

Lemma Classification_catch_block_emits (i : nat) (e : Thrown) :
  emits i (DocumentClassificationUpstage.catch_block h i e).
Proof. unfold DocumentClassificationUpstage.catch_block. effects. Qed.

Lemma Parsing_upload_emits (i : nat) (operation : string) :
  emits i (DocumentParsingUpstage.upload h i operation).
Proof. unfold DocumentParsingUpstage.upload. effects. Qed.

Lemma Parsing_catch_block_emits (i : nat) (e : Thrown) :
  emits i (DocumentParsingUpstage.catch_block h i e).
Proof. unfold DocumentParsingUpstage.catch_block. effects. Qed.

Lemma emits_bind_lift {A : Type} (i : nat) (o : outcome A) (k : A -> M unit) :
  (forall a, o = Ok a -> emits i (k a)) -> emits i (bind (lift o) k).
Proof.
  intros H s. unfold bind, lift. destruct o as [a|e]; [apply (H a eq_refl) | reflexivity].
Qed.

(** With a declared operation the parsing node pushes one item as well. *)
Lemma Parsing_try_block_emits (i : nat) :
  (forall operation,
      getNodeParameter h PString "operation" i None = Ok operation ->
      known_operation operation = true) ->
  emits i (DocumentParsingUpstage.try_block h i).
Proof.
  intros Hop. unfold DocumentParsingUpstage.try_block.
  apply emits_bind_lift. intros operation E.
  specialize (Hop operation E). unfold known_operation in Hop.
  destruct (String.eqb operation "sync" || String.eqb operation "asyncSubmit");
    [apply Parsing_upload_emits|].
  destruct (String.eqb operation "asyncGet"); [effects|].
  destruct (String.eqb operation "asyncList"); [effects|].
  discriminate Hop.
Qed.

End Rounds.

Section Loop.

Variable round : nat -> M unit.

Lemma for_loop_step (i count : nat) (s : State) :
  for_loop round i (S count) s =
  match round i s with
  | (Ok _, s') => for_loop round (S i) count s'
  | (Throw e, s') => (Throw e, s')
  end.
Proof. reflexivity. Qed.

(** A loop whose rounds each push one paired item pushes as many items as it
    has rounds, paired with the indexes in order. *)
Lemma for_loop_emits (count : nat) :
  forall i s,
    (forall j, i <= j < i + count -> emits j (round j)) ->
    match for_loop round i count s with
    | (Ok _, s') =>
        exists outs,
          returnData s' = (returnData s ++ outs)%list /\
          List.length outs = count /\
          forall k o, nth_error outs k = Some o -> pairedItem o = Some (i + k)
    | (Throw _, _) => True
    end.
Proof.
  induction count as [|count IH]; intros i s Hround.
  - cbn. exists []. rewrite app_nil_r. repeat split.
    intros k o H. destruct k; discriminate H.
  - rewrite for_loop_step.
    pose proof (Hround i ltac:(lia) s) as Hi.
    destruct (round i s) as [[u|e] s1]; [|exact I].
    destruct Hi as [o [Hs1 Ho]].
    specialize (IH (S i) s1 ltac:(intros j Hj; apply Hround; lia)).
    destruct (for_loop round (S i) count s1) as [[u'|e] s2]; [|exact I].
    destruct IH as [outs [Hs2 [Hlen Hpair]]].
    exists (o :: outs). repeat split.
    + rewrite Hs2, Hs1, <- app_assoc. reflexivity.
    + cbn. rewrite Hlen. reflexivity.
    + intros k o' Hk. destruct k as [|k]; cbn in Hk.
      * injection Hk as <-. rewrite Nat.add_0_r. exact Ho.
      * rewrite (Hpair k o' Hk). f_equal. lia.
Qed.

Lemma run_execute_paired (items : list INodeExecutionData) :
  (forall j, j < List.length items -> emits j (round j)) ->
  one_output_per_item items (run_execute items round).
Proof.
  intros Hround r st Hrun. unfold run_execute in Hrun.
  pose proof (for_loop_emits (List.length items) 0 start
                ltac:(intros j Hj; apply Hround; lia)) as H.
  fold start in Hrun.
  destruct (for_loop round 0 (List.length items) start) as [[u|e] s1]; [|discriminate Hrun].
  destruct H as [outs [Hs1 [Hlen Hpair]]].
  injection Hrun as <- <-. exists outs. cbn in Hs1. subst outs.
  repeat split; [exact Hlen | exact Hpair].
Qed.

End Loop.

(** * One output item per input item *)

(** C1, as stated, fails for the parsing node: an item whose operation is not
    one of the four declared ones gives no output item, and the run returns. *)
Lemma execute_one_output_per_item_counterexample :
  DocumentParsingUpstage.execute host_other = (Ok [[]], start) /\
  List.length (getInputData host_other) = 1 /\
  ~ one_output_per_item (getInputData host_other)
      (DocumentParsingUpstage.execute host_other).
Proof.
  assert (E : DocumentParsingUpstage.execute host_other = (Ok [[]], start))
    by (vm_compute; reflexivity).
  split; [exact E|]. split; [reflexivity|].
  intros H. destruct (H [[]] start E) as (outs & Eouts & Hlen & _).
  injection Eouts as <-. discriminate Hlen.
Qed.

(** C1, amended.  A run that returns gives one output item per input item, in
    order, each paired with the index of its input item: in the OCR, the
    extraction and the classification nodes always, in the parsing node when
    the operation of every item is one of the four declared ones. *)
Theorem execute_one_output_per_item (h : Host) :
  one_output_per_item (getInputData h) (DocumentOCRUpstage.execute h) /\
  one_output_per_item (getInputData h) (InformationExtractionUpstage.execute h) /\
  one_output_per_item (getInputData h) (DocumentClassificationUpstage.execute h) /\
  ((forall i operation,
       i < List.length (getInputData h) ->
       getNodeParameter h PString "operation" i None = Ok operation ->
       known_operation operation = true) ->
   one_output_per_item (getInputData h) (DocumentParsingUpstage.execute h)).
Proof.
  repeat split.
  - apply run_execute_paired. intros j _.
    apply emits_try_catch; [apply OCR_try_block_emits | apply OCR_catch_block_emits].
  - apply run_execute_paired. intros j _.
    apply emits_try_catch;
      [apply Extraction_try_block_emits | apply Extraction_catch_block_emits].
  - apply run_execute_paired. intros j _.
    apply emits_try_catch;
      [apply Classification_try_block_emits | apply Classification_catch_block_emits].
  - intros Hop. apply run_execute_paired. intros j Hj.
    apply emits_try_catch; [|apply Parsing_catch_block_emits].
    apply Parsing_try_block_emits. intros operation. apply Hop, Hj.
Qed.

Lemma execute_one_output_per_item_witness :
  exists r st,
    DocumentParsingUpstage.execute host_hello = (Ok r, st) /\
    exists outs,
      r = [outs] /\ List.length outs = 2 /\
      forall k o, nth_error outs k = Some o -> pairedItem o = Some k.
Proof.
  eexists. eexists. split; [vm_compute; reflexivity|].
  eapply (proj2 (proj2 (proj2 (execute_one_output_per_item host_hello)))).
  - intros i operation _ H. injection H as <-. reflexivity.
  - vm_compute. reflexivity.
Defined.

(** * The parsing node and the operations it does not declare *)

(** C10.  An item of the parsing node whose operation is none of the four
    declared ones gives no output item and raises no error: its round leaves
    the state as it is.  A run in which every item is such an item returns an
    empty list, shorter than the input as soon as there is an item. *)
Theorem Parsing_undeclared_operation (h : Host) :
  (forall i operation s,
      getNodeParameter h PString "operation" i None = Ok operation ->
      known_operation operation = false ->
      DocumentParsingUpstage.round h i s = (Ok tt, s)) /\
  ((forall i, i < List.length (getInputData h) ->
      exists operation,
        getNodeParameter h PString "operation" i None = Ok operation /\
        known_operation operation = false) ->
   DocumentParsingUpstage.execute h = (Ok [[]], start)).
Proof.
  assert (Hround : forall i operation s,
             getNodeParameter h PString "operation" i None = Ok operation ->
             known_operation operation = false ->
             DocumentParsingUpstage.round h i s = (Ok tt, s)).
  { intros i operation s E Hop.
    unfold DocumentParsingUpstage.round, try_catch, DocumentParsingUpstage.try_block.
    unfold bind at 1, lift at 1. rewrite E.
    unfold known_operation in Hop.
    destruct (String.eqb operation "sync" || String.eqb operation "asyncSubmit");
      [discriminate Hop|].
    destruct (String.eqb operation "asyncGet"); [discriminate Hop|].
    destruct (String.eqb operation "asyncList"); [discriminate Hop|].
    reflexivity. }
  split; [exact Hround|].
  intros Hall. unfold DocumentParsingUpstage.execute, run_execute. fold start.
  assert (Hloop : forall count i s,
             i + count <= List.length (getInputData h) ->
             for_loop (DocumentParsingUpstage.round h) i count s = (Ok tt, s)).
  { induction count as [|count IH]; intros i s Hi; [reflexivity|].
    rewrite for_loop_step.
    destruct (Hall i ltac:(lia)) as (operation & E & Hop).
    rewrite (Hround i operation s E Hop). apply IH. lia. }
  rewrite Hloop by lia. reflexivity.
Qed.

Lemma Parsing_undeclared_operation_witness :
  DocumentParsingUpstage.execute host_other = (Ok [[]], start) /\
  List.length (getInputData host_other) = 1.
Proof.
  split; [|reflexivity].
  apply (proj2 (Parsing_undeclared_operation host_other)).
  intros i Hi. exists "other". split; reflexivity.
Defined.

(** * Errors at the item boundary *)





(** * Running a computation step by step *)

Section Steps.

Context {A B : Type}.

Lemma bind_lift (o : outcome A) (k : A -> M B) (s : State) :
  bind (lift o) k s =
  match o with
  | Ok a => k a s
  | Throw e => (Throw e, s)
  end.
Proof. destruct o; reflexivity. Qed.

Lemma bind_ret (a : A) (k : A -> M B) (s : State) : bind (ret a) k s = k a s.
Proof. reflexivity. Qed.

Lemma bind_throw (e : Thrown) (k : A -> M B) (s : State) :
  bind (throw e) k s = (Throw e, s).
Proof. reflexivity. Qed.

Lemma bind_assoc {C : Type} (m : M A) (k1 : A -> M B) (k2 : B -> M C) (s : State) :
  bind (bind m k1) k2 s = bind m (fun a => bind (k1 a) k2) s.
Proof. unfold bind. destruct (m s) as [[a|e] s1]; reflexivity. Qed.

Lemma bind_if (c : bool) (m1 m2 : M A) (k : A -> M B) (s : State) :
  bind (if c then m1 else m2) k s = if c then bind m1 k s else bind m2 k s.
Proof. destruct c; reflexivity. Qed.

Lemma bind_case {X : Type} (o : outcome X) (f : X -> M A) (g : Thrown -> M A)
    (k : A -> M B) (s : State) :
  bind (match o with Ok x => f x | Throw e => g e end) k s =
  match o with
  | Ok x => bind (f x) k s
  | Throw e => bind (g e) k s
  end.
Proof. destruct o; reflexivity. Qed.

Lemma if_run (c : bool) (m1 m2 : M A) (s : State) :
  (if c then m1 else m2) s = if c then m1 s else m2 s.
Proof. destruct c; reflexivity. Qed.

End Steps.

Lemma eqb_binary_false (inputType : string) :
  inputType <> "binary" -> String.eqb inputType "binary" = false.
Proof. intros H. apply String.eqb_neq. exact H. Qed.

Ltac param_error :=
  match goal with
  | E : getNodeParameter ?h ?t ?name ?i ?fb = Throw ?e |- parameter_error ?h ?i ?e =>
      exists t, name, fb; exact E
  end.

(** The inner try blocks throw errors of their own making only. *)
Lemma message_Error (msg : string) : message (Error msg) = Ok (VStr msg).
Proof. reflexivity. Qed.

Lemma JSON_parse_or_throw_throws (h : Host) (text : string) (e : Thrown) :
  JSON_parse_or_throw h text = Throw e -> exists msg, e = Error msg.
Proof.
  unfold JSON_parse_or_throw. destruct (JSON_parse text); [discriminate|].
  intros E. injection E as <-. eexists. reflexivity.
Qed.

Lemma parse_oneOf_Ok (h : Host) (raw : string) (v : value) :
  DocumentClassificationUpstage.parse_oneOf h raw = Ok v ->
  exists elements, JSON_parse raw = Some (VArr elements) /\ v = VArr elements.
Proof.
  unfold DocumentClassificationUpstage.parse_oneOf, JSON_parse_or_throw.
  destruct (JSON_parse raw) as [[]|]; try discriminate.
  intros E. injection E as <-. eexists. split; reflexivity.
Qed.

Lemma parse_oneOf_Throw (h : Host) (raw : string) (e : Thrown) :
  DocumentClassificationUpstage.parse_oneOf h raw = Throw e ->
  (forall elements, JSON_parse raw <> Some (VArr elements)) /\
  e = Error match JSON_parse raw with
            | None => syntaxErrorMessage h raw
            | Some _ => "Raw JSON schema must be an array."
            end.
Proof.
  unfold DocumentClassificationUpstage.parse_oneOf, JSON_parse_or_throw.
  destruct (JSON_parse raw) as [[]|]; try discriminate;
    intros E; injection E as <-; (split; [intros l; discriminate | reflexivity]).
Qed.

Lemma schema_only_throws (h : Host) (schemaRaw : value) (e : Thrown) :
  InformationExtractionUpstage.schema_only h schemaRaw = Throw e ->
  exists msg, e = Error msg.
Proof.
  unfold InformationExtractionUpstage.schema_only.
  destruct schemaRaw; try discriminate;
    try (intros H; injection H as <-; eexists; reflexivity).
  apply JSON_parse_or_throw_throws.
Qed.

Lemma full_response_format_throws (h : Host) (fullResponseRaw : value) (e : Thrown) :
  InformationExtractionUpstage.full_response_format h fullResponseRaw = Throw e ->
  exists msg, e = Error msg.
Proof.
  unfold InformationExtractionUpstage.full_response_format.
  destruct fullResponseRaw; try discriminate;
    try (intros H; injection H as <-; eexists; reflexivity).
  cbv zeta.
  destruct (JSON_parse _) as [v|].
  - destruct (_ || _); [intros H; injection H as <-; eexists; reflexivity|].
    destruct (_ || _); [intros H; injection H as <-; eexists; reflexivity|].
    discriminate.
  - destruct (JSON_parse_or_throw h _) as [v|e'] eqn:E.
    + destruct (_ || _); [intros H; injection H as <-; eexists; reflexivity|].
      destruct (_ || _); [intros H; injection H as <-; eexists; reflexivity|].
      discriminate.
    + intros H. injection H as <-. apply JSON_parse_or_throw_throws in E. exact E.
Qed.

Ltac inner_errors :=
  repeat match goal with
    | H : DocumentClassificationUpstage.parse_oneOf _ _ = Throw _ |- _ =>
        apply parse_oneOf_Throw in H; destruct H as [_ ->]
    | H : InformationExtractionUpstage.schema_only _ _ = Throw _ |- _ =>
        apply schema_only_throws in H; destruct H as [? ->]
    | H : InformationExtractionUpstage.full_response_format _ _ = Throw _ |- _ =>
        apply full_response_format_throws in H; destruct H as [? ->]
    end;
  rewrite ?message_Error.

(** One step of a computation applied to a state: the head of the text is
    rewritten, and an outcome that is not known is split in its two cases. *)
Ltac run_step_with tac :=
  first [ rewrite bind_assoc | rewrite bind_ret | rewrite bind_throw
        | rewrite bind_lift | rewrite bind_if | rewrite bind_case | rewrite if_run ];
  cbv beta iota;
  inner_errors;
  cbv beta iota;
  tac;
  try lazymatch goal with
      | |- context [match ?o with Ok _ => _ | Throw _ => _ end] => destruct o eqn:?
      | |- context [if ?c then _ ?st else _ ?st] => destruct c eqn:?
      end;
  cbv beta iota.

Ltac run_step := run_step_with idtac.

Section EmptyImageUrl.

Variable h : Host.
Variable i : nat.
Variable s : State.
Variable inputType : string.
Hypothesis E_inputType : getNodeParameter h PString "inputType" i None = Ok inputType.
Hypothesis url_mode : inputType <> "binary".
Hypothesis E_imageUrl : getNodeParameter h PString "imageUrl" i None = Ok "".

Lemma Classification_empty_url :
  match DocumentClassificationUpstage.try_block h i s with
  | (Throw e, s') =>
      s' = s /\
      (e = Error "Image URL is required when input type is URL." \/
       parameter_error h i e)
  | (Ok _, _) => False
  end.
Proof.
  unfold DocumentClassificationUpstage.try_block.
  rewrite E_inputType, E_imageUrl.
  repeat run_step_with
    ltac:(rewrite ?(eqb_binary_false inputType url_mode), ?String.eqb_refl);
    (split; [reflexivity | first [left; reflexivity | right; param_error]]).
Qed.

Lemma Extraction_empty_url :
  match InformationExtractionUpstage.try_block h i s with
  | (Throw e, s') =>
      s' = s /\
      (e = Error "Image URL is required." \/
       parameter_error h i e \/
       exists m, e = Error ("Invalid JSON schema provided: " ++ m) \/
                 e = Error ("Invalid full response format JSON provided: " ++ m))
  | (Ok _, _) => False
  end.
Proof.
  unfold InformationExtractionUpstage.try_block, InformationExtractionUpstage.extract,
    InformationExtractionUpstage.schema, InformationExtractionUpstage.dataUrlOrHttp.
  rewrite E_inputType, E_imageUrl.
  repeat run_step_with
    ltac:(rewrite ?(eqb_binary_false inputType url_mode), ?String.eqb_refl);
    (split;
     [ reflexivity
     | first [ left; reflexivity
             | right; left; param_error
             | right; right; eexists; left; reflexivity
             | right; right; eexists; right; reflexivity ] ]).
Qed.

End EmptyImageUrl.

(** * An empty image URL *)

(** What the catch blocks of the extraction and of the classification nodes
    report, by the expression of the source. *)
Lemma message_or_unknown_spec (e : Thrown) :
  message_or_unknown e =
  match message e with
  | Ok m => Ok (or_else m (VStr "Unknown error"))
  | Throw failure => Throw failure
  end.
Proof.
  destruct e as [| |b m sc c]; try reflexivity.
  destruct m as [| |[|]|x|[|a t]|l|l]; try reflexivity.
  cbn. unfold or_else, truthy. destruct (number_nonzero x); reflexivity.
Qed.

(** C7.  An item in URL mode whose image URL is the empty string fails in the
    try block before any request is issued and before anything is pushed: the
    state is the one the item started with.  The error is the one that asks
    for the image URL, unless an earlier step of the item failed (the host
    could not give a parameter or, in the extraction node, the schema could
    not be read).  With the flag, the round pushes one item, paired with the
    input item, whose json is the object with the single key error, holding
    what the catch block reports of the error, and changes nothing else; the
    error that asks for the image URL is reported by its message. *)
Theorem empty_image_url_fails_item (h : Host) (i : nat) (s : State) (inputType : string) :
  getNodeParameter h PString "inputType" i None = Ok inputType ->
  inputType <> "binary" ->
  getNodeParameter h PString "imageUrl" i None = Ok "" ->
  (exists e,
     DocumentClassificationUpstage.try_block h i s = (Throw e, s) /\
     (e = Error "Image URL is required when input type is URL." \/
      parameter_error h i e) /\
     (continueOnFail h = true ->
      forall reported, message_or_unknown e = Ok reported ->
      DocumentClassificationUpstage.round h i s =
      (Ok tt,
       {| returnData :=
            push (returnData s)
              {| json := VObj [("error", reported)];
                 binary := None;
                 pairedItem := Some i |};
          requests := requests s |}))) /\
  (exists e,
     InformationExtractionUpstage.try_block h i s = (Throw e, s) /\
     (e = Error "Image URL is required." \/
      parameter_error h i e \/
      exists m, e = Error ("Invalid JSON schema provided: " ++ m) \/
                e = Error ("Invalid full response format JSON provided: " ++ m)) /\
     (continueOnFail h = true ->
      forall reported, message_or_unknown e = Ok reported ->
      InformationExtractionUpstage.round h i s =
      (Ok tt,
       {| returnData :=
            push (returnData s)
              {| json := VObj [("error", reported)];
                 binary := None;
                 pairedItem := Some i |};
          requests := requests s |}))).
Proof.
  intros E1 Hurl E2. split.
  - pose proof (Classification_empty_url h i s inputType E1 Hurl E2) as H.
    destruct (DocumentClassificationUpstage.try_block h i s) as [[u|e] s'] eqn:E;
      [contradiction|].
    destruct H as [-> Hd]. exists e. split; [reflexivity|]. split; [exact Hd|].
    intros Hflag reported Hreported. rewrite message_or_unknown_spec in Hreported.
    unfold DocumentClassificationUpstage.round, try_catch. rewrite E.
    unfold DocumentClassificationUpstage.catch_block. rewrite Hflag, bind_lift.
    destruct (message e) as [m|failure]; [|discriminate].
    injection Hreported as <-. reflexivity.
  - pose proof (Extraction_empty_url h i s inputType E1 Hurl E2) as H.
    destruct (InformationExtractionUpstage.try_block h i s) as [[u|e] s'] eqn:E;
      [contradiction|].
    destruct H as [-> Hd]. exists e. split; [reflexivity|]. split; [exact Hd|].
    intros Hflag reported Hreported. rewrite message_or_unknown_spec in Hreported.
    unfold InformationExtractionUpstage.round, try_catch. rewrite E.
    unfold InformationExtractionUpstage.catch_block. rewrite Hflag, bind_lift.
    destruct (message e) as [m|failure]; [|discriminate].
    injection Hreported as <-. reflexivity.
Qed.

Lemma empty_image_url_fails_item_witness :
  DocumentClassificationUpstage.execute host_no_url =
    (Ok [[ {| json := VObj [("error",
                             VStr "Image URL is required when input type is URL.")];
              binary := None;
              pairedItem := Some 0 |} ]],
     {| returnData :=
          [ {| json := VObj [("error",
                              VStr "Image URL is required when input type is URL.")];
               binary := None;
               pairedItem := Some 0 |} ];
        requests := [] |}) /\
  InformationExtractionUpstage.round host_no_url 0 start =
    (Ok tt,
     {| returnData :=
          [ {| json := VObj [("error", VStr "Image URL is required.")];
               binary := None;
               pairedItem := Some 0 |} ];
        requests := [] |}).
Proof.
  destruct (empty_image_url_fails_item host_no_url 0 start "url"
              eq_refl ltac:(discriminate) eq_refl)
    as [(e1 & E1 & _ & H1) (e2 & E2 & _ & H2)].
  split.
  - unfold DocumentClassificationUpstage.execute, run_execute. fold start.
    change (List.length (getInputData host_no_url)) with 1.
    assert (Ee : e1 = Error "Image URL is required when input type is URL.").
    { vm_compute in E1. injection E1 as <-. reflexivity. }
    rewrite for_loop_step, (H1 eq_refl _ ltac:(rewrite Ee; reflexivity)).
    reflexivity.
  - assert (Ee : e2 = Error "Image URL is required.").
    { vm_compute in E2. injection E2 as <-. reflexivity. }
    rewrite (H2 eq_refl _ ltac:(rewrite Ee; reflexivity)).
    reflexivity.
Defined.

(** * What is made of the response *)

Lemma bind_httpRequest {B : Type} (h : Host) (options : IHttpRequestOptions)
    (k : value -> M B) (s : State) :
  bind (httpRequest h options) k s =
  match httpRequestWithAuthentication h (List.length (requests s)) options with
  | Ok response =>
      k response {| returnData := returnData s; requests := push (requests s) options |}
  | Throw e =>
      (Throw e, {| returnData := returnData s; requests := push (requests s) options |})
  end.
Proof.
  unfold bind, httpRequest.
  destruct (httpRequestWithAuthentication h (List.length (requests s)) options);
    reflexivity.
Qed.

Lemma is_string_true (v : value) (text : string) :
  is_string v text = true <-> v = VStr text.
Proof.
  destruct v; cbn; split; try discriminate; intros H.
  - apply String.eqb_eq in H. subst. reflexivity.
  - injection H as ->. apply String.eqb_refl.
Qed.

Section Responses.

Variable h : Host.
Variable i : nat.
Variable s : State.

(** The item that the classification node pushes in the mode classification. *)
Lemma Classification_result :
  getNodeParameter h PString "returnMode" i None = Ok "classification" ->
  match DocumentClassificationUpstage.try_block h i s with
  | (Ok _, s') =>
      exists options response,
        requests s' = push (requests s) options /\
        httpRequestWithAuthentication h (List.length (requests s)) options = Ok response /\
        returnData s' =
        push (returnData s)
          {| json :=
               VObj [("classification",
                      or_else
                        (opt_get (opt_get (opt_first (opt_get response "choices"))
                                    "message") "content")
                        (VStr ""));
                     ("confidence",
                      if is_string
                           (opt_get (opt_first (opt_get response "choices"))
                              "finish_reason") "stop"
                      then VStr "high" else VStr "low")];
             binary := None;
             pairedItem := Some i |}
  | (Throw _, _) => True
  end.
Proof.
  intros E. unfold DocumentClassificationUpstage.try_block. rewrite E.
  repeat first
    [ run_step_with ltac:(rewrite ?String.eqb_refl)
    | match goal with
      | |- context [bind (match ?x with _ => _ end) _ _] => destruct x eqn:?
      end ];
    try exact I.
  all: rewrite bind_httpRequest;
    match goal with
    | |- context [match ?o with Ok _ => _ | Throw _ => _ end] => destruct o eqn:?
    end; [|exact I].
  all: rewrite ?if_run, ?String.eqb_refl; cbn [returnData_push returnData requests].
  all: eexists; eexists; split; [reflexivity|]; split; [eassumption | reflexivity].
Qed.

End Responses.

(** C8.  In the mode classification, the item pushed for a response has the
    confidence high when the finish reason of the first choice is the string
    stop, and low for any other value. *)
Theorem classification_confidence (h : Host) (i : nat) (s s' : State) :
  getNodeParameter h PString "returnMode" i None = Ok "classification" ->
  DocumentClassificationUpstage.try_block h i s = (Ok tt, s') ->
  exists options response o,
    requests s' = push (requests s) options /\
    httpRequestWithAuthentication h (List.length (requests s)) options = Ok response /\
    returnData s' = push (returnData s) o /\
    pairedItem o = Some i /\
    let finish_reason := opt_get (opt_first (opt_get response "choices")) "finish_reason" in
    (finish_reason = VStr "stop" -> opt_get (json o) "confidence" = VStr "high") /\
    (finish_reason <> VStr "stop" -> opt_get (json o) "confidence" = VStr "low").
Proof.
  intros E Hrun.
  pose proof (Classification_result h i s E) as H. rewrite Hrun in H.
  destruct H as (options & response & Hreq & Hresp & Hdata).
  eexists options, response, _. split; [exact Hreq|]. split; [exact Hresp|].
  split; [exact Hdata|]. split; [reflexivity|].
  cbv zeta. cbn [json].
  destruct (is_string (opt_get (opt_first (opt_get response "choices")) "finish_reason")
              "stop") eqn:Hstop.
  - split; [reflexivity|]. intros Hne. apply is_string_true in Hstop. contradiction.
  - split; [|reflexivity]. intros Heq. apply is_string_true in Heq. congruence.
Qed.

Lemma classification_confidence_witness :
  (exists s' o,
     DocumentClassificationUpstage.try_block (host_classified "stop") 0 start = (Ok tt, s') /\
     returnData s' = [o] /\ opt_get (json o) "confidence" = VStr "high") /\
  (exists s' o,
     DocumentClassificationUpstage.try_block (host_classified "length") 0 start = (Ok tt, s') /\
     returnData s' = [o] /\ opt_get (json o) "confidence" = VStr "low").
Proof.
  split.
  - eexists. 
    assert (E : DocumentClassificationUpstage.try_block (host_classified "stop") 0 start =
                (Ok tt, snd (DocumentClassificationUpstage.try_block
                               (host_classified "stop") 0 start)))
      by (vm_compute; reflexivity).
    destruct (classification_confidence (host_classified "stop") 0 start _ eq_refl E)
      as (options & response & o & _ & Hresp & Hdata & _ & Hhigh & _).
    exists o. split; [exact E|]. split; [exact Hdata|].
    apply Hhigh. cbn in Hresp. injection Hresp as <-. reflexivity.
  - eexists.
    assert (E : DocumentClassificationUpstage.try_block (host_classified "length") 0 start =
                (Ok tt, snd (DocumentClassificationUpstage.try_block
                               (host_classified "length") 0 start)))
      by (vm_compute; reflexivity).
    destruct (classification_confidence (host_classified "length") 0 start _ eq_refl E)
      as (options & response & o & _ & Hresp & Hdata & _ & _ & Hlow).
    exists o. split; [exact E|]. split; [exact Hdata|].
    apply Hlow. cbn in Hresp. injection Hresp as <-. discriminate.
Defined.

(** A response without a text field gives the empty string. *)
Example OCR_text_default :
  fst (DocumentOCRUpstage.execute
         (sample_host [pdf_item] sample_strings false (Ok (VObj [("pages", VArr [])])))) =
  Ok [[ {| json := VObj [("text", VStr "")]; binary := None; pairedItem := Some 0 |} ]].
Proof. vm_compute. reflexivity. Qed.

(* ================================================================= *)
(** * More on the JSON repair routine *)

Section GlobalReplace.

Variable m : matcher.

(** Dropping the characters of a match is the same as skipping them. *)
Lemma replace_from_drop (s : string) :
  forall k, replace_from m k s = replace_from m 0 (drop k s).
Proof.
  induction s as [|c t IH]; intros k.
  - destruct k; reflexivity.
  - destruct k as [|k]; [reflexivity|].
    cbn [replace_from drop]. apply IH.
Qed.

Lemma replace_all_cons (c : ascii) (t : string) :
  replace_all m (String c t) =
  match m (String c t) with
  | Some (S k, r) => r ++ replace_all m (drop k t)
  | _ => String c (replace_all m t)
  end.
Proof.
  unfold replace_all. cbn [replace_from].
  destruct (m (String c t)) as [[[|k] r]|]; try reflexivity.
  rewrite replace_from_drop. reflexivity.
Qed.

(** An expression that matches nowhere in a text leaves it alone. *)
Lemma replace_all_no_match (P : string -> Prop) :
  (forall c t, P (String c t) -> P t) ->
  (forall s, P s -> m s = None) ->
  forall s, P s -> replace_all m s = s.
Proof.
  intros Htail Hnone s. induction s as [|c t IH]; intros HP; [reflexivity|].
  rewrite replace_all_cons, (Hnone _ HP), (IH (Htail _ _ HP)). reflexivity.
Qed.

(** A replacement that is never longer than its match, for matches that lie
    within the text, never lengthens the text. *)
Lemma replace_from_length :
  (forall s n r, m s = Some (n, r) ->
                 String.length r <= n /\ n <= String.length s) ->
  forall s k, String.length (replace_from m k s) <= String.length s - k.
Proof.
  intros Hm s. induction s as [|c t IH]; intros k.
  - destruct k; cbn; lia.
  - destruct k as [|k]; cbn [replace_from String.length].
    + destruct (m (String c t)) as [[[|j] r]|] eqn:E.
      * specialize (IH 0). cbn [String.length]. lia.
      * destruct (Hm _ _ _ E) as [Hr Hn]. cbn [String.length] in Hn.
        specialize (IH j). rewrite length_app. lia.
      * specialize (IH 0). cbn [String.length]. lia.
    + specialize (IH k). lia.
Qed.

End GlobalReplace.

Section ClosingBraces.

Lemma length_drop (k : nat) (s : string) :
  String.length (drop k s) <= String.length s.
Proof.
  revert s. induction k as [|k IH]; intros [|c t]; cbn [drop String.length]; try lia.
  specialize (IH t). lia.
Qed.

Lemma leading_braces_cons (c : ascii) (t : string) :
  leading_braces (String c t) =
  if Ascii.eqb "}" c then S (leading_braces t) else 0.
Proof.
  unfold leading_braces. cbn [take_while].
  destruct (Ascii.eqb "}" c); [|reflexivity].
  destruct (take_while (Ascii.eqb "}") t). reflexivity.
Qed.

Lemma leading_braces_le (s : string) : leading_braces s <= String.length s.
Proof.
  induction s as [|c t IH]; [cbn; lia|].
  rewrite leading_braces_cons. cbn [String.length].
  destruct (Ascii.eqb "}" c); lia.
Qed.

Lemma leading_braces_drop (s : string) :
  leading_braces (drop (leading_braces s) s) = 0.
Proof.
  induction s as [|c t IH]; [reflexivity|].
  rewrite leading_braces_cons. destruct (Ascii.eqb "}" c) eqn:E.
  - cbn [drop]. exact IH.
  - cbn [drop]. rewrite leading_braces_cons, E. reflexivity.
Qed.

Lemma closingRun_spec (s : string) :
  closingRun s =
  if 2 <? leading_braces s then Some (leading_braces s, "}}") else None.
Proof.
  unfold closingRun, leading_braces.
  destruct (take_while (Ascii.eqb "}") s). reflexivity.
Qed.

(** Three closing braces are found at the head of a text, or further on. *)
Lemma contains_braces_cons (c : ascii) (t : string) :
  contains "}}}" (String c t) =
  (Ascii.eqb "}" c && (1 <? leading_braces t)) || contains "}}}" t.
Proof.
  cbn [contains strip_prefix].
  destruct (Ascii.eqb "}" c); [|reflexivity].
  destruct t as [|c1 t1]; [reflexivity|].
  rewrite leading_braces_cons. cbn [strip_prefix].
  destruct (Ascii.eqb "}" c1); [|reflexivity].
  destruct t1 as [|c2 t2]; [reflexivity|].
  rewrite leading_braces_cons. cbn [strip_prefix].
  destruct (Ascii.eqb "}" c2); reflexivity.
Qed.

Lemma contains_braces_leading (s : string) :
  contains "}}}" s = false -> leading_braces s <= 2.
Proof.
  destruct s as [|c t]; [cbn; lia|].
  rewrite contains_braces_cons, leading_braces_cons.
  destruct (Ascii.eqb "}" c); [|lia].
  cbn [andb]. intros H. apply orb_false_elim in H. destruct H as [H _].
  apply Nat.ltb_ge in H. lia.
Qed.

(** What the second expression of [advancedJsonFix] makes of a text: no run
    of three closing braces is left, and the run at the head is the one of the
    text, cut to two. *)
Lemma closingRun_result (n : nat) :
  forall s, String.length s <= n ->
    contains "}}}" (replace_all closingRun s) = false /\
    leading_braces (replace_all closingRun s) = Nat.min (leading_braces s) 2.
Proof.
  induction n as [|n IH]; intros s Hlen.
  - destruct s; [split; reflexivity | cbn in Hlen; lia].
  - destruct s as [|c t]; [split; reflexivity|].
    cbn [String.length] in Hlen.
    rewrite replace_all_cons, closingRun_spec.
    destruct (2 <? leading_braces (String c t)) eqn:Hrun.
    + apply Nat.ltb_lt in Hrun.
      destruct (leading_braces (String c t)) as [|k] eqn:Ek; [lia|].
      rewrite leading_braces_cons in Ek.
      destruct (Ascii.eqb "}" c) eqn:Ec; [|discriminate Ek].
      injection Ek as Ek. subst k.
      pose proof (length_drop (leading_braces t) t) as Hd.
      destruct (IH (drop (leading_braces t) t) ltac:(lia)) as [Hno Hlead].
      rewrite leading_braces_drop in Hlead. cbn [Nat.min] in Hlead.
      change ("}}" ++ replace_all closingRun (drop (leading_braces t) t))
        with (String "}" (String "}" (replace_all closingRun (drop (leading_braces t) t)))).
      split.
      * rewrite !contains_braces_cons, leading_braces_cons, Hlead, Hno. reflexivity.
      * rewrite !leading_braces_cons, Hlead. cbn [Ascii.eqb Bool.eqb].
        destruct (leading_braces t) as [|[|j]]; try lia; reflexivity.
    + apply Nat.ltb_ge in Hrun.
      destruct (IH t ltac:(lia)) as [Hno Hlead].
      rewrite leading_braces_cons in Hrun.
      rewrite contains_braces_cons, !leading_braces_cons, Hlead, Hno.
      destruct (Ascii.eqb "}" c); cbn [andb orb].
      * assert (Ht : leading_braces t <= 1) by lia.
        rewrite Nat.min_l by lia.
        split; [|destruct (leading_braces t) as [|[|j]]; try lia; reflexivity].
        rewrite orb_false_r. apply Nat.ltb_ge. exact Ht.
      * split; reflexivity.
Qed.

Lemma strip_prefix_Some (p s r : string) : strip_prefix p s = Some r -> s = p ++ r.
Proof.
  revert s. induction p as [|a p IH]; intros s H; cbn in H.
  - injection H as ->. reflexivity.
  - destruct s as [|b s]; [discriminate H|].
    destruct (Ascii.eqb_spec a b) as [<-|]; [|discriminate H].
    cbn [append]. f_equal. apply IH, H.
Qed.

Lemma take_while_app (f : ascii -> bool) (s : string) :
  s = fst (take_while f s) ++ snd (take_while f s).
Proof.
  induction s as [|a t IH]; [reflexivity|].
  cbn [take_while]. destruct (f a); [|reflexivity].
  destruct (take_while f t) as [x y]. cbn [fst snd append] in *. f_equal. exact IH.
Qed.

Lemma contains_app_r (pat x y : string) :
  contains pat y = true -> contains pat (x ++ y) = true.
Proof.
  intros H. induction x as [|a x IH]; [exact H|].
  cbn [append contains]. destruct (strip_prefix pat (String a (x ++ y))); [reflexivity|].
  exact IH.
Qed.

Lemma contains_tail (pat : string) (c : ascii) (t : string) :
  contains pat (String c t) = false -> contains pat t = false.
Proof.
  cbn [contains]. destruct (strip_prefix pat (String c t)); [discriminate|]. trivial.
Qed.

(** The first expression only matches where four closing braces stand. *)
Lemma propertiesPattern_inside (s : string) (n : nat) (r : string) :
  propertiesPattern s = Some (n, r) ->
  contains "}}}" s = true /\ String.length r <= n /\ n <= String.length s.
Proof.
  unfold propertiesPattern.
  destruct (strip_prefix (q "properties" ++ ":{") s) as [rest|] eqn:E1; [|discriminate].
  pose proof (take_while_app (fun c => negb (Ascii.eqb c "}")) rest) as E2.
  destruct (take_while (fun c => negb (Ascii.eqb c "}")) rest) as [inner after].
  cbn [fst snd] in E2.
  destruct (strip_prefix "}}}}" after) as [rest'|] eqn:E3; [|discriminate].
  intros H. injection H as <- <-.
  apply strip_prefix_Some in E1. apply strip_prefix_Some in E3. subst.
  split; [|split].
  - apply contains_app_r, contains_app_r. reflexivity.
  - cbn [String.length]. rewrite ?length_app. cbn [String.length]. lia.
  - cbn [String.length append]. rewrite ?length_app. cbn [String.length].
    change (String.length (q "properties")) with 12. lia.
Qed.

Lemma closingRun_inside (s : string) (n : nat) (r : string) :
  closingRun s = Some (n, r) ->
  contains "}}}" s = true /\ String.length r <= n /\ n <= String.length s.
Proof.
  rewrite closingRun_spec.
  destruct (2 <? leading_braces s) eqn:E; [|discriminate].
  intros H. injection H as <- <-. apply Nat.ltb_lt in E.
  pose proof (leading_braces_le s) as Hle.
  split; [|cbn [String.length]; lia].
  destruct (contains "}}}" s) eqn:Ec; [reflexivity|].
  apply contains_braces_leading in Ec. lia.
Qed.

End ClosingBraces.

Lemma advancedJsonFix_result (s : string) :
  contains "}}}" (advancedJsonFix s) = false.
Proof.
  unfold advancedJsonFix.
  apply (closingRun_result _ _ (Nat.le_refl _)).
Qed.

Lemma advancedJsonFix_unchanged (s : string) :
  contains "}}}" s = false -> advancedJsonFix s = s.
Proof.
  intros H. unfold advancedJsonFix.
  assert (Hp : replace_all propertiesPattern s = s).
  { apply (replace_all_no_match propertiesPattern (fun u => contains "}}}" u = false));
      [apply contains_tail | | exact H].
    intros u Hu. destruct (propertiesPattern u) as [[n r]|] eqn:E; [|reflexivity].
    apply propertiesPattern_inside in E. destruct E as [E _]. congruence. }
  rewrite Hp.
  apply (replace_all_no_match closingRun (fun u => contains "}}}" u = false));
    [apply contains_tail | | exact H].
  intros u Hu. destruct (closingRun u) as [[n r]|] eqn:E; [|reflexivity].
  apply closingRun_inside in E. destruct E as [E _]. congruence.
Qed.

(** X1.  Whatever the text, the second attempt leaves no run of three closing
    braces in it. *)
Theorem advancedJsonFix_no_triple_brace (s : string) :
  contains "}}}" (advancedJsonFix s) = false.
Proof. apply advancedJsonFix_result. Qed.

(** X2.  A text without three closing braces in a row is left as it is by
    the second attempt. *)
Theorem advancedJsonFix_without_triple_brace (s : string) :
  contains "}}}" s = false -> advancedJsonFix s = s.
Proof. apply advancedJsonFix_unchanged. Qed.

Lemma advancedJsonFix_without_triple_brace_witness :
  advancedJsonFix ("{" ++ q "a" ++ ":{" ++ q "b" ++ ":[1,2]}}") =
  "{" ++ q "a" ++ ":{" ++ q "b" ++ ":[1,2]}}".
Proof.
  apply advancedJsonFix_without_triple_brace. reflexivity.
Defined.

(** X3.  The second attempt is idempotent. *)
Theorem advancedJsonFix_idempotent (s : string) :
  advancedJsonFix (advancedJsonFix s) = advancedJsonFix s.
Proof.
  apply advancedJsonFix_unchanged, advancedJsonFix_result.
Qed.

(** X4.  The second attempt never lengthens a text. *)
Theorem advancedJsonFix_length (s : string) :
  String.length (advancedJsonFix s) <= String.length s.
Proof.
  unfold advancedJsonFix, replace_all.
  pose proof (replace_from_length closingRun
                ltac:(intros u n r E; apply closingRun_inside in E; tauto)
                (replace_from propertiesPattern 0 s) 0) as H1.
  pose proof (replace_from_length propertiesPattern
                ltac:(intros u n r E; apply propertiesPattern_inside in E; tauto)
                s 0) as H2.
  lia.
Qed.

(** X5.  When the text has no closing brace and no closing bracket in excess,
    step 2 only appends to it, and afterwards the opening and the closing
    braces are as many, and so are the brackets. *)
Theorem balanceStructure_balances (s : string) :
  count_char "}" s <= count_char "{" s ->
  count_char "]" s <= count_char "[" s ->
  (exists tail, balanceStructure s = s ++ tail) /\
  count_char "{" (balanceStructure s) = count_char "}" (balanceStructure s) /\
  count_char "[" (balanceStructure s) = count_char "]" (balanceStructure s).
Proof.
  intros Hb Hk.
  rewrite (balanceStructure_missing s
             (count_char "{" s - count_char "}" s)
             (count_char "[" s - count_char "]" s)) by lia.
  split; [eexists; reflexivity|].
  rewrite !count_char_app, !count_char_repeat_same.
  rewrite !count_char_repeat_other by discriminate. lia.
Qed.

Lemma balanceStructure_balances_witness :
  (exists tail, balanceStructure doc_a1_cut = doc_a1_cut ++ tail) /\
  count_char "{" (balanceStructure doc_a1_cut) =
    count_char "}" (balanceStructure doc_a1_cut) /\
  count_char "[" (balanceStructure doc_a1_cut) =
    count_char "]" (balanceStructure doc_a1_cut).
Proof.
  apply balanceStructure_balances; vm_compute; lia.
Defined.

Section ExtraBraces.

Lemma all_chars_repeat (c : ascii) (n : nat) :
  all_chars (Ascii.eqb c) (repeat_char c n) = true.
Proof.
  induction n as [|n IH]; [reflexivity|].
  cbn [repeat_char all_chars]. rewrite Ascii.eqb_refl, IH. reflexivity.
Qed.

Lemma repeat_char_add (c : ascii) (a b : nat) :
  repeat_char c (a + b) = repeat_char c a ++ repeat_char c b.
Proof.
  induction a as [|a IH]; [reflexivity|].
  cbn [Nat.add repeat_char append]. rewrite IH. reflexivity.
Qed.

(** The run at the end of a text that holds the character nowhere else is
    what the expression with the dollar sign replaces. *)
Lemma replace_trailing_run_app (c : ascii) (r p : string) (n : nat) :
  count_char c p = 0 ->
  replace_trailing_run c r (p ++ repeat_char c (S n)) = p ++ r.
Proof.
  induction p as [|a p IH]; intros Hp.
  - cbn [append repeat_char replace_trailing_run].
    rewrite Ascii.eqb_refl, all_chars_repeat. reflexivity.
  - cbn [count_char] in Hp. cbn [append replace_trailing_run].
    destruct (Ascii.eqb a c); [discriminate Hp|].
    cbn [andb]. rewrite IH by exact Hp. reflexivity.
Qed.

End ExtraBraces.

(** X6.  Closing braces in excess at the end are taken away: for a document
    that parses, whose closing braces all stand at its end, as many as it has
    opening braces, and whose brackets are as many of each kind, the routine
    gives the document back whatever the number of closing braces added to
    it. *)
Theorem validateAndFixJsonStructure_extra_braces (p : string) (n : nat) :
  let d := p ++ repeat_char "}" (count_char "{" p) in
  JSON_parse d <> None ->
  count_char "}" p = 0 ->
  count_char "[" p = count_char "]" p ->
  validateAndFixJsonStructure (d ++ repeat_char "}" n) = d.
Proof.
  intros d Hvalid Hclose Hk.
  set (o := count_char "{" p) in *.
  assert (Es : d ++ repeat_char "}" n = p ++ repeat_char "}" (o + n)).
  { unfold d. rewrite append_assoc, <- repeat_char_add. reflexivity. }
  assert (Hbal : balanceStructure (d ++ repeat_char "}" n) = d).
  { rewrite Es. unfold balanceStructure.
    rewrite !count_char_app, count_char_repeat_same.
    rewrite !count_char_repeat_other by discriminate.
    fold o. rewrite Hclose, Hk, !Nat.add_0_r, Nat.ltb_irrefl. cbn [Nat.add].
    destruct n as [|n].
    - rewrite Nat.add_0_r, Nat.ltb_irrefl. reflexivity.
    - replace (o + S n <? o) with false by (symmetry; apply Nat.ltb_ge; lia).
      replace (o <? o + S n) with true by (symmetry; apply Nat.ltb_lt; lia).
      replace (o + S n - (o + S n - o)) with o by lia.
      replace (o + S n) with (S (o + n)) by lia.
      apply replace_trailing_run_app, Hclose. }
  unfold validateAndFixJsonStructure. rewrite Hbal.
  destruct (JSON_parse d); [reflexivity | congruence].
Qed.

Lemma validateAndFixJsonStructure_extra_braces_witness :
  validateAndFixJsonStructure ("{" ++ q "a" ++ ":{" ++ q "b" ++ ":[1,2]}}}}}") =
  "{" ++ q "a" ++ ":{" ++ q "b" ++ ":[1,2]}}".
Proof.
  apply (validateAndFixJsonStructure_extra_braces
           ("{" ++ q "a" ++ ":{" ++ q "b" ++ ":[1,2]") 3).
  - vm_compute. discriminate.
  - reflexivity.
  - reflexivity.
Defined.

(** Closing braces that do not all stand at the end defeat the trimming: the
    whole final run is replaced by as many braces as the text has opening
    ones. *)
Example validateAndFixJsonStructure_extra_brace_kept :
  JSON_parse ("{" ++ q "a" ++ ":{}," ++ q "b" ++ ":1}") <> None /\
  validateAndFixJsonStructure ("{" ++ q "a" ++ ":{}," ++ q "b" ++ ":1}}") =
  "{" ++ q "a" ++ ":{}," ++ q "b" ++ ":1}}".
Proof.
  split; [vm_compute; discriminate | vm_compute; reflexivity].
Qed.

(* ================================================================= *)
(** * Invariants of a run *)

Section Requests.

Lemma silent_no_request {A : Type} (m : M A) : silent m -> no_request m.
Proof. intros H s. rewrite H. reflexivity. Qed.

Lemma no_request_push (o : INodeExecutionData) : no_request (returnData_push o).
Proof. intros s. reflexivity. Qed.

Lemma no_request_bind {A B : Type} (m : M A) (k : A -> M B) :
  no_request m -> (forall a, no_request (k a)) -> no_request (bind m k).
Proof.
  intros Hm Hk s. unfold bind. specialize (Hm s).
  destruct (m s) as [[a|e] s1]; cbn [snd] in *; [rewrite Hk|]; exact Hm.
Qed.





Variable P : IHttpRequestOptions -> bool.

Lemma requests_all_of_none {A : Type} (m : M A) : no_request m -> requests_all P m.
Proof. intros H s Hs. rewrite H. exact Hs. Qed.

Lemma requests_all_bind {A B : Type} (m : M A) (k : A -> M B) :
  requests_all P m -> (forall a, requests_all P (k a)) -> requests_all P (bind m k).
Proof.
  intros Hm Hk s Hs. unfold bind. specialize (Hm s Hs).
  destruct (m s) as [[a|e] s1]; cbn [snd] in *; [apply Hk|]; exact Hm.
Qed.

Lemma requests_all_http (h : Host) (options : IHttpRequestOptions) :
  P options = true -> requests_all P (httpRequest h options).
Proof.
  intros Ho s Hs. cbn. unfold push. rewrite forallb_app, Hs. cbn. rewrite Ho. reflexivity.
Qed.

Lemma requests_all_try_catch {A : Type} (m : M A) (handler : Thrown -> M A) :
  requests_all P m -> (forall e, requests_all P (handler e)) ->
  requests_all P (try_catch m handler).
Proof.
  intros Hm Hh s Hs. unfold try_catch. specialize (Hm s Hs).
  destruct (m s) as [[a|e] s1]; cbn [snd] in *; [|apply Hh]; exact Hm.
Qed.

End Requests.

(** The requests of a computation, found by following its text. *)
Ltac no_requests :=
  repeat first
    [ progress intros
    | apply no_request_push
    | apply silent_no_request;
      first [apply silent_ret | apply silent_throw | apply silent_lift]
    | apply no_request_bind
    | match goal with
      | |- no_request (if ?b then _ else _) => destruct b
      | |- no_request (match ?x with _ => _ end) => destruct x
      end ].


Ltac requests_all_tac :=
  repeat first
    [ progress intros
    | apply requests_all_http;
      solve [ reflexivity
            | repeat match goal with
                     | |- context [if ?c then _ else _] => destruct c
                     end;
              reflexivity ]
    | apply requests_all_of_none; solve [no_requests]
    | apply requests_all_bind
    | match goal with
      | |- requests_all _ (if ?b then _ else _) => destruct b
      | |- requests_all _ (match ?x with _ => _ end) => destruct x
      end ].

Section RoundRequests.

Variable h : Host.
Variable i : nat.





Lemma OCR_requests : requests_all OCR_request (DocumentOCRUpstage.round h i).
Proof.
  apply requests_all_try_catch.
  - unfold DocumentOCRUpstage.try_block. requests_all_tac.
  - intros e. apply requests_all_of_none.
    unfold DocumentOCRUpstage.catch_block. no_requests.
Qed.

Lemma Parsing_requests : requests_all Parsing_request (DocumentParsingUpstage.round h i).
Proof.
  apply requests_all_try_catch.
  - unfold DocumentParsingUpstage.try_block, DocumentParsingUpstage.upload.
    requests_all_tac.
  - intros e. apply requests_all_of_none.
    unfold DocumentParsingUpstage.catch_block. no_requests.
Qed.

Lemma Classification_requests :
  requests_all Classification_request (DocumentClassificationUpstage.round h i).
Proof.
  apply requests_all_try_catch.
  - unfold DocumentClassificationUpstage.try_block. requests_all_tac.
  - intros e. apply requests_all_of_none.
    unfold DocumentClassificationUpstage.catch_block. no_requests.
Qed.

Lemma Extraction_requests :
  requests_all Extraction_request (InformationExtractionUpstage.round h i).
Proof.
  apply requests_all_try_catch.
  - unfold InformationExtractionUpstage.try_block, InformationExtractionUpstage.extract,
      InformationExtractionUpstage.schema, InformationExtractionUpstage.dataUrlOrHttp.
    requests_all_tac.
  - intros e. apply requests_all_of_none.
    unfold InformationExtractionUpstage.catch_block. no_requests.
Qed.

End RoundRequests.

Section LoopInvariants.

Variable round : nat -> M unit.


Lemma for_loop_requests_all (P : IHttpRequestOptions -> bool) (count : nat) :
  (forall j, requests_all P (round j)) ->
  forall i, requests_all P (for_loop round i count).
Proof.
  intros Hround. induction count as [|count IH]; intros i s Hs; [exact Hs|].
  rewrite for_loop_step. specialize (Hround i s Hs).
  destruct (round i s) as [[u|e] s1]; cbn [snd] in *; [apply IH|]; exact Hround.
Qed.

Lemma for_loop_returns (count : nat) :
  (forall j s, exists s', round j s = (Ok tt, s')) ->
  forall i s, exists s', for_loop round i count s = (Ok tt, s').
Proof.
  intros Hround. induction count as [|count IH]; intros i s.
  - exists s. reflexivity.
  - rewrite for_loop_step. destruct (Hround i s) as [s1 E]. rewrite E. apply IH.
Qed.

Lemma for_loop_emits_at_most (count : nat) :
  (forall j, emits_at_most j (round j)) ->
  forall i s,
    match for_loop round i count s with
    | (Ok _, s') =>
        exists outs,
          returnData s' = (returnData s ++ outs)%list /\ List.length outs <= count
    | (Throw _, _) => True
    end.
Proof.
  intros Hround. induction count as [|count IH]; intros i s.
  - cbn. exists []. rewrite app_nil_r. split; [reflexivity | cbn; lia].
  - rewrite for_loop_step. pose proof (Hround i s) as Hi.
    destruct (round i s) as [[u|e] s1]; [|exact I].
    specialize (IH (S i) s1).
    destruct (for_loop round (S i) count s1) as [[u'|e] s2]; [|exact I].
    destruct IH as [outs [Hs2 Hlen]].
    destruct Hi as [Hi | [o [Hi _]]].
    + exists outs. rewrite Hs2, Hi. split; [reflexivity | lia].
    + exists (o :: outs). rewrite Hs2, Hi, <- app_assoc. split; [reflexivity | cbn; lia].
Qed.

Lemma run_execute_state (items : list INodeExecutionData) :
  snd (run_execute items round) = snd (for_loop round 0 (List.length items) start).
Proof.
  unfold run_execute. fold start.
  destruct (for_loop round 0 (List.length items) start) as [[u|e] s1]; reflexivity.
Qed.

End LoopInvariants.

Lemma try_catch_returns (m : M unit) (handler : Thrown -> M unit) :
  (forall e s, exists s', handler e s = (Ok tt, s')) ->
  forall s, exists s', try_catch m handler s = (Ok tt, s').
Proof.
  intros Hh s. unfold try_catch. destruct (m s) as [[[]|e] s1]; [eexists; reflexivity|].
  apply Hh.
Qed.

Lemma emits_at_most_of_emits (i : nat) (m : M unit) : emits i m -> emits_at_most i m.
Proof.
  intros H s. specialize (H s). destruct (m s) as [[u|e] s1]; [right|]; exact H.
Qed.

Lemma emits_at_most_try_catch (i : nat) (m : M unit) (handler : Thrown -> M unit) :
  emits_at_most i m -> (forall e, emits i (handler e)) ->
  emits_at_most i (try_catch m handler).
Proof.
  intros Hm Hh s. unfold try_catch. specialize (Hm s).
  destruct (m s) as [[u|e] s1]; [exact Hm|].
  specialize (Hh e s1). destruct (handler e s1) as [[u|e'] s2]; rewrite <- Hm;
    [right|]; exact Hh.
Qed.

(** Whatever the operation, the try block of the parsing node pushes at most
    one item. *)
Lemma Parsing_try_block_emits_at_most (h : Host) (i : nat) :
  emits_at_most i (DocumentParsingUpstage.try_block h i).
Proof.
  unfold DocumentParsingUpstage.try_block. intros s.
  unfold bind at 1, lift at 1.
  destruct (getNodeParameter h PString "operation" i None) as [operation|e];
    [|reflexivity].
  pose proof (Parsing_upload_emits h i operation) as Hup.
  destruct (String.eqb operation "sync" || String.eqb operation "asyncSubmit").
  { apply (emits_at_most_of_emits _ _ Hup). }
  destruct (String.eqb operation "asyncGet").
  { apply emits_at_most_of_emits. effects. }
  destruct (String.eqb operation "asyncList").
  { apply emits_at_most_of_emits. effects. }
  left. reflexivity.
Qed.


(** X8.  Every request of a run goes to an endpoint of the node: the OCR node
    posts a buffer to document-digitization; the parsing node posts a buffer
    to document-digitization or to its async path, or gets a path under
    document-digitization/requests without a body; the extraction node posts
    a JSON body, with the json option, to information-extraction or to its
    schema-generation path; the classification node posts a JSON body to
    document-classification. *)
Theorem execute_requests_endpoints (h : Host) :
  forallb OCR_request (requests (snd (DocumentOCRUpstage.execute h))) = true /\
  forallb Parsing_request (requests (snd (DocumentParsingUpstage.execute h))) = true /\
  forallb Extraction_request
    (requests (snd (InformationExtractionUpstage.execute h))) = true /\
  forallb Classification_request
    (requests (snd (DocumentClassificationUpstage.execute h))) = true.
Proof.
  assert (H : forall P round,
             (forall j, requests_all P (round j)) ->
             forallb P (requests (snd (run_execute (getInputData h) round))) = true).
  { intros P round Hround. rewrite run_execute_state.
    apply (for_loop_requests_all round P _ Hround 0 start). reflexivity. }
  split; [|split; [|split]]; apply H; intros j.
  - apply OCR_requests.
  - apply Parsing_requests.
  - apply Extraction_requests.
  - apply Classification_requests.
Qed.

(* ================================================================= *)
(** * What a try block that returns has done *)

(** A step of a computation applied to a state, requests and matches
    included. *)
Ltac run_more :=
  first
    [ run_step_with ltac:(rewrite ?String.eqb_refl)
    | rewrite bind_httpRequest;
      match goal with
      | |- context [match ?o with Ok _ => _ | Throw _ => _ end] => destruct o eqn:?
      end
    | match goal with
      | |- context [bind (match ?x with _ => _ end) _ _] => destruct x eqn:?
      | |- context [createMultipartFormData ?r ?f ?d] =>
          destruct (createMultipartFormData r f d) eqn:?
      end ].

Ltac file_size_ok :=
  let n := fresh "n" in
  let Hn := fresh "Hn" in
  intros n Hn;
  first
    [ congruence
    | match goal with
      | E : fileSize ?d = Some (FileSizeNumber ?n0),
        Hc : (_ <? ?n0)%Z = false |- _ =>
          assert (n = n0) by congruence; subst; apply Z.ltb_ge in Hc; exact Hc
      end ].

Ltac use_multipart :=
  match goal with
  | E : createMultipartFormData _ _ _ = (?b, ?c) |- context [fst ?t] =>
      replace t with (b, c) by (symmetry; exact E); cbn [fst snd]
  end.

Ltac use_tests :=
  repeat match goal with
    | H : _ || _ = false |- _ =>
        apply orb_false_iff in H; destruct H
    | H : negb _ = false |- _ => apply negb_false_iff in H
    | H : String.eqb _ _ = _ |- _ => rewrite H
    end.

Section OCRInversion.

Variable h : Host.
Variable i : nat.
Variable s : State.

Lemma OCR_try_block_inv :
  match DocumentOCRUpstage.try_block h i s with
  | (Throw _, _) => True
  | (Ok _, s') =>
      exists name model schema returnMode d buf r,
        getNodeParameter h PString "binaryPropertyName" i None = Ok name /\
        getNodeParameter h PString "model" i None = Ok model /\
        getNodeParameter h PString "schema" i None = Ok schema /\
        getNodeParameter h PString "returnMode" i None = Ok returnMode /\
        binary_of (getInputData h) i name = Ok d /\
        (forall n, fileSize d = Some (FileSizeNumber n) -> (n <= 50 * 1024 * 1024)%Z) /\
        getBinaryDataBuffer h i name = Ok buf /\
        let mp :=
          createMultipartFormData (random_base36 h i)
            (if String.eqb schema "" then [("model", model)]
             else push [("model", model)] ("schema", schema))
            {| buffer := buf;
               filename := string_or (fileName d) "upload";
               contentType := string_or (mimeType d) "application/octet-stream" |} in
        let options :=
          {| method := "POST";
             url := "https://api.upstage.ai/v1/document-digitization";
             body := BufferBody (fst mp);
             headers := [("Content-Type", snd mp)];
             json_flag := false |} in
        requests s' = push (requests s) options /\
        httpRequestWithAuthentication h (List.length (requests s)) options = Ok r /\
        truthy r = true /\
        typeof_object r = true /\
        exists j,
          returnData s' = push (returnData s) (obj_item j i) /\
          (if String.eqb returnMode "text" then
             j = VObj [("text", nullish_or (opt_get r "text") (VStr ""))]
           else if String.eqb returnMode "pages" then
             j = VObj [("pages", nullish_or (opt_get r "pages") (VArr []))]
           else if String.eqb returnMode "words" then
             exists ws, DocumentOCRUpstage.allWords r = Ok ws /\ j = VObj [("words", ws)]
           else if String.eqb returnMode "confidence" then
             j = VObj [("confidence", nullish_or (opt_get r "confidence") (VNum "0"));
                       ("modelVersion", nullish_or (opt_get r "modelVersion") (VStr ""));
                       ("numBilledPages",
                        nullish_or (opt_get r "numBilledPages") (VNum "0"))]
           else j = r)
  end.
Proof.
  unfold DocumentOCRUpstage.try_block.
  repeat run_more; try exact I;
    cbn [returnData_push returnData requests]; cbv zeta;
    do 7 eexists;
    repeat (split; [first [reflexivity | eassumption | file_size_ok] | ]);
    use_multipart; use_tests;
    repeat (split; [first [reflexivity | eassumption | file_size_ok] | ]);
    eexists; (split; [reflexivity|]); use_tests;
    first [reflexivity | eexists; split; [eassumption | reflexivity]].
Qed.

End OCRInversion.

(* ================================================================= *)
(** * Items that are refused before a request *)

Lemma binary_of_lacks (items : list INodeExecutionData) (i : nat) (name : string) :
  lacks_binary items i name = true ->
  binary_of items i name = Throw (no_binary_data name).
Proof.
  unfold lacks_binary, binary_of, no_binary_data.
  destruct (nth_error items i) as [item|]; [|discriminate].
  destruct (binary item) as [b|]; [|reflexivity].
  destruct (binary_get name b); [discriminate | reflexivity].
Qed.

Ltac refused :=
  eexists; split; [reflexivity|];
  first [ left; reflexivity
        | right; param_error
        | right; left; param_error
        | right; right; eexists; reflexivity ].

Section MissingBinary.

Variable h : Host.
Variable i : nat.
Variable s : State.
Variable name : string.
Hypothesis E_name : getNodeParameter h PString "binaryPropertyName" i None = Ok name.
Hypothesis E_binary : binary_of (getInputData h) i name = Throw (no_binary_data name).

Lemma OCR_missing_binary :
  fails_at_once (fun e => e = no_binary_data name \/ parameter_error h i e)
    (DocumentOCRUpstage.try_block h i) s.
Proof.
  unfold fails_at_once, DocumentOCRUpstage.try_block.
  rewrite E_name.
  repeat (run_step_with ltac:(rewrite ?E_binary)); refused.
Qed.

Lemma Parsing_missing_binary (operation : string) :
  fails_at_once (fun e => e = no_binary_data name \/ parameter_error h i e)
    (DocumentParsingUpstage.upload h i operation) s.
Proof.
  unfold fails_at_once, DocumentParsingUpstage.upload.
  rewrite E_name.
  repeat (run_step_with ltac:(rewrite ?E_binary)); refused.
Qed.

Lemma Classification_missing_binary :
  getNodeParameter h PString "inputType" i None = Ok "binary" ->
  fails_at_once (fun e => e = no_binary_data name \/ parameter_error h i e)
    (DocumentClassificationUpstage.try_block h i) s.
Proof.
  intros E_input.
  unfold fails_at_once, DocumentClassificationUpstage.try_block.
  rewrite E_input.
  repeat (run_step_with ltac:(rewrite ?String.eqb_refl, ?E_name, ?E_binary)); refused.
Qed.

Lemma Extraction_missing_binary :
  getNodeParameter h PString "inputType" i None = Ok "binary" ->
  fails_at_once
    (fun e => e = no_binary_data name \/ parameter_error h i e \/
              exists text, e = Error text)
    (InformationExtractionUpstage.try_block h i) s.
Proof.
  intros E_input.
  unfold fails_at_once, InformationExtractionUpstage.try_block,
    InformationExtractionUpstage.extract, InformationExtractionUpstage.schema,
    InformationExtractionUpstage.dataUrlOrHttp.
  rewrite E_input.
  repeat first
    [ run_step_with ltac:(rewrite ?String.eqb_refl, ?E_name, ?E_binary)
    | match goal with
      | |- context [bind (match ?x with _ => _ end) _ _] => destruct x eqn:?
      end ];
    refused.
Qed.

End MissingBinary.

(** X10.  An item that has no file under the property named by the parameter
    binaryPropertyName is refused before any request and any push: by the OCR
    node and by the upload of the parsing node always, by the classification
    and the extraction nodes when the input type is binary.  The error is the
    one that names the property, unless the host failed on a parameter or,
    in the extraction node, the schema was refused first. *)
Theorem missing_binary_refused (h : Host) (i : nat) (s : State) (name : string) :
  getNodeParameter h PString "binaryPropertyName" i None = Ok name ->
  lacks_binary (getInputData h) i name = true ->
  fails_at_once (fun e => e = no_binary_data name \/ parameter_error h i e)
    (DocumentOCRUpstage.try_block h i) s /\
  (forall operation,
     fails_at_once (fun e => e = no_binary_data name \/ parameter_error h i e)
       (DocumentParsingUpstage.upload h i operation) s) /\
  (getNodeParameter h PString "inputType" i None = Ok "binary" ->
   fails_at_once (fun e => e = no_binary_data name \/ parameter_error h i e)
     (DocumentClassificationUpstage.try_block h i) s /\
   fails_at_once
     (fun e => e = no_binary_data name \/ parameter_error h i e \/
               exists text, e = Error text)
     (InformationExtractionUpstage.try_block h i) s).
Proof.
  intros E_name Hlacks. apply binary_of_lacks in Hlacks.
  split; [|split; [|split]].
  - apply OCR_missing_binary; assumption.
  - intros operation. apply Parsing_missing_binary; assumption.
  - apply Classification_missing_binary; assumption.
  - apply Extraction_missing_binary; assumption.
Qed.

Lemma missing_binary_refused_witness :
  fails_at_once
    (fun e => e = no_binary_data "data" \/ parameter_error (host_no_file true) 0 e)
    (DocumentOCRUpstage.try_block (host_no_file true) 0) start.
Proof.
  apply (proj1 (missing_binary_refused (host_no_file true) 0 start "data"
                  eq_refl eq_refl)).
Defined.

(** The name of a property that every object inherits finds a value that is
    not falsy: the item is not refused, and its file is sent under the name
    upload. *)
Example inherited_name_not_refused :
  let h := sample_host [pdf_item]
             [("binaryPropertyName", "toString"); ("model", "ocr"); ("schema", "");
              ("returnMode", "text")] false (Ok (VObj [("text", VStr "Hello")])) in
  lacks_binary (getInputData h) 0 "toString" = false /\
  binary_of (getInputData h) 0 "toString" =
    Ok {| fileName := None; mimeType := None; fileSize := None |} /\
  List.length (requests (snd (DocumentOCRUpstage.execute h))) = 1.
Proof. repeat split; vm_compute; reflexivity. Qed.

(** X11.  The OCR node refuses a file whose size is a number above 50 MB
    before it reads the file and before any request. *)
Theorem OCR_file_size_limit (h : Host) (i : nat) (s : State) (name : string)
    (d : IBinaryData) (n : Z) :
  getNodeParameter h PString "binaryPropertyName" i None = Ok name ->
  binary_of (getInputData h) i name = Ok d ->
  fileSize d = Some (FileSizeNumber n) ->
  (50 * 1024 * 1024 < n)%Z ->
  fails_at_once
    (fun e => e = Error "File size exceeds 50MB limit" \/ parameter_error h i e)
    (DocumentOCRUpstage.try_block h i) s.
Proof.
  intros E_name E_binary E_size Hn. apply Z.ltb_lt in Hn.
  unfold fails_at_once, DocumentOCRUpstage.try_block.
  rewrite E_name.
  repeat (run_step_with ltac:(rewrite ?E_binary, ?E_size, ?Hn)); refused.
Qed.

Lemma OCR_file_size_limit_witness :
  fails_at_once
    (fun e => e = Error "File size exceeds 50MB limit" \/
              parameter_error (host_sized 52428801) 0 e)
    (DocumentOCRUpstage.try_block (host_sized 52428801) 0) start.
Proof.
  apply (OCR_file_size_limit (host_sized 52428801) 0 start "data"
           {| fileName := Some "scan.pdf"; mimeType := Some "application/pdf";
              fileSize := Some (FileSizeNumber 52428801) |} 52428801
           eq_refl eq_refl eq_refl eq_refl).
Defined.

(** A file of exactly 50 MB is sent. *)
Example OCR_file_size_at_limit :
  List.length (requests (snd (DocumentOCRUpstage.execute (host_sized 52428800)))) = 1.
Proof. vm_compute. reflexivity. Qed.

(* ================================================================= *)
(** * The OCR node: what a returned item stands for *)

Lemma object_or_array (v : value) :
  truthy v = true -> typeof_object v = true ->
  (exists props, v = VObj props) \/ (exists elements, v = VArr elements).
Proof.
  destruct v; cbn; try discriminate; intros _ _;
    [right | left]; eexists; reflexivity.
Qed.


(** X12.  When the try block of the OCR node returns, it has issued one
    request, the answer was an object or an array, and one item paired with
    the input item was pushed. *)
Theorem OCR_returns_after_valid_response (h : Host) (i : nat) (s s' : State) :
  DocumentOCRUpstage.try_block h i s = (Ok tt, s') ->
  exists options response j,
    requests s' = push (requests s) options /\
    httpRequestWithAuthentication h (List.length (requests s)) options = Ok response /\
    ((exists props, response = VObj props) \/
     (exists elements, response = VArr elements)) /\
    returnData s' = push (returnData s) (obj_item j i).
Proof.
  intros E. pose proof (OCR_try_block_inv h i s) as H. rewrite E in H.
  destruct H as (name & model & schema & returnMode & d & buf & r & _ & _ & _ & _ & _
                 & _ & _ & Hreq & Hres & Ht & Ho & j & Hj & _).
  eexists _, r, j. split; [exact Hreq|]. split; [exact Hres|].
  split; [apply object_or_array; assumption | exact Hj].
Qed.

Lemma OCR_returns_after_valid_response_witness :
  exists options response j,
    requests (snd (DocumentOCRUpstage.try_block host_hello 0 start)) =
      push (requests start) options /\
    httpRequestWithAuthentication host_hello (List.length (requests start)) options =
      Ok response /\
    ((exists props, response = VObj props) \/
     (exists elements, response = VArr elements)) /\
    returnData (snd (DocumentOCRUpstage.try_block host_hello 0 start)) =
      push (returnData start) (obj_item j 0).
Proof.
  apply (OCR_returns_after_valid_response host_hello 0 start
           (snd (DocumentOCRUpstage.try_block host_hello 0 start))).
  vm_compute. reflexivity.
Defined.

Section OCRRequest.

Variable h : Host.
Variable i : nat.
Variable s s' : State.
Variable name model schema : string.
Variable d : IBinaryData.
Variable buf : Buffer.

Let file : FileDescriptor :=
  {| buffer := buf;
     filename := string_or (fileName d) "upload";
     contentType := string_or (mimeType d) "application/octet-stream" |}.


End OCRRequest.




(* ================================================================= *)
(** * The parsing node *)

(** A statement about the state that a computation returns is proved along
    the text of the computation. *)
Ltac returned E :=
  match type of E with
  | ?m = (Ok tt, ?s1) =>
      pattern s1;
      match goal with
      | |- ?P s1 =>
          let H := fresh "H" in
          assert (H : match m with
                      | (Ok _, s2) => P s2
                      | (Throw _, _) => True
                      end);
          [ clear E; cbv beta | rewrite E in H; exact H ]
      end
  end.

Ltac settle :=
  cbn [returnData_push returnData requests];
  repeat match goal with
    | |- True => exact I
    | |- exists _, _ => eexists
    | |- _ /\ _ => split
    | |- _ = _ => first [eassumption | reflexivity]
    end.

Section ParsingOperations.

Variable h : Host.
Variable i : nat.
Variable s : State.


End ParsingOperations.




(** The tests on texts that are known are decided. *)
Ltac is_literal t :=
  lazymatch t with
  | String _ _ => idtac
  | EmptyString => idtac
  end.

Ltac eval_tests :=
  repeat match goal with
    | |- context [String.eqb ?a ?b] =>
        is_literal a; is_literal b;
        let v := eval vm_compute in (String.eqb a b) in
        change (String.eqb a b) with v
    end;
  cbv beta iota.

Section ParsingUpload.

Variable h : Host.
Variable i : nat.
Variable s s' : State.


(** X17.  The operation asyncSubmit posts the file to the async path and gives
    the request identifier of the answer with the mark submitted. *)
Theorem Parsing_asyncSubmit :
  getNodeParameter h PString "operation" i None = Ok "asyncSubmit" ->
  DocumentParsingUpstage.try_block h i s = (Ok tt, s') ->
  exists options response,
    requests s' = push (requests s) options /\
    method options = "POST" /\
    url options = "https://api.upstage.ai/v1/document-digitization/async" /\
    httpRequestWithAuthentication h (List.length (requests s)) options = Ok response /\
    returnData s' =
    push (returnData s)
      (obj_item
         (VObj [("request_id", opt_get response "request_id");
                ("submitted", VBool true)]) i).
Proof.
  intros E_operation E. returned E.
  unfold DocumentParsingUpstage.try_block.
  rewrite E_operation, bind_lift. cbv beta iota.
  change (String.eqb "asyncSubmit" "sync" || String.eqb "asyncSubmit" "asyncSubmit")
    with true.
  cbv iota. unfold DocumentParsingUpstage.upload.
  repeat (eval_tests; run_more); try exact I.
  all: rewrite ?if_run; eval_tests; settle.
Qed.

End ParsingUpload.


Lemma Parsing_asyncSubmit_witness :
  let h := host_parsing "asyncSubmit" "" (VObj [("request_id", VStr "r-1")]) in
  exists options response,
    requests (snd (DocumentParsingUpstage.try_block h 0 start)) =
      push (requests start) options /\
    method options = "POST" /\
    url options = "https://api.upstage.ai/v1/document-digitization/async" /\
    httpRequestWithAuthentication h (List.length (requests start)) options =
      Ok response /\
    returnData (snd (DocumentParsingUpstage.try_block h 0 start)) =
    push (returnData start)
      (obj_item
         (VObj [("request_id", opt_get response "request_id");
                ("submitted", VBool true)]) 0).
Proof.
  intros h.
  apply (Parsing_asyncSubmit h 0 start
           (snd (DocumentParsingUpstage.try_block h 0 start)));
    [reflexivity | vm_compute; reflexivity].
Defined.

Section ParsingRequest.

Variable h : Host.
Variable i : nat.
Variable s s' : State.
Variable operation name model ocr : string.
Variable base64Categories outputFormats : list string.
Variable mergeMultipage coordinates chartRecognition : bool.
Variable d : IBinaryData.
Variable buf : Buffer.

Let file : FileDescriptor :=
  {| buffer := buf;
     filename := string_or (fileName d) "upload";
     contentType := string_or (mimeType d) "application/octet-stream" |}.

Let fields : list (string * string) :=
  ([("model", model);
    ("ocr", ocr);
    ("output_formats", JSON_stringify h outputFormats);
    ("coordinates", if coordinates then "true" else "false");
    ("chart_recognition", if chartRecognition then "true" else "false")] ++
   (if 0 <? List.length base64Categories
    then [("base64_encoding", JSON_stringify h base64Categories)] else []) ++
   (if mergeMultipage then [("merge_multipage_tables", "true")] else []))%list.


End ParsingRequest.


(* ================================================================= *)
(** * The classification node: the schema of the request *)

Section ClassificationSchema.

Variable h : Host.
Variable i : nat.
Variable s s' : State.

(** X19.  With a raw schema, the classification node issues no request unless
    the text is a JSON array: an empty text, a text that does not parse and a
    value that is not an array are refused, each with its message. *)
Theorem Classification_raw_schema_refused
    (schemaInputType rawJsonSchema inputType imageUrl : string) :
  getNodeParameter h PString "schemaInputType" i None = Ok schemaInputType ->
  schemaInputType <> "form" ->
  getNodeParameter h PString "rawJsonSchema" i None = Ok rawJsonSchema ->
  getNodeParameter h PString "inputType" i None = Ok inputType ->
  inputType <> "binary" ->
  getNodeParameter h PString "imageUrl" i None = Ok imageUrl ->
  imageUrl <> "" ->
  (forall elements, JSON_parse rawJsonSchema <> Some (VArr elements)) ->
  fails_at_once
    (fun e =>
       e = Error (if String.eqb rawJsonSchema ""
                  then "Raw JSON schema is required when input type is JSON."
                  else "Invalid JSON format: " ++
                       match JSON_parse rawJsonSchema with
                       | None => syntaxErrorMessage h rawJsonSchema
                       | Some _ => "Raw JSON schema must be an array."
                       end) \/
       parameter_error h i e)
    (DocumentClassificationUpstage.try_block h i) s.
Proof.
  intros E_schema Hschema E_raw E_input Hinput E_url Hurl Hraw.
  apply String.eqb_neq in Hschema, Hurl. apply eqb_binary_false in Hinput.
  unfold fails_at_once, DocumentClassificationUpstage.try_block.
  rewrite E_input.
  repeat (run_step_with
            ltac:(rewrite ?E_schema, ?Hschema, ?E_raw, ?Hinput, ?E_url, ?Hurl));
    try refused.
  all: match goal with
       | H : DocumentClassificationUpstage.parse_oneOf _ _ = Ok _ |- _ =>
           apply parse_oneOf_Ok in H; destruct H as (l & E_parse & _);
           exfalso; exact (Hraw l E_parse)
       end.
Qed.

(** X20.  The request of the classification node asks for a text that is one
    of the alternatives: the categories of the form, each as its label with
    its description, or the elements of the raw schema as they were parsed. *)
Theorem Classification_request_oneOf (schemaInputType : string) :
  getNodeParameter h PString "schemaInputType" i None = Ok schemaInputType ->
  DocumentClassificationUpstage.try_block h i s = (Ok tt, s') ->
  exists options requestBody oneOf,
    requests s' = push (requests s) options /\
    body options = JsonBody requestBody /\
    opt_get (opt_get (opt_get requestBody "response_format") "json_schema") "schema" =
      VObj [("type", VStr "string"); ("oneOf", oneOf)] /\
    if String.eqb schemaInputType "form" then
      exists categories cats,
        getNodeParameter h PCategories "categories" i None = Ok categories /\
        values categories = Some cats /\
        oneOf = VArr (map (fun cat => VObj [("const", VStr (label cat));
                                            ("description", VStr (description cat))])
                        cats)
    else
      exists rawJsonSchema elements,
        getNodeParameter h PString "rawJsonSchema" i None = Ok rawJsonSchema /\
        JSON_parse rawJsonSchema = Some (VArr elements) /\
        oneOf = VArr elements.
Proof.
  intros E_schema E. returned E.
  unfold DocumentClassificationUpstage.try_block.
  repeat first
    [ run_step_with ltac:(rewrite ?E_schema)
    | rewrite bind_httpRequest;
      match goal with
      | |- context [match ?o with Ok _ => _ | Throw _ => _ end] => destruct o eqn:?
      end
    | match goal with
      | |- context [bind (match ?x with _ => _ end) _ _] => destruct x eqn:?
      end ];
    try exact I; rewrite ?if_run.
  all: try match goal with
         | H : DocumentClassificationUpstage.parse_oneOf _ _ = Ok _ |- _ =>
             apply parse_oneOf_Ok in H; destruct H as (elements & E_parse & ->)
         end.
  all: settle.
Qed.

End ClassificationSchema.

Lemma Classification_raw_schema_refused_witness :
  fails_at_once
    (fun e =>
       e = Error "Invalid JSON format: Raw JSON schema must be an array." \/
       parameter_error (host_classify "json" "{}") 0 e)
    (DocumentClassificationUpstage.try_block (host_classify "json" "{}") 0) start.
Proof.
  apply (Classification_raw_schema_refused (host_classify "json" "{}") 0 start
           "json" "{}" "url" "https://example.com/a.png");
    try reflexivity; discriminate.
Defined.

Lemma Classification_request_oneOf_witness :
  let h := host_classify "form" "" in
  exists options requestBody oneOf,
    requests (snd (DocumentClassificationUpstage.try_block h 0 start)) =
      push (requests start) options /\
    body options = JsonBody requestBody /\
    opt_get (opt_get (opt_get requestBody "response_format") "json_schema") "schema" =
      VObj [("type", VStr "string"); ("oneOf", oneOf)] /\
    exists categories cats,
      getNodeParameter h PCategories "categories" 0 None = Ok categories /\
      values categories = Some cats /\
      oneOf = VArr (map (fun cat => VObj [("const", VStr (label cat));
                                          ("description", VStr (description cat))])
                      cats).
Proof.
  intros h.
  apply (Classification_request_oneOf h 0 start
           (snd (DocumentClassificationUpstage.try_block h 0 start)) "form");
    [reflexivity | vm_compute; reflexivity].
Defined.
(* ================================================================= *)
(** * The image, the chunks and the file of the extraction node *)

Ltac settle_more :=
  cbn [returnData_push returnData requests];
  repeat (cbv beta iota;
          match goal with
          | |- True => exact I
          | |- exists _, _ => eexists
          | |- _ /\ _ => split
          | |- _ = _ => first [eassumption | reflexivity]
          | |- _ <> _ => apply String.eqb_neq; eassumption
          end).

Ltac run_all tac :=
  repeat (tac; eval_tests; run_more); try exact I; rewrite ?if_run; tac; eval_tests.


Section Image.

Variable h : Host.
Variable i : nat.
Variable s : State.


End Image.

Lemma passthrough_Ok (items : list INodeExecutionData) (i : nat)
    (item out o : INodeExecutionData) :
  nth_error items i = Some item ->
  InformationExtractionUpstage.passthrough items i out = Ok o ->
  json o = json out /\ pairedItem o = pairedItem out /\
  binary o = match binary item with Some b => Some b | None => binary out end.
Proof.
  unfold InformationExtractionUpstage.passthrough. intros ->.
  destruct (binary item); intros E; injection E as <-; repeat split; reflexivity.
Qed.

Lemma passthrough_json (items : list INodeExecutionData) (i : nat)
    (out o : INodeExecutionData) :
  InformationExtractionUpstage.passthrough items i out = Ok o ->
  json o = json out /\ pairedItem o = pairedItem out.
Proof.
  unfold InformationExtractionUpstage.passthrough.
  destruct (nth_error items i) as [item|]; [|discriminate].
  destruct (binary item); intros E; injection E as <-; split; reflexivity.
Qed.

Lemma passthrough_defined (items : list INodeExecutionData) (i : nat)
    (out : INodeExecutionData) (e : Thrown) :
  i < List.length items ->
  InformationExtractionUpstage.passthrough items i out <> Throw e.
Proof.
  intros Hi. unfold InformationExtractionUpstage.passthrough.
  destruct (nth_error items i) as [item|] eqn:E.
  - destruct (binary item); discriminate.
  - apply nth_error_None in E. lia.
Qed.

Section ExtractionRequests.

Variable h : Host.
Variable i : nat.
Variable s s' : State.

(** X22.  The operation extract asks for chunks when the number of pages in a
    chunk is positive, and only then. *)
Theorem Extraction_chunking (pagesPerChunk : Z) :
  getNodeParameter h PString "operation" i None = Ok "extract" ->
  getNodeParameter h PNumber "pagesPerChunk" i (Some 0%Z) = Ok pagesPerChunk ->
  InformationExtractionUpstage.try_block h i s = (Ok tt, s') ->
  exists options requestBody,
    requests s' = push (requests s) options /\
    url options = "https://api.upstage.ai/v1/information-extraction" /\
    body options = JsonBody requestBody /\
    opt_get requestBody "chunking" =
    if (0 <? pagesPerChunk)%Z
    then VObj [("pages_per_chunk", VNum (string_of_Z pagesPerChunk))]
    else VUndefined.
Proof.
  intros E_operation E_pages E. returned E.
  unfold InformationExtractionUpstage.try_block, InformationExtractionUpstage.extract,
    InformationExtractionUpstage.dataUrlOrHttp.
  rewrite E_operation.
  run_all ltac:(rewrite ?E_pages).
  all: destruct (0 <? pagesPerChunk)%Z; settle_more.
Qed.

(** X23.  The operation that generates a schema sends the prompt, without
    the blanks around it, before the image, and no prompt at all when the
    parameter is blank. *)
Theorem Extraction_schema_prompt (operation prompt model : string) :
  getNodeParameter h PString "operation" i None = Ok operation ->
  operation <> "extract" ->
  getNodeParameter h PString "prompt" i (Some "") = Ok prompt ->
  getNodeParameter h PString "model" i None = Ok model ->
  InformationExtractionUpstage.try_block h i s = (Ok tt, s') ->
  exists options image,
    requests s' = push (requests s) options /\
    url options =
      "https://api.upstage.ai/v1/information-extraction/schema-generation" /\
    body options =
    JsonBody
      (VObj [("model", VStr model);
             ("messages",
              VArr ((if String.eqb (trim prompt) "" then []
                     else [VObj [("role", VStr "user");
                                 ("content", VStr (trim prompt))]]) ++
                    [InformationExtractionUpstage.image_message image])%list)]).
Proof.
  intros E_operation Hoperation E_prompt E_model E. returned E.
  apply String.eqb_neq in Hoperation.
  unfold InformationExtractionUpstage.try_block, InformationExtractionUpstage.schema,
    InformationExtractionUpstage.dataUrlOrHttp.
  rewrite E_operation.
  run_all ltac:(rewrite ?Hoperation, ?E_prompt, ?E_model).
  all: destruct (String.eqb (trim prompt) ""); settle_more.
Qed.

(** X24.  The operation that generates a schema passes the files of the input
    item on with its output; the operation extract gives an item without
    files. *)
Theorem Extraction_binary_passthrough (operation : string) (item : INodeExecutionData) :
  getNodeParameter h PString "operation" i None = Ok operation ->
  nth_error (getInputData h) i = Some item ->
  InformationExtractionUpstage.try_block h i s = (Ok tt, s') ->
  exists o,
    returnData s' = push (returnData s) o /\
    pairedItem o = Some i /\
    binary o = if String.eqb operation "extract" then None else binary item.
Proof.
  intros E_operation E_item E. returned E.
  unfold InformationExtractionUpstage.try_block, InformationExtractionUpstage.extract,
    InformationExtractionUpstage.schema, InformationExtractionUpstage.dataUrlOrHttp.
  run_all ltac:(rewrite ?E_operation).
  all: try match goal with
         | H : InformationExtractionUpstage.passthrough _ _ _ = Ok _ |- _ =>
             apply (passthrough_Ok _ _ item) in H; [|exact E_item];
             destruct H as (_ & Hpaired & Hbinary)
         end.
  all: settle_more.
  all: try (rewrite Hbinary; destruct (binary item); reflexivity).
Qed.

End ExtractionRequests.


Lemma Extraction_chunking_witness :
  let h := host_extract "extract" "full" 2 (VObj []) in
  exists options requestBody,
    requests (snd (InformationExtractionUpstage.try_block h 0 start)) =
      push (requests start) options /\
    url options = "https://api.upstage.ai/v1/information-extraction" /\
    body options = JsonBody requestBody /\
    opt_get requestBody "chunking" = VObj [("pages_per_chunk", VNum "2")].
Proof.
  intros h.
  apply (Extraction_chunking h 0 start
           (snd (InformationExtractionUpstage.try_block h 0 start)) 2%Z
           eq_refl eq_refl).
  vm_compute. reflexivity.
Defined.

Lemma Extraction_schema_prompt_witness :
  let h := host_extract "schema" "full" 0 (VObj []) in
  exists options image,
    requests (snd (InformationExtractionUpstage.try_block h 0 start)) =
      push (requests start) options /\
    url options =
      "https://api.upstage.ai/v1/information-extraction/schema-generation" /\
    body options =
    JsonBody
      (VObj [("model", VStr "information-extract");
             ("messages",
              VArr [VObj [("role", VStr "user"); ("content", VStr "the totals")];
                    InformationExtractionUpstage.image_message image])]).
Proof.
  intros h.
  apply (Extraction_schema_prompt h 0 start
           (snd (InformationExtractionUpstage.try_block h 0 start))
           "schema" "  the totals " "information-extract" eq_refl);
    [discriminate | reflexivity | reflexivity | vm_compute; reflexivity].
Defined.

Lemma Extraction_binary_passthrough_witness :
  let h := host_extract "schema" "full" 0 (VObj []) in
  exists o,
    returnData (snd (InformationExtractionUpstage.try_block h 0 start)) =
      push (returnData start) o /\
    pairedItem o = Some 0 /\
    binary o = binary pdf_item.
Proof.
  intros h.
  apply (Extraction_binary_passthrough h 0 start
           (snd (InformationExtractionUpstage.try_block h 0 start))
           "schema" pdf_item eq_refl eq_refl).
  vm_compute. reflexivity.
Defined.
(* ================================================================= *)
(** * The response format, failures and answers passed on *)

(** A response format given as an object is taken as it is, whatever it
    holds. *)
Example full_response_format_object_unchecked :
  InformationExtractionUpstage.full_response_format host_hello (VObj []) = Ok (VObj []).
Proof. reflexivity. Qed.

Ltac failed E :=
  match type of E with
  | ?m = (Throw ?e1, ?s1) =>
      pattern e1, s1;
      match goal with
      | |- ?P e1 s1 =>
          let H := fresh "H" in
          assert (H : match m with
                      | (Throw e2, s2) => P e2 s2
                      | (Ok _, _) => True
                      end);
          [ clear E; cbv beta | rewrite E in H; exact H ]
      end
  end.

Ltac by_request :=
  cbn [returnData_push returnData requests]; cbv beta iota;
  first
    [ exact I
    | left; reflexivity
    | right; eexists; split; [reflexivity | eassumption] ].

Section Failures.

Variable h : Host.
Variable i : nat.
Variable s : State.

(** X26.  Once the service has answered, the classification and the
    extraction nodes do not fail the item: a failure of the try block of an
    item of the input comes before any request, or it is the failure of the
    request. *)
Theorem failure_before_answer (e : Thrown) (s' : State) :
  i < List.length (getInputData h) ->
  (DocumentClassificationUpstage.try_block h i s = (Throw e, s') ->
   failed_by_request h s e s') /\
  (InformationExtractionUpstage.try_block h i s = (Throw e, s') ->
   failed_by_request h s e s').
Proof.
  intros Hi. split; intros E; failed E; unfold failed_by_request.
  - unfold DocumentClassificationUpstage.try_block.
    run_all idtac; by_request.
  - unfold InformationExtractionUpstage.try_block, InformationExtractionUpstage.extract,
      InformationExtractionUpstage.schema, InformationExtractionUpstage.dataUrlOrHttp.
    run_all idtac;
      try match goal with
          | H : InformationExtractionUpstage.passthrough _ _ _ = Throw _ |- _ =>
              exfalso; exact (passthrough_defined _ _ _ _ Hi H)
          end;
      by_request.
Qed.

End Failures.

Lemma failure_before_answer_witness :
  let h := sample_host [plain_item] (url_strings "https://example.com/a.png") true
             (Throw (Error "Service unavailable")) in
  failed_by_request h start (Error "Service unavailable")
    (snd (DocumentClassificationUpstage.try_block h 0 start)).
Proof.
  intros h.
  apply (proj1 (failure_before_answer h 0 start (Error "Service unavailable")
                  (snd (DocumentClassificationUpstage.try_block h 0 start))
                  (Nat.lt_0_succ 0))).
  vm_compute. reflexivity.
Defined.

Section FullResponse.

Variable h : Host.
Variable i : nat.
Variable s s' : State.

(** X27.  Outside the modes that pick a part of the answer, every node gives
    the answer of the service as it is: the OCR node outside the modes text,
    pages, words and confidence, the operation sync of the parsing node
    outside the modes of the content and of the elements, the classification
    node outside the mode classification, the extraction node in the mode
    full. *)
Theorem full_response_passed_on (returnMode : string) :
  getNodeParameter h PString "returnMode" i None = Ok returnMode ->
  (existsb (String.eqb returnMode) ["text"; "pages"; "words"; "confidence"] = false ->
   DocumentOCRUpstage.try_block h i s = (Ok tt, s') ->
   passed_on h i s s') /\
  (getNodeParameter h PString "operation" i None = Ok "sync" ->
   existsb (String.eqb returnMode)
     ["content_html"; "content_markdown"; "content_text"; "elements"] = false ->
   DocumentParsingUpstage.try_block h i s = (Ok tt, s') ->
   passed_on h i s s') /\
  (String.eqb returnMode "classification" = false ->
   DocumentClassificationUpstage.try_block h i s = (Ok tt, s') ->
   passed_on h i s s') /\
  (returnMode = "full" ->
   InformationExtractionUpstage.try_block h i s = (Ok tt, s') ->
   passed_on h i s s').
Proof.
  intros E_mode. split; [|split; [|split]].
  - intros Hmode E. cbn [existsb] in Hmode.
    repeat (apply orb_false_elim in Hmode; destruct Hmode as [?Hmode Hmode]).
    returned E. unfold passed_on, DocumentOCRUpstage.try_block.
    run_all ltac:(rewrite ?E_mode, ?Hmode0, ?Hmode1, ?Hmode2, ?Hmode3).
    all: settle_more.
  - intros E_operation Hmode E. cbn [existsb] in Hmode.
    repeat (apply orb_false_elim in Hmode; destruct Hmode as [?Hmode Hmode]).
    returned E. unfold passed_on, DocumentParsingUpstage.try_block.
    rewrite E_operation, bind_lift. cbv beta iota.
    change (String.eqb "sync" "sync" || String.eqb "sync" "asyncSubmit") with true.
    cbv iota. unfold DocumentParsingUpstage.upload.
    run_all ltac:(rewrite ?E_mode, ?Hmode0, ?Hmode1, ?Hmode2, ?Hmode3).
    all: settle_more.
  - intros Hmode E.
    returned E. unfold passed_on, DocumentClassificationUpstage.try_block.
    run_all ltac:(rewrite ?E_mode, ?Hmode).
    all: settle_more.
  - intros -> E.
    returned E.
    unfold passed_on, InformationExtractionUpstage.try_block,
      InformationExtractionUpstage.extract, InformationExtractionUpstage.schema,
      InformationExtractionUpstage.dataUrlOrHttp.
    run_all ltac:(rewrite ?E_mode).
    all: try match goal with
           | H : InformationExtractionUpstage.passthrough _ _ _ = Ok _ |- _ =>
               apply passthrough_json in H; destruct H as [Hjson Hpaired]
           end.
    all: settle_more.
Qed.

End FullResponse.

Lemma full_response_passed_on_witness :
  let h := host_extract "extract" "full" 0 (VObj [("model", VStr "m")]) in
  passed_on h 0 start (snd (InformationExtractionUpstage.try_block h 0 start)).
Proof.
  intros h.
  apply (full_response_passed_on h 0 start
           (snd (InformationExtractionUpstage.try_block h 0 start)) "full" eq_refl);
    [reflexivity | vm_compute; reflexivity].
Defined.

(* ================================================================= *)
(** * The OCR node answered *)

Section OCRAnswered.

Variable h : Host.
Variable i : nat.
Variable s : State.
Variable name model schema returnMode : string.
Variable d : IBinaryData.
Variable buf : Buffer.
Variable response : value.
Hypothesis E_name : getNodeParameter h PString "binaryPropertyName" i None = Ok name.
Hypothesis E_model : getNodeParameter h PString "model" i None = Ok model.
Hypothesis E_schema : getNodeParameter h PString "schema" i None = Ok schema.
Hypothesis E_mode : getNodeParameter h PString "returnMode" i None = Ok returnMode.
Hypothesis E_binary : binary_of (getInputData h) i name = Ok d.
Hypothesis H_size :
  forall n, fileSize d = Some (FileSizeNumber n) -> (n <= 50 * 1024 * 1024)%Z.
Hypothesis E_buffer : getBinaryDataBuffer h i name = Ok buf.
Hypothesis E_answer :
  forall options,
    httpRequestWithAuthentication h (List.length (requests s)) options = Ok response.
Hypothesis H_truthy : truthy response = true.
Hypothesis H_object : typeof_object response = true.



End OCRAnswered.



(** An answer with null for its text gives the empty string. *)
Example OCR_text_null :
  fst (DocumentOCRUpstage.execute
         (sample_host [pdf_item] sample_strings false (Ok (VObj [("text", VNull)])))) =
  Ok [[ {| json := VObj [("text", VStr "")]; binary := None; pairedItem := Some 0 |} ]].
Proof. vm_compute. reflexivity. Qed.



(* ================================================================= *)
(** * The response format read from a text *)

(** X25.  A response format given as a text is accepted only when what is
    read from it is an object or an array with a type and a JSON schema that
    are not falsy.  The value is what the text parses to once the zero-width
    characters and the line breaks of Windows and of the Mac are taken out of
    the trimmed text; when that does not parse, it is what the repaired text
    parses to, that is the same text with its line breaks and runs of spaces
    reduced and its structure fixed. *)
Theorem full_response_format_checked (h : Host) (text : string) (v : value) :
  InformationExtractionUpstage.full_response_format h (VStr text) = Ok v ->
  let cleaned :=
    replace_all macBreak (replace_all windowsBreak (replace_all zeroWidth (trim text))) in
  let repaired :=
    validateAndFixJsonStructure
      (trim
         (replace_all spaceAfterSeparator
            (replace_all spaceBeforeSeparator
               (replace_all spaces (replace_all lineBreak cleaned))))) in
  (JSON_parse cleaned = Some v \/
   JSON_parse cleaned = None /\ JSON_parse repaired = Some v) /\
  ((exists props, v = VObj props) \/ (exists elements, v = VArr elements)) /\
  truthy (opt_get v "type") = true /\
  truthy (opt_get v "json_schema") = true.
Proof.
  unfold InformationExtractionUpstage.full_response_format, JSON_parse_or_throw.
  cbv zeta.
  set (cleaned := replace_all macBreak _).
  set (repaired := validateAndFixJsonStructure _).
  intros E.
  assert (Hchecked :
    forall parsed,
      (if negb (typeof_object parsed) || nullish parsed
       then Throw (Error "Parsed result is not a valid JSON object")
       else if negb (truthy (opt_get parsed "type")) ||
               negb (truthy (opt_get parsed "json_schema"))
            then Throw (Error "Missing required fields: type or json_schema")
            else Ok parsed) = Ok v ->
      parsed = v /\
      ((exists props, v = VObj props) \/ (exists elements, v = VArr elements)) /\
      truthy (opt_get v "type") = true /\ truthy (opt_get v "json_schema") = true).
  { intros parsed.
    destruct (typeof_object parsed) eqn:E1; [|discriminate].
    destruct (nullish parsed) eqn:E2; [discriminate|].
    destruct (truthy (opt_get parsed "type")) eqn:E3; [|discriminate].
    destruct (truthy (opt_get parsed "json_schema")) eqn:E4; [|discriminate].
    cbn. intros H. injection H as <-. repeat split; try assumption.
    destruct parsed; try discriminate E1; try discriminate E2;
      [right | left]; eexists; reflexivity. }
  destruct (JSON_parse cleaned) as [parsed|] eqn:E_cleaned.
  - apply Hchecked in E. destruct E as (-> & H1 & H2 & H3).
    repeat split; try assumption. left. reflexivity.
  - destruct (JSON_parse repaired) as [parsed|] eqn:E_repaired; [|discriminate].
    apply Hchecked in E. destruct E as (-> & H1 & H2 & H3).
    repeat split; try assumption. right. split; reflexivity.
Qed.

Lemma full_response_format_checked_witness :
  let text :=
    "  {" ++ q "type" ++ ": " ++ q "json_schema" ++ ", " ++
    q "json_schema" ++ ": {}} " in
  let v := VObj [("type", VStr "json_schema"); ("json_schema", VObj [])] in
  let cleaned :=
    replace_all macBreak (replace_all windowsBreak (replace_all zeroWidth (trim text))) in
  let repaired :=
    validateAndFixJsonStructure
      (trim
         (replace_all spaceAfterSeparator
            (replace_all spaceBeforeSeparator
               (replace_all spaces (replace_all lineBreak cleaned))))) in
  (JSON_parse cleaned = Some v \/
   JSON_parse cleaned = None /\ JSON_parse repaired = Some v) /\
  ((exists props, v = VObj props) \/ (exists elements, v = VArr elements)) /\
  truthy (opt_get v "type") = true /\
  truthy (opt_get v "json_schema") = true.
Proof.
  intros text v.
  apply (full_response_format_checked host_hello text v).
  vm_compute. reflexivity.
Defined.

(** A text that parses only once it is repaired: its last brace is
    missing. *)
Example full_response_format_repaired :
  let text :=
    "{" ++ q "type" ++ ": " ++ q "json_schema" ++ ", " ++
    q "json_schema" ++ ": {" ++ q "name" ++ ": " ++ q "invoice" ++ "}" in
  JSON_parse text = None /\
  InformationExtractionUpstage.full_response_format host_hello (VStr text) =
  Ok (VObj [("type", VStr "json_schema");
            ("json_schema", VObj [("name", VStr "invoice")])]).
Proof. split; vm_compute; reflexivity. Qed.

(** A number that is written with digits other than zero and rounds to zero
    is falsy. *)
Example number_nonzero_rounds :
  number_nonzero "1e-400" = false /\
  number_nonzero "2e-324" = false /\
  number_nonzero "3e-324" = true /\
  number_nonzero "0.000" = false /\
  number_nonzero "-0.5E1" = true /\
  truthy (VNum "1e-400") = false.
Proof. repeat split; vm_compute; reflexivity. Qed.

(* ================================================================= *)
(** * The item that stands for a failure *)

Section ErrorItem.

Variable h : Host.
Variable i : nat.
Variable s s1 : State.
Variable e : Thrown.
Hypothesis flag : continueOnFail h = true.

Let after (o : INodeExecutionData) : outcome unit * State :=
  (Ok tt, {| returnData := push (returnData s1) o; requests := requests s1 |}).

(** X28.  With the flag, whatever value the try block of an item throws, the
    OCR and the parsing nodes push one item that stands for the failure: it
    carries the status code of the failure when that is a number, and the
    time; the OCR node adds the code of the failure, or unknown_error.  The
    classification and the extraction nodes read the message of the value
    they caught without a test: when there is a message to read, the item
    carries it alone, or the text Unknown error when it is falsy; when the
    value is null or undefined the round fails with the error of that
    reading and no item is pushed. *)
Theorem error_item_details :
  (DocumentOCRUpstage.try_block h i s = (Throw e, s1) ->
   exists o,
     DocumentOCRUpstage.round h i s = after o /\
     opt_get (json o) "statusCode" = status_number e /\
     opt_get (json o) "error_code" = or_else (code e) (VStr "unknown_error") /\
     opt_get (json o) "timestamp" = VStr (toISOString h i)) /\
  (DocumentParsingUpstage.try_block h i s = (Throw e, s1) ->
   exists o,
     DocumentParsingUpstage.round h i s = after o /\
     opt_get (json o) "statusCode" = status_number e /\
     opt_get (json o) "error_code" = VUndefined /\
     opt_get (json o) "timestamp" = VStr (toISOString h i)) /\
  (DocumentClassificationUpstage.try_block h i s = (Throw e, s1) ->
   match message_or_unknown e with
   | Ok reported =>
       DocumentClassificationUpstage.round h i s =
       after {| json := VObj [("error", reported)];
                binary := None;
                pairedItem := Some i |}
   | Throw failure =>
       DocumentClassificationUpstage.round h i s = (Throw failure, s1)
   end) /\
  (InformationExtractionUpstage.try_block h i s = (Throw e, s1) ->
   match message_or_unknown e with
   | Ok reported =>
       InformationExtractionUpstage.round h i s =
       after {| json := VObj [("error", reported)];
                binary := None;
                pairedItem := Some i |}
   | Throw failure =>
       InformationExtractionUpstage.round h i s = (Throw failure, s1)
   end).
Proof.
  unfold after.
  split; [|split; [|split]]; intros E.
  - unfold DocumentOCRUpstage.round, try_catch. rewrite E.
    unfold DocumentOCRUpstage.catch_block.
    destruct e as [| |[|] m sc c]; cbn [instanceofError message]; 
      rewrite ?bind_lift, ?bind_ret; cbv zeta beta iota; rewrite flag;
      (eexists; split; [reflexivity|]; repeat split; reflexivity).
  - unfold DocumentParsingUpstage.round, try_catch. rewrite E.
    unfold DocumentParsingUpstage.catch_block. rewrite flag.
    destruct e as [| |[|] m sc c]; cbn [instanceofError message]; 
      rewrite ?bind_lift, ?bind_ret; cbv zeta beta iota;
      (eexists; split; [reflexivity|]; repeat split; reflexivity).
  - unfold DocumentClassificationUpstage.round, try_catch. rewrite E.
    unfold DocumentClassificationUpstage.catch_block. rewrite flag.
    rewrite (message_or_unknown_spec e).
    destruct (message e) as [m|failure]; rewrite bind_lift; reflexivity.
  - unfold InformationExtractionUpstage.round, try_catch. rewrite E.
    unfold InformationExtractionUpstage.catch_block. rewrite flag.
    rewrite (message_or_unknown_spec e).
    destruct (message e) as [m|failure]; rewrite bind_lift; reflexivity.
Qed.

End ErrorItem.

Lemma error_item_details_witness :
  let h := sample_host [pdf_item] sample_strings true (Throw too_many_requests) in
  exists o,
    DocumentOCRUpstage.round h 0 start =
      (Ok tt,
       {| returnData :=
            push (returnData (snd (DocumentOCRUpstage.try_block h 0 start))) o;
          requests := requests (snd (DocumentOCRUpstage.try_block h 0 start)) |}) /\
    opt_get (json o) "statusCode" = VNum "429" /\
    opt_get (json o) "error_code" = VStr "ERR_BAD_REQUEST" /\
    opt_get (json o) "timestamp" = VStr "2024-05-01T00:00:00.000Z".
Proof.
  intros h.
  apply (proj1 (error_item_details h 0 start
                  (snd (DocumentOCRUpstage.try_block h 0 start))
                  too_many_requests eq_refl)).
  vm_compute. reflexivity.
Defined.

(** A request that fails with the value null, with the flag: the OCR node
    pushes the item of an unknown error, the classification node fails. *)
Example error_item_of_null :
  let h := sample_host [pdf_item] sample_strings true (Throw ThrownNull) in
  fst (DocumentOCRUpstage.execute h) =
    Ok [[ {| json := VObj [("error", VStr "Unknown error");
                           ("statusCode", VUndefined);
                           ("error_code", VStr "unknown_error");
                           ("timestamp", VStr "2024-05-01T00:00:00.000Z")];
             binary := None;
             pairedItem := Some 0 |} ]] /\
  fst (DocumentClassificationUpstage.execute host_null_failure) =
    Throw (Error "Cannot read properties of null (reading 'message')").
Proof. split; vm_compute; reflexivity. Qed.

(* ================================================================= *)
(** * Runs that return *)

Lemma binary_of_throws_value (items : list INodeExecutionData) (i : nat)
    (name : string) (e : Thrown) :
  binary_of items i name = Throw e -> is_nullish_thrown e = false.
Proof.
  unfold binary_of.
  destruct (nth_error items i) as [item|]; [|intros H; injection H as <-; reflexivity].
  destruct (binary item) as [b|]; [|intros H; injection H as <-; reflexivity].
  destruct (binary_get name b); [discriminate|].
  intros H; injection H as <-; reflexivity.
Qed.

Lemma passthrough_throws_value (items : list INodeExecutionData) (i : nat)
    (out : INodeExecutionData) (e : Thrown) :
  InformationExtractionUpstage.passthrough items i out = Throw e ->
  is_nullish_thrown e = false.
Proof.
  unfold InformationExtractionUpstage.passthrough.
  destruct (nth_error items i) as [item|]; [|intros H; injection H as <-; reflexivity].
  destruct (binary item); discriminate.
Qed.

Ltac throws_value Hp Hb Hr :=
  first
    [ exact I
    | reflexivity
    | eapply Hp; eassumption
    | eapply Hb; eassumption
    | eapply Hr; eassumption
    | eapply binary_of_throws_value; eassumption
    | eapply passthrough_throws_value; eassumption ].

(** When the host throws neither null nor undefined, neither do the try
    blocks of the classification and the extraction nodes. *)
Lemma Classification_throws_value (h : Host) (i : nat) (s : State) :
  throws_values h ->
  match DocumentClassificationUpstage.try_block h i s with
  | (Throw e, _) => is_nullish_thrown e = false
  | (Ok _, _) => True
  end.
Proof.
  intros (Hp & Hb & Hr).
  unfold DocumentClassificationUpstage.try_block.
  run_all idtac; throws_value Hp Hb Hr.
Qed.

Lemma Extraction_throws_value (h : Host) (i : nat) (s : State) :
  throws_values h ->
  match InformationExtractionUpstage.try_block h i s with
  | (Throw e, _) => is_nullish_thrown e = false
  | (Ok _, _) => True
  end.
Proof.
  intros (Hp & Hb & Hr).
  unfold InformationExtractionUpstage.try_block, InformationExtractionUpstage.extract,
    InformationExtractionUpstage.schema, InformationExtractionUpstage.dataUrlOrHttp.
  run_all idtac; throws_value Hp Hb Hr.
Qed.

Lemma try_catch_returns_values (m : M unit) (handler : Thrown -> M unit) :
  (forall s, match m s with
             | (Throw e, _) => is_nullish_thrown e = false
             | (Ok _, _) => True
             end) ->
  (forall e s, is_nullish_thrown e = false -> exists s', handler e s = (Ok tt, s')) ->
  forall s, exists s', try_catch m handler s = (Ok tt, s').
Proof.
  intros Hm Hh s. unfold try_catch. specialize (Hm s).
  destruct (m s) as [[[]|e] s1]; [eexists; reflexivity|].
  apply Hh. exact Hm.
Qed.

Lemma sample_host_throws_values (items : list INodeExecutionData)
    (strings : list (string * string)) (flag : bool) (response : outcome value) :
  match response with
  | Throw e => is_nullish_thrown e = false
  | Ok _ => True
  end ->
  throws_values (sample_host items strings flag response).
Proof.
  intros Hresponse. split; [|split].
  - intros t name i fallback e. cbn [getNodeParameter sample_host].
    unfold sample_parameter.
    destruct t; try destruct (assoc name strings); try discriminate;
      destruct fallback; try discriminate;
      intros H; injection H as <-; reflexivity.
  - intros i name e. cbn. discriminate.
  - intros k options e. cbn [httpRequestWithAuthentication sample_host].
    intros E. rewrite E in Hresponse. exact Hresponse.
Qed.

(** X9.  With the flag, a run of the OCR node and a run of the parsing node
    always return, whatever is thrown in the try blocks: the OCR node gives
    as many items as it received, the parsing node at most as many.  The
    extraction and the classification nodes return as many items as they
    received when the host throws neither null nor undefined: of these two
    values their catch blocks cannot read the message. *)
Theorem execute_returns_with_flag (h : Host) :
  continueOnFail h = true ->
  (exists outs st,
     DocumentOCRUpstage.execute h = (Ok [outs], st) /\
     List.length outs = List.length (getInputData h)) /\
  (exists outs st,
     DocumentParsingUpstage.execute h = (Ok [outs], st) /\
     List.length outs <= List.length (getInputData h)) /\
  (throws_values h ->
   (exists outs st,
      InformationExtractionUpstage.execute h = (Ok [outs], st) /\
      List.length outs = List.length (getInputData h)) /\
   (exists outs st,
      DocumentClassificationUpstage.execute h = (Ok [outs], st) /\
      List.length outs = List.length (getInputData h))).
Proof.
  intros Hflag.
  assert (Hexact : forall round,
             (forall j s, exists s', round j s = (Ok tt, s')) ->
             (forall j, emits j (round j)) ->
             exists outs st,
               run_execute (getInputData h) round = (Ok [outs], st) /\
               List.length outs = List.length (getInputData h)).
  { intros round Hret Hemits.
    destruct (for_loop_returns round (List.length (getInputData h)) Hret 0 start)
      as [s1 E].
    pose proof (for_loop_emits round (List.length (getInputData h)) 0 start
                  ltac:(intros j _; apply Hemits)) as H.
    unfold run_execute. fold start. rewrite E in *.
    destruct H as [outs [Hs1 [Hlen _]]]. cbn in Hs1.
    exists (returnData s1), s1. split; [reflexivity|]. rewrite Hs1. exact Hlen. }
  assert (HOCR : forall j e s,
             exists s', DocumentOCRUpstage.catch_block h j e s = (Ok tt, s')).
  { intros j e s. unfold DocumentOCRUpstage.catch_block.
    destruct e as [| |[|] m sc c]; cbn [instanceofError message];
      rewrite ?bind_lift, ?bind_ret; cbv zeta beta iota; rewrite Hflag;
      eexists; reflexivity. }
  assert (HParsing : forall j e s,
             exists s', DocumentParsingUpstage.catch_block h j e s = (Ok tt, s')).
  { intros j e s. unfold DocumentParsingUpstage.catch_block. rewrite Hflag.
    destruct e as [| |[|] m sc c]; cbn [instanceofError message];
      rewrite ?bind_lift, ?bind_ret; cbv zeta beta iota;
      eexists; reflexivity. }
  split; [|split; [|intros Hvalues; split]].
  - apply Hexact.
    + intros j. apply try_catch_returns. apply HOCR.
    + intros j. apply emits_try_catch;
        [apply OCR_try_block_emits | apply OCR_catch_block_emits].
  - unfold DocumentParsingUpstage.execute.
    destruct (for_loop_returns (DocumentParsingUpstage.round h)
                (List.length (getInputData h))
                ltac:(intros j; apply try_catch_returns; apply HParsing) 0 start)
      as [s1 E].
    pose proof (for_loop_emits_at_most (DocumentParsingUpstage.round h)
                  (List.length (getInputData h))
                  ltac:(intros j; apply emits_at_most_try_catch;
                        [apply Parsing_try_block_emits_at_most
                        | apply Parsing_catch_block_emits]) 0 start) as H.
    unfold run_execute. fold start. rewrite E in *.
    destruct H as [outs [Hs1 Hlen]]. cbn in Hs1.
    exists (returnData s1), s1. split; [reflexivity|]. rewrite Hs1. exact Hlen.
  - apply Hexact.
    + intros j. apply try_catch_returns_values.
      * intros s. apply Extraction_throws_value. exact Hvalues.
      * intros e s He. unfold InformationExtractionUpstage.catch_block.
        rewrite Hflag. destruct e; try discriminate He. eexists. reflexivity.
    + intros j. apply emits_try_catch;
        [apply Extraction_try_block_emits | apply Extraction_catch_block_emits].
  - apply Hexact.
    + intros j. apply try_catch_returns_values.
      * intros s. apply Classification_throws_value. exact Hvalues.
      * intros e s He. unfold DocumentClassificationUpstage.catch_block.
        rewrite Hflag. destruct e; try discriminate He. eexists. reflexivity.
    + intros j. apply emits_try_catch;
        [apply Classification_try_block_emits | apply Classification_catch_block_emits].
Qed.

Lemma execute_returns_with_flag_witness :
  (exists outs st,
     DocumentOCRUpstage.execute (host_no_file true) = (Ok [outs], st) /\
     List.length outs = 1) /\
  (exists outs st,
     DocumentClassificationUpstage.execute host_no_url = (Ok [outs], st) /\
     List.length outs = 1).
Proof.
  split.
  - apply (proj1 (execute_returns_with_flag (host_no_file true) eq_refl)).
  - apply (proj2 (proj2 (execute_returns_with_flag host_no_url eq_refl))).
    apply sample_host_throws_values. exact I.
Defined.
